(** * Audio filters of the VapourSynth core ([src/core/audiofilters.cpp])

    A shallow embedding of the constructors and the frame callbacks of the
    audio filters (AudioTrim, AudioSplice, AudioMix, ShuffleChannels,
    SplitChannels, AssumeSampleRate, BlankAudio, TestAudio) together with
    the properties the design document states about them and further
    properties of the code: what the constructors accept and build, and what
    the frames of each filter hold.

    Conventions of the embedding.
    - C++ integers are [Z]; every narrowing conversion of the source
      ([int64_t] to [int], [std::min<int>], a store through [uint16_t *]) is
      written out with [to_int] / [to_uint16]; [/] and [%] are [Z.quot] and
      [Z.rem] (C++ truncates towards zero).
    - A channel buffer is the array of its samples, one [Z] per sample.  The
      source addresses buffers in bytes (sample offsets and counts multiplied
      by [bytesPerSample]); [memcpy] and [memset] below take the same byte
      quantities and refuse what would be undefined behaviour in C++.
    - A filter callback is a function of the frame number, the activation
      reason and the instance data.  In the request phase it yields the list
      of upstream frames it asks for, in the ready phase the frame it
      returns.
    - [double] and [float] values are IEEE 754 numbers as [SpecFloat]
      specifies them (binary64: precision 53, [emax] 1024; binary32:
      precision 24, [emax] 128), rounding to nearest even. *)

From stdpp Require Import base option list list_numbers strings.
From Stdlib Require Import ZArith Lia SpecFloat.

Local Open Scope Z_scope.

(** ** Machine integers *)

Definition INT_MAX : Z := 2147483647.
Definition INT_MIN : Z := -2147483648.

(** Conversion of an integer value to [int] (two's complement narrowing). *)
Definition to_int (z : Z) : Z := (z + 2147483648) mod 4294967296 - 2147483648.

(** Conversion of an integer value to [int64_t]. *)
Definition to_int64 (z : Z) : Z :=
  (z + 9223372036854775808) mod 18446744073709551616 - 9223372036854775808.

(** Conversion of an integer value to [uint16_t]. *)
Definition to_uint16 (z : Z) : Z := z mod 65536.

(** [std::min(a, b)] is [(b < a) ? b : a]. *)
Definition std_min (a b : Z) : Z := if b <? a then b else a.
Definition std_max (a b : Z) : Z := if a <? b then b else a.

(** [std::min<int>(a, b)]: both arguments are converted to [int] first. *)
Definition std_min_int (a b : Z) : Z := std_min (to_int a) (to_int b).

Definition in_int (z : Z) : Prop := INT_MIN <= z <= INT_MAX.

(** ** Formats, stream descriptors, frames and nodes *)

Inductive VSSampleType := stInteger | stFloat.

Global Instance VSSampleType_eq_dec : EqDecision VSSampleType.
Proof. solve_decision. Defined.

Record VSAudioFormat := mkFormat {
  sampleType : VSSampleType;
  bitsPerSample : Z;
  bytesPerSample : Z;
  numChannels : Z;
  samplesPerFrame : Z;
  channelLayout : Z
}.

Global Instance VSAudioFormat_eq_dec : EqDecision VSAudioFormat.
Proof. solve_decision. Defined.

Record VSAudioInfo := mkInfo {
  format : VSAudioFormat;
  sampleRate : Z;
  numSamples : Z;
  numFrames : Z
}.

(** A frame: its format, sample rate, length in samples and one buffer per
    channel. *)
Record VSFrameRef := mkFrame {
  frameFormat : VSAudioFormat;
  frameSampleRate : Z;
  frameLength : Z;
  frameData : list (list Z)
}.

(** An upstream node as a filter sees it: its identity (the pointer value),
    its descriptor ([vsapi->getAudioInfo]) and the frame
    [vsapi->getFrameFilter] hands out for a requested frame number. *)
Record VSNodeRef := mkNode {
  nodeId : Z;
  nodeInfo : VSAudioInfo;
  nodeFrame : Z -> VSFrameRef
}.

Inductive ActivationReason := arInitial | arAllFramesReady | arOther.

(** What a [getframe] callback does in one invocation: it requests upstream
    frames (and returns 0), returns a frame, or just returns 0. *)
Inductive GetFrameResult (R : Type) :=
| Requested (reqs : list R)
| Returned (f : VSFrameRef)
| Null.
Arguments Requested {R} reqs.
Arguments Returned {R} f.
Arguments Null {R}.

(** ** The frame provider *)

(** [vsapi->newAudioFrame]: a writable frame of the given length.  Every
    channel buffer is backed by [samplesPerFrame] samples whatever the length;
    their initial content is unspecified ([fill]). *)
Definition newAudioFrame (fill : Z) (fmt : VSAudioFormat) (rate length : Z) : VSFrameRef :=
  {| frameFormat := fmt;
     frameSampleRate := rate;
     frameLength := length;
     frameData := replicate (Z.to_nat (numChannels fmt))
                    (replicate (Z.to_nat (samplesPerFrame fmt)) fill) |}.

Definition getFrameLength (f : VSFrameRef) : Z := frameLength f.

(** [vsapi->getReadPtr] / [vsapi->getWritePtr]: the buffer of a channel. *)
Definition getReadPtr (f : VSFrameRef) (channel : Z) : option (list Z) :=
  if channel <? 0 then None else frameData f !! Z.to_nat channel.

Definition setChannel (f : VSFrameRef) (channel : Z) (buf : list Z) : VSFrameRef :=
  {| frameFormat := frameFormat f;
     frameSampleRate := frameSampleRate f;
     frameLength := frameLength f;
     frameData := <[Z.to_nat channel := buf]> (frameData f) |}.

(** Sample [i] of a buffer. *)
Definition buf_get (buf : list Z) (i : Z) : option Z :=
  if i <? 0 then None else buf !! Z.to_nat i.

(** [w[i] = v] *)
Definition buf_set (buf : list Z) (i v : Z) : option (list Z) :=
  if (0 <=? i) && (i <? Z.of_nat (length buf))
  then Some (<[Z.to_nat i := v]> buf) else None.

(** Copy of [cnt] samples from [src] at [soff] to [dst] at [doff]. *)
Definition copy_samples (dst : list Z) (doff : Z) (src : list Z) (soff cnt : Z) : list Z :=
  take (Z.to_nat doff) dst
  ++ take (Z.to_nat cnt) (drop (Z.to_nat soff) src)
  ++ drop (Z.to_nat (doff + cnt)) dst.

(** [memcpy(dst + doff, src + soff, nbytes)] with byte offsets and a byte
    count, on buffers of samples of [bps] bytes each.  Out-of-bounds accesses
    and a negative count are undefined in C++: [None]. *)
Definition memcpy (bps : Z) (dst : list Z) (doff : Z) (src : list Z) (soff nbytes : Z)
  : option (list Z) :=
  if (0 <? bps)
     && (0 <=? doff) && (0 <=? soff) && (0 <=? nbytes)
     && (Z.rem doff bps =? 0) && (Z.rem soff bps =? 0) && (Z.rem nbytes bps =? 0)
     && (doff + nbytes <=? Z.of_nat (length dst) * bps)
     && (soff + nbytes <=? Z.of_nat (length src) * bps)
  then Some (copy_samples dst (Z.quot doff bps) src (Z.quot soff bps) (Z.quot nbytes bps))
  else None.

(** [memset(dst + doff, 0, nbytes)]. *)
Definition memset0 (bps : Z) (dst : list Z) (doff nbytes : Z) : option (list Z) :=
  if (0 <? bps)
     && (0 <=? doff) && (0 <=? nbytes)
     && (Z.rem doff bps =? 0) && (Z.rem nbytes bps =? 0)
     && (doff + nbytes <=? Z.of_nat (length dst) * bps)
  then Some (take (Z.to_nat (Z.quot doff bps)) dst
             ++ replicate (Z.to_nat (Z.quot nbytes bps)) 0
             ++ drop (Z.to_nat (Z.quot doff bps + Z.quot nbytes bps)) dst)
  else None.

(** [for (i = lo; i < hi; i++) body], threading the state and stopping at
    undefined behaviour. *)
Definition for_loop {S : Type} (lo hi : Z) (body : Z -> S -> option S) (s : S) : option S :=
  foldl (fun acc i => s' ← acc; body i s') (Some s) (seqZ lo (hi - lo)).

(** ** Streams as sequences of samples *)

(** What the buffer of channel [ch] of a frame holds at index [i]. *)
Definition frame_raw (f : VSFrameRef) (ch i : Z) : option Z :=
  buf ← getReadPtr f ch; buf_get buf i.

(** Sample [i] of channel [ch] of a frame, when [i] is below its length. *)
Definition frame_sample (f : VSFrameRef) (ch i : Z) : option Z :=
  if (0 <=? i) && (i <? frameLength f) then frame_raw f ch i else None.

(** The buffers of a frame of format [fmt]: one per channel, each backed by
    [samplesPerFrame] samples. *)
Definition frame_shape (fmt : VSAudioFormat) (f : VSFrameRef) : Prop :=
  length (frameData f) = Z.to_nat (numChannels fmt)
  /\ forall (c : nat) buf, frameData f !! c = Some buf ->
       length buf = Z.to_nat (samplesPerFrame fmt).

(** Sample [k] of channel [ch] of the stream a node produces. *)
Definition node_sample (nd : VSNodeRef) (ch k : Z) : option Z :=
  let spf := samplesPerFrame (format (nodeInfo nd)) in
  frame_sample (nodeFrame nd (k / spf)) ch (k mod spf).

(** The frame a callback hands out in its ready phase, if any. *)
Definition returned {R : Type} (r : option (GetFrameResult R)) : option VSFrameRef :=
  match r with
  | Some (Returned f) => Some f
  | _ => None
  end.

(** Sample [k] of channel [ch] of the stream a callback produces with
    [spf] samples per frame. *)
Definition stream_sample {R : Type} (spf : Z) (getframe : Z -> option (GetFrameResult R))
    (ch k : Z) : option Z :=
  f ← returned (getframe (k / spf));
  frame_sample f ch (k mod spf).

(** ** TestAudio *)

Record TestAudioData := mkTestAudioData {
  ta_ai : VSAudioInfo
}.

Definition testAudioGetframe (fill : Z) (n : Z) (activationReason : ActivationReason)
    (d : TestAudioData) : option (GetFrameResult unit) :=
  match activationReason with
  | arInitial =>
      let fmt := format (ta_ai d) in
      let samples :=
        std_min_int (samplesPerFrame fmt) (numSamples (ta_ai d) - n * samplesPerFrame fmt) in
      let startSample := n * samplesPerFrame fmt in
      let frame := newAudioFrame fill fmt (sampleRate (ta_ai d)) samples in
      frame' ← for_loop 0 (numChannels fmt) (fun channel frame =>
                  w ← getReadPtr frame channel;
                  w' ← for_loop 0 samples (fun i w =>
                          buf_set w i (to_uint16 (Z.rem (startSample + i) 65535))) w;
                  Some (setChannel frame channel w')) frame;
      Some (Returned frame')
  | _ => Some Null
  end.

(** ** AudioTrim *)

Record AudioTrimData := mkAudioTrimData {
  at_node : VSNodeRef;
  at_ai : VSAudioInfo;
  at_first : Z
}.

(** One pass of the [for (channel ...)] loops: [memcpy] from a channel of
    [src] into the same channel of [dst]. *)
Definition copy_channels (fmt : VSAudioFormat) (dst : VSFrameRef) (doff : Z)
    (src : VSFrameRef) (soff nbytes : Z) : option VSFrameRef :=
  for_loop 0 (numChannels fmt) (fun channel dst =>
    w ← getReadPtr dst channel;
    r ← getReadPtr src channel;
    w' ← memcpy (bytesPerSample fmt) w doff r soff nbytes;
    Some (setChannel dst channel w')) dst.

Definition audioTrimGetframe (fill : Z) (n : Z) (activationReason : ActivationReason)
    (d : AudioTrimData) : option (GetFrameResult Z) :=
  let fmt := format (at_ai d) in
  let spf := samplesPerFrame fmt in
  let bps := bytesPerSample fmt in
  let startSample := n * spf + at_first d in
  let startFrame := to_int (Z.quot startSample spf) in
  let length := std_min_int (numSamples (at_ai d) - n * spf) spf in
  if (Z.rem startSample spf =? 0) && negb (n =? numFrames (at_ai d) - 1) then
    (* pass through audio frames when possible *)
    match activationReason with
    | arInitial => Some (Requested [startFrame])
    | arAllFramesReady =>
        let src := nodeFrame (at_node d) startFrame in
        if length =? getFrameLength src then Some (Returned src)
        else
          let dst := newAudioFrame fill fmt (sampleRate (at_ai d)) length in
          dst ← copy_channels fmt dst 0 src 0 (length * bps);
          Some (Returned dst)
    | arOther => Some Null
    end
  else
    let numSrc1Samples := to_int (spf - Z.rem startSample spf) in
    match activationReason with
    | arInitial =>
        Some (Requested (startFrame ::
                         (if numSrc1Samples <? length then [startFrame + 1] else [])))
    | arAllFramesReady =>
        let src1 := nodeFrame (at_node d) startFrame in
        let dst := newAudioFrame fill fmt (sampleRate (at_ai d)) length in
        dst ← copy_channels fmt dst 0 src1 ((spf - numSrc1Samples) * bps)
                (numSrc1Samples * bps);
        dst ← (if numSrc1Samples <? length then
                 let src2 := nodeFrame (at_node d) (startFrame + 1) in
                 copy_channels fmt dst (numSrc1Samples * bps) src2 0
                   ((length - numSrc1Samples) * bps)
               else Some dst);
        Some (Returned dst)
    | arOther => Some Null
    end.

(** [vsapi->propGetInt(in, key, 0, &err)]: the value and the error flag; an
    absent key reads as 0 with the flag set. *)
Definition propGetInt (v : option Z) : Z * bool :=
  match v with
  | Some x => (x, false)
  | None => (0, true)
  end.

Inductive TrimCreateResult :=
| TrimError (msg : string)
| TrimPassthrough (clip : VSNodeRef)
| TrimFilter (d : AudioTrimData).

Section Create.

(** Helpers and constants the filters take from headers and from the core,
    which are not part of the sources at hand. *)

(** [int64ToIntS] of VSHelper.h: the conversion of a 64-bit argument to
    [int]. *)
Variable int64ToIntS : Z -> Z.

(** [isSameAudioFormat] of VSHelper.h. *)
Variable isSameAudioFormat : VSAudioInfo -> VSAudioInfo -> bool.

(** [vsapi->queryAudioFormat(sampleType, bitsPerSample, channelLayout)]: the
    format descriptor, or a null pointer for an unsupported combination. *)
Variable queryAudioFormat : VSSampleType -> Z -> Z -> option VSAudioFormat.

(** The channel constants [vsacFrontLeft] and [vsacFrontRight] of
    VapourSynth.h. *)
Variable vsacFrontLeft vsacFrontRight : Z.

Definition audioTrimCreate (first last length : option Z) (clip : VSNodeRef)
  : TrimCreateResult :=
  let '(v, err) := propGetInt first in
  let d_first := int64ToIntS v in
  let firstset := negb err in
  let '(v, err) := propGetInt last in
  let last := int64ToIntS v in
  let lastset := negb err in
  let '(v, err) := propGetInt length in
  let length := int64ToIntS v in
  let lengthset := negb err in
  if lastset && lengthset then
    TrimError "AudioTrim: both last sample and length specified"
  else if lastset && (last <? d_first) then
    TrimError "AudioTrim: invalid last sample specified (last is less than first)"
  else if lengthset && (length <? 1) then
    TrimError "AudioTrim: invalid length specified (less than 1)"
  else if d_first <? 0 then
    TrimError "Trim: invalid first frame specified (less than 0)"
  else
    let d_ai := nodeInfo clip in
    if (lastset && (numSamples d_ai <=? last))
       || (lengthset && (numSamples d_ai <? to_int64 (d_first + length)))
       || (numSamples d_ai <=? d_first) then
      TrimError "AudioTrim: last sample beyond clip end"
    else
      let trimlen :=
        if lastset then to_int64 (last - d_first + 1)
        else if lengthset then length
        else to_int64 (numSamples d_ai - d_first) in
      (* obvious nop() so just pass through the input clip *)
      if (negb firstset && negb lastset && negb lengthset)
         || (negb (trimlen =? 0) && (trimlen =? numSamples d_ai)) then
        TrimPassthrough clip
      else
        TrimFilter {| at_node := clip;
                      at_ai := {| format := format d_ai;
                                  sampleRate := sampleRate d_ai;
                                  numSamples := trimlen;
                                  numFrames := numFrames d_ai |};
                      at_first := d_first |}.

(** ** AssumeSampleRate *)

Record AssumeSampleRateData := mkAssumeSampleRateData {
  asr_node : VSNodeRef
}.

Definition assumeSampleRateGetframe (n : Z) (activationReason : ActivationReason)
    (d : AssumeSampleRateData) : option (GetFrameResult Z) :=
  match activationReason with
  | arInitial => Some (Requested [n])
  | arAllFramesReady => Some (Returned (nodeFrame (asr_node d) n))
  | arOther => Some Null
  end.

Inductive AssumeSampleRateResult :=
| AssumeSampleRateError (msg : string)
| AssumeSampleRateFilter (ai : VSAudioInfo) (d : AssumeSampleRateData).

Definition setSampleRate (ai : VSAudioInfo) (rate : Z) : VSAudioInfo :=
  {| format := format ai; sampleRate := rate;
     numSamples := numSamples ai; numFrames := numFrames ai |}.

Definition assumeSampleRateCreate (clip : VSNodeRef) (src : option VSNodeRef)
    (samplerate : option Z) : AssumeSampleRateResult :=
  let d_node := clip in
  let ai := nodeInfo d_node in
  let '(v, err) := propGetInt samplerate in
  let ai := setSampleRate ai (int64ToIntS v) in
  let hassamplerate := negb err in
  let '(ai, hassrc) :=
    match src with
    | Some _ => (setSampleRate ai (sampleRate (nodeInfo d_node)), true)
    | None => (ai, false)
    end in
  if Bool.eqb hassamplerate hassrc then
    AssumeSampleRateError "AssumeSampleRate: need to specify source clip or samplerate"
  else if sampleRate ai <? 1 then
    AssumeSampleRateError "AssumeSampleRate: invalid samplerate specified"
  else
    AssumeSampleRateFilter ai {| asr_node := d_node |}.

(** ** AudioSplice2 (can only combine two audio clips) *)

Record AudioSplice2Data := mkAudioSplice2Data {
  as_ai : VSAudioInfo;
  as_node1 : VSNodeRef;
  as_node2 : VSNodeRef;
  as_numSamples1 : Z;
  as_numSamples2 : Z;
  as_numFrames1 : Z
}.

Inductive SpliceSource := spliceNode1 | spliceNode2.

Definition audioSplice2PassthroughGetframe (n : Z) (activationReason : ActivationReason)
    (d : AudioSplice2Data) : option (GetFrameResult (SpliceSource * Z)) :=
  match activationReason with
  | arInitial =>
      if n <? as_numFrames1 d then Some (Requested [(spliceNode1, n)])
      else Some (Requested [(spliceNode2, n - as_numFrames1 d)])
  | arAllFramesReady =>
      if n <? as_numFrames1 d then Some (Returned (nodeFrame (as_node1 d) n))
      else Some (Returned (nodeFrame (as_node2 d) (n - as_numFrames1 d)))
  | arOther => Some Null
  end.

(** The body of the two [for (channel ...)] loops of the general path: a copy
    from [f1] followed by a copy from [f2] right behind it. *)
Definition splice_channels (fmt : VSAudioFormat) (f f1 : VSFrameRef) (f1offset f1copy : Z)
    (f2 : VSFrameRef) (f2copy : Z) : option VSFrameRef :=
  for_loop 0 (numChannels fmt) (fun channel f =>
    w ← getReadPtr f channel;
    r1 ← getReadPtr f1 channel;
    w ← memcpy (bytesPerSample fmt) w 0 r1 f1offset f1copy;
    r2 ← getReadPtr f2 channel;
    w ← memcpy (bytesPerSample fmt) w f1copy r2 0 f2copy;
    Some (setChannel f channel w)) f.

Definition audioSplice2Getframe (fill : Z) (n : Z) (activationReason : ActivationReason)
    (d : AudioSplice2Data) : option (GetFrameResult (SpliceSource * Z)) :=
  let fmt := format (as_ai d) in
  let spf := samplesPerFrame fmt in
  let bps := bytesPerSample fmt in
  match activationReason with
  | arInitial =>
      if n <? as_numFrames1 d - 1 then
        Some (Requested [(spliceNode1, n)])
      else if n =? as_numFrames1 d - 1 then
        Some (Requested [(spliceNode1, n); (spliceNode2, 0)])
      else
        Some (Requested [(spliceNode2, n - as_numFrames1 d);
                         (spliceNode2, n - as_numFrames1 d + 1)])
  | arAllFramesReady =>
      if n <? as_numFrames1 d - 1 then
        Some (Returned (nodeFrame (as_node1 d) n))
      else
        let '(f1, f2) :=
          if n =? as_numFrames1 d - 1 then
            (nodeFrame (as_node1 d) n, nodeFrame (as_node2 d) 0)
          else
            (nodeFrame (as_node2 d) (n - as_numFrames1 d),
             nodeFrame (as_node2 d) (n - as_numFrames1 d + 1)) in
        let samplesOut := std_min_int spf (numSamples (as_ai d) - n * spf) in
        let f := newAudioFrame fill fmt (sampleRate (as_ai d)) samplesOut in
        if n =? as_numFrames1 d - 1 then
          (* handle the seam between clip 1 and 2 *)
          let f1copy := std_min samplesOut (getFrameLength f1) in
          let f2copy := samplesOut - f1copy in
          f ← splice_channels fmt f f1 0 (f1copy * bps) f2 (f2copy * bps);
          Some (Returned f)
        else
          let f1offset := to_int (spf - Z.rem (as_numSamples1 d - 1) spf - 1) in
          let f1copy := std_min samplesOut (getFrameLength f1 - f1offset) in
          let f2copy := samplesOut - f1copy in
          (* assert(f1copy > 0 && (f2copy > 0 || (f2copy >= 0 && n == numFrames - 1))) *)
          if (0 <? f1copy)
             && ((0 <? f2copy) || ((0 <=? f2copy) && (n =? numFrames (as_ai d) - 1)))
          then
            f ← splice_channels fmt f f1 (f1offset * bps) (f1copy * bps) f2 (f2copy * bps);
            Some (Returned f)
          else None
  | arOther => Some Null
  end.

(** The callback [audioSplice2Create] registers: the general one when the
    first clip does not end on a frame boundary, the passthrough otherwise. *)
Inductive SpliceCallback := spliceGeneral | splicePassthrough.

Inductive SpliceCreateResult :=
| SpliceError (msg : string)
| SpliceFilter (cb : SpliceCallback) (d : AudioSplice2Data).

Definition audioSplice2Create (clip1 clip2 : VSNodeRef) : SpliceCreateResult :=
  let ai1 := nodeInfo clip1 in
  let ai2 := nodeInfo clip2 in
  let numFrames1 := numFrames ai1 in
  let numSamples1 := numSamples ai1 in
  let numSamples2 := numSamples ai2 in
  if negb (isSameAudioFormat ai1 ai2) then
    SpliceError "AudioSplice: format mismatch"
  else
    let total := to_int64 (numSamples ai1 + numSamples2) in
    let spf := samplesPerFrame (format ai1) in
    let d_ai := {| format := format ai1;
                   sampleRate := sampleRate ai1;
                   numSamples := total;
                   numFrames := to_int (Z.quot (to_int64 (total + spf - 1)) spf) |} in
    if (total <? numSamples1) || (total <? numSamples2) then
      SpliceError "AudioSplice: the resulting clip is too long"
    else
      SpliceFilter
        (if negb (Z.rem numSamples1 spf =? 0) then spliceGeneral else splicePassthrough)
        {| as_ai := d_ai; as_node1 := clip1; as_node2 := clip2;
           as_numSamples1 := numSamples1; as_numSamples2 := numSamples2;
           as_numFrames1 := numFrames1 |}.

Definition spliceGetframe (cb : SpliceCallback) (fill : Z) (n : Z)
    (activationReason : ActivationReason) (d : AudioSplice2Data)
  : option (GetFrameResult (SpliceSource * Z)) :=
  match cb with
  | spliceGeneral => audioSplice2Getframe fill n activationReason d
  | splicePassthrough => audioSplice2PassthroughGetframe n activationReason d
  end.

(** ** ShuffleChannels *)

Record ShuffleChannelsDataNode := mkShuffleChannelsDataNode {
  sc_node : VSNodeRef;
  sc_numFrames : Z;
  sc_idx : Z
}.

Record ShuffleChannelsData := mkShuffleChannelsData {
  sc_reqNodes : list VSNodeRef;
  sc_sourceNodes : list ShuffleChannelsDataNode;
  sc_ai : VSAudioInfo
}.

(** One iteration of the loop over [d->sourceNodes] in the ready phase; the
    state is [dst], null before the first iteration. *)
Definition shuffleChannelsStep (fill : Z) (n : Z) (d : ShuffleChannelsData) (dstLength : Z)
    (idx : Z) (dst : option VSFrameRef) : option (option VSFrameRef) :=
  let fmt := format (sc_ai d) in
  let bps := bytesPerSample fmt in
  sn ← sc_sourceNodes d !! Z.to_nat idx;
  let src := nodeFrame (sc_node sn) n in
  let srcLength := if n <? sc_numFrames sn then getFrameLength src else 0 in
  let copyLength := std_min dstLength srcLength in
  let zeroLength := dstLength - copyLength in
  let dst := match dst with
             | None => newAudioFrame fill fmt (sampleRate (sc_ai d)) dstLength
             | Some dst => dst
             end in
  dst ← (if 0 <? copyLength then
           w ← getReadPtr dst idx;
           r ← getReadPtr src (sc_idx sn);
           w ← memcpy bps w 0 r 0 (copyLength * bps);
           Some (setChannel dst idx w)
         else Some dst);
  dst ← (if 0 <? zeroLength then
           w ← getReadPtr dst idx;
           w ← memset0 bps w (copyLength * bps) (zeroLength * bps);
           Some (setChannel dst idx w)
         else Some dst);
  Some (Some dst).

Definition shuffleChannelsGetFrame (fill : Z) (n : Z) (activationReason : ActivationReason)
    (d : ShuffleChannelsData) : option (GetFrameResult (Z * Z)) :=
  match activationReason with
  | arInitial => Some (Requested (map (fun nd => (nodeId nd, n)) (sc_reqNodes d)))
  | arAllFramesReady =>
      let fmt := format (sc_ai d) in
      let dstLength :=
        std_min_int (numSamples (sc_ai d) - n * samplesPerFrame fmt) (samplesPerFrame fmt) in
      dst ← for_loop 0 (Z.of_nat (length (sc_sourceNodes d)))
              (shuffleChannelsStep fill n d dstLength) None;
      match dst with
      | Some dst => Some (Returned dst)
      | None => Some Null
      end
  | arOther => Some Null
  end.

(** [std::bitset<64>(v).count()] *)
Definition bitset64_count (v : Z) : Z :=
  Z.of_nat (length (filter (fun j => Z.testbit v j) (seqZ 0 64))).

(** [layout & (static_cast<int64_t>(1) << j)], as a truth value. *)
Definition hasChannel (layout j : Z) : bool :=
  negb (Z.land layout (Z.shiftl 1 j) =? 0).

(** The number of channels of [layout] below channel [channel]: the index of
    that channel among the buffers of a frame. *)
Definition channelIndex (layout channel : Z) : Z :=
  Z.of_nat (length (filter (fun j => hasChannel layout j) (seqZ 0 channel))).

(** [std::set<VSNodeRef *>::insert]: the set is kept in pointer order. *)
Fixpoint nodeSet_insert (x : VSNodeRef) (s : list VSNodeRef) : list VSNodeRef :=
  match s with
  | [] => [x]
  | y :: s' =>
      if nodeId x <? nodeId y then x :: y :: s'
      else if nodeId x =? nodeId y then y :: s'
      else y :: nodeSet_insert x s'
  end.

Definition setNumSamples (ai : VSAudioInfo) (v : Z) : VSAudioInfo :=
  {| format := format ai; sampleRate := sampleRate ai;
     numSamples := v; numFrames := numFrames ai |}.

Definition setFormat (ai : VSAudioInfo) (f : VSAudioFormat) : VSAudioInfo :=
  {| format := f; sampleRate := sampleRate ai;
     numSamples := numSamples ai; numFrames := numFrames ai |}.

(** The first loop of [shuffleChannelsCreate].  [push_back({ node, channel })]
    initialises the members of [ShuffleChannelsDataNode] in the order of their
    declaration: [node], then [numFrames]; [idx] is left zero. *)
Fixpoint shuffleChannelsBind (clips : list VSNodeRef) (channels_in : list Z) (i : Z)
  : option (list ShuffleChannelsDataNode) :=
  match channels_in with
  | [] => Some []
  | c :: rest =>
      let channel := int64ToIntS c in
      let k := std_min (Z.of_nat (length clips) - 1) i in
      node ← (if k <? 0 then None else clips !! Z.to_nat k);
      nodes ← shuffleChannelsBind clips rest (i + 1);
      Some ({| sc_node := node; sc_numFrames := channel; sc_idx := 0 |} :: nodes)
  end.

(** The second loop of [shuffleChannelsCreate]: it validates every selection
    against [d->ai], stops at the first error, and fills in [numFrames] and
    [idx].  The shift [1 << idx] is undefined outside of 0..63. *)
Fixpoint shuffleChannelsCheck (d_ai : VSAudioInfo) (nodes : list ShuffleChannelsDataNode)
  : option (VSAudioInfo * list ShuffleChannelsDataNode * option string) :=
  match nodes with
  | [] => Some (d_ai, [], None)
  | sn :: rest =>
      let ai := nodeInfo (sc_node sn) in
      if (sc_idx sn <? 0) || (63 <? sc_idx sn) then None
      else if negb (hasChannel (channelLayout (format ai)) (sc_idx sn)) then
        Some (d_ai, sn :: rest,
              Some "ShuffleChannels: specified channel is not present in input")
      else if negb (sampleRate ai =? sampleRate d_ai)
              || negb (bitsPerSample (format ai) =? bitsPerSample (format d_ai))
              || negb (bool_decide (sampleType (format ai) = sampleType (format d_ai)))
      then
        Some (d_ai, sn :: rest,
              Some "ShuffleChannels: all inputs must have the same samplerate, bits per sample and sample type")
      else
        let idx := channelIndex (channelLayout (format ai)) (sc_idx sn) in
        let d_ai := setNumSamples d_ai (std_max (numSamples d_ai) (numSamples ai)) in
        '(d_ai, rest, err) ← shuffleChannelsCheck d_ai rest;
        Some (d_ai,
              {| sc_node := sc_node sn; sc_numFrames := numFrames ai; sc_idx := idx |} :: rest,
              err)
  end.

Inductive ShuffleCreateResult :=
| ShuffleError (msg : string)
| ShuffleFilter (d : ShuffleChannelsData).

Definition shuffleChannelsCreate (clip : list VSNodeRef) (channels_in : list Z)
    (channels_out : Z) : option ShuffleCreateResult :=
  let numSrcNodes := Z.of_nat (length clip) in
  let numSrcChannels := Z.of_nat (length channels_in) in
  if numSrcChannels <? numSrcNodes then
    Some (ShuffleError "ShuffleChannels: cannot have more input nodes than selected input channels")
  else if negb (bitset64_count channels_out =? numSrcChannels) then
    Some (ShuffleError "ShuffleChannels: number of input channels doesn't match number of outputs")
  else
    sourceNodes ← shuffleChannelsBind clip channels_in 0;
    first ← sourceNodes !! 0%nat;
    let d_ai := nodeInfo (sc_node first) in
    '(d_ai, sourceNodes, err) ← shuffleChannelsCheck d_ai sourceNodes;
    match queryAudioFormat (sampleType (format d_ai)) (bitsPerSample (format d_ai))
            channels_out with
    | None => Some (ShuffleError "ShuffleChannels: invalid output channnel configuration")
    | Some fmt =>
        match err with
        | Some msg => Some (ShuffleError msg)
        | None =>
            Some (ShuffleFilter
                    {| sc_reqNodes :=
                         foldl (fun s sn => nodeSet_insert (sc_node sn) s) [] sourceNodes;
                       sc_sourceNodes := sourceNodes;
                       sc_ai := setFormat d_ai fmt |})
        end
    end.

(** ** SplitChannels *)

Record SplitChannelsData := mkSplitChannelsData {
  sp_ai : list VSAudioInfo;
  sp_node : VSNodeRef;
  sp_numChannels : Z
}.

Definition splitChannelsGetFrame (fill : Z) (n : Z) (activationReason : ActivationReason)
    (outIdx : Z) (d : SplitChannelsData) : option (GetFrameResult Z) :=
  match activationReason with
  | arInitial => Some (Requested [n])
  | arAllFramesReady =>
      let src := nodeFrame (sp_node d) n in
      let length := getFrameLength src in
      ai ← (if outIdx <? 0 then None else sp_ai d !! Z.to_nat outIdx);
      let dst := newAudioFrame fill (format ai) (sampleRate ai) length in
      w ← getReadPtr dst 0;
      r ← getReadPtr src outIdx;
      w ← memcpy (bytesPerSample (format ai)) w 0 r 0 (bytesPerSample (format ai) * length);
      Some (Returned (setChannel dst 0 w))
  | arOther => Some Null
  end.

(** The loop of [splitChannelsCreate]: each iteration queries the format
    again from the sample type and bit depth of [ai.format] (the result of
    the previous query after the first iteration) and appends a copy of [ai].
    A failed query leaves a null format, which the next iteration or the core
    dereferences: [None]. *)
Fixpoint splitChannelsInfos (ai : VSAudioInfo) (count : nat) : option (list VSAudioInfo) :=
  match count with
  | O => Some []
  | S count =>
      (* fixme, preserve actual channel here? *)
      fmt ← queryAudioFormat (sampleType (format ai)) (bitsPerSample (format ai))
              (Z.shiftl 1 vsacFrontLeft);
      let ai := setFormat ai fmt in
      rest ← splitChannelsInfos ai count;
      Some (ai :: rest)
  end.

Definition splitChannelsCreate (clip : VSNodeRef) : option SplitChannelsData :=
  let ai := nodeInfo clip in
  let numChannels := numChannels (format ai) in
  infos ← splitChannelsInfos ai (Z.to_nat numChannels);
  Some {| sp_ai := infos; sp_node := clip; sp_numChannels := numChannels |}.

(** ** BlankAudio *)

(** A reference to a frame: the identity of the frame it refers to and the
    frame. [vsapi->cloneFrameRef] yields a reference to the same frame;
    [vsapi->newAudioFrame] a frame of a fresh identity. *)
Record FrameHandle := mkFrameHandle {
  handle_id : nat;
  handle_frame : VSFrameRef
}.

Record BlankAudioData := mkBlankAudioData {
  ba_f : option FrameHandle;
  ba_ai : VSAudioInfo;
  ba_keep : bool
}.

Definition setBlankFrame (d : BlankAudioData) (f : option FrameHandle) : BlankAudioData :=
  {| ba_f := f; ba_ai := ba_ai d; ba_keep := ba_keep d |}.

(** The state around a call: the instance data and the number of frames
    allocated so far (the identity of the next frame). *)
Definition blankAudioGetframe (fill : Z) (n : Z) (activationReason : ActivationReason)
    (d : BlankAudioData) (allocated : nat)
  : option (option FrameHandle * BlankAudioData * nat) :=
  match activationReason with
  | arInitial =>
      let fmt := format (ba_ai d) in
      '(frame, allocated) ←
        match ba_f d with
        | None =>
            let samples :=
              std_min_int (samplesPerFrame fmt)
                (numSamples (ba_ai d) - n * samplesPerFrame fmt) in
            let frame := newAudioFrame fill fmt (sampleRate (ba_ai d)) samples in
            frame ← for_loop 0 (numChannels fmt) (fun channel frame =>
                       w ← getReadPtr frame channel;
                       w ← memset0 (bytesPerSample fmt) w 0 (samples * bytesPerSample fmt);
                       Some (setChannel frame channel w)) frame;
            Some (Some {| handle_id := allocated; handle_frame := frame |}, S allocated)
        | Some _ => Some (None, allocated)
        end;
      if ba_keep d then
        let d := match frame with
                 | Some _ => setBlankFrame d frame
                 | None => d
                 end in
        Some (ba_f d, d, allocated)
      else
        Some (frame, d, allocated)
  | _ => Some (None, d, allocated)
  end.

Inductive FilterMode := fmParallel | fmUnordered.

Inductive BlankCreateResult :=
| BlankError (msg : string)
| BlankFilter (mode : FilterMode) (d : BlankAudioData).

Definition blankAudioCreate (channels bits isfloat samplerate length keep : option Z)
  : BlankCreateResult :=
  let '(v, err) := propGetInt channels in
  let channels := if err then Z.lor (Z.shiftl 1 vsacFrontLeft) (Z.shiftl 1 vsacFrontRight)
                  else v in
  let '(v, err) := propGetInt bits in
  let bits := if err then 16 else int64ToIntS v in
  let isfloat := negb (fst (propGetInt isfloat) =? 0) in
  let d_keep := negb (fst (propGetInt keep) =? 0) in
  let '(v, err) := propGetInt samplerate in
  let d_sampleRate := if err then 44100 else int64ToIntS v in
  let '(v, err) := propGetInt length in
  let d_numSamples := if err then d_sampleRate * 60 * 60 else v in
  if d_sampleRate <=? 0 then BlankError "BlankAudio: invalid sample rate"
  else if d_numSamples <=? 0 then BlankError "BlankAudio: invalid length"
  else
    match queryAudioFormat (if isfloat then stFloat else stInteger) bits channels with
    | None => BlankError "BlankAudio: invalid format"
    | Some fmt =>
        BlankFilter (if d_keep then fmUnordered else fmParallel)
          {| ba_f := None;
             ba_ai := {| format := fmt; sampleRate := d_sampleRate;
                         numSamples := d_numSamples; numFrames := 0 |};
             ba_keep := d_keep |}
    end.

(** ** TestAudio: construction *)

Inductive TestCreateResult :=
| TestError (msg : string)
| TestFilter (d : TestAudioData).

Definition testAudioCreate (channels bits isfloat samplerate length : option Z)
  : TestCreateResult :=
  let '(v, err) := propGetInt channels in
  let channels := if err then Z.lor (Z.shiftl 1 vsacFrontLeft) (Z.shiftl 1 vsacFrontRight)
                  else v in
  let '(v, err) := propGetInt bits in
  let bits := if err then 16 else int64ToIntS v in
  if negb (bits =? 16) then TestError "TestAudio: bits must be 16!"
  else
    let isfloat := negb (fst (propGetInt isfloat) =? 0) in
    let '(v, err) := propGetInt samplerate in
    let d_sampleRate := if err then 44100 else int64ToIntS v in
    let '(v, err) := propGetInt length in
    let d_numSamples := if err then d_sampleRate * 60 * 60 else v in
    if d_sampleRate <=? 0 then TestError "TestAudio: invalid sample rate"
    else if d_numSamples <=? 0 then TestError "TestAudio: invalid length"
    else
      match queryAudioFormat (if isfloat then stFloat else stInteger) bits channels with
      | None => TestError "TestAudio: invalid format"
      | Some fmt =>
          TestFilter {| ta_ai := {| format := fmt; sampleRate := d_sampleRate;
                                    numSamples := d_numSamples; numFrames := 0 |} |}
      end.

End Create.

(** ** AudioSplice2Wrapper *)

(** The callback of a filter instance as the core drives it: the content of
    fresh frames, the frame number and the activation reason. *)
Definition SpliceGetframe : Type :=
  Z -> Z -> ActivationReason -> option (GetFrameResult (SpliceSource * Z)).

Inductive SpliceWrapperResult :=
| WrapperError (msg : string)
| WrapperClip (clip : VSNodeRef).

Section Wrapper.

Variable isSameAudioFormat : VSAudioInfo -> VSAudioInfo -> bool.

(** [vsapi->createAudioFilter] as the wrapper uses it: the node of the new
    filter instance, which [vsapi->propGetNode(out, "clip", 0, 0)] reads back
    from [out]. *)
Variable createAudioFilter : VSAudioInfo -> SpliceGetframe -> VSNodeRef.

(** The loop [for (int i = 1; i < numnodes; i++)]: [tmp] is spliced with the
    next clip, an error set by [audioSplice2Create] ends the function, and
    the node that was created becomes [tmp]. *)
Fixpoint audioSplice2Loop (tmp : VSNodeRef) (clips : list VSNodeRef) : SpliceWrapperResult :=
  match clips with
  | [] => WrapperClip tmp
  | cref :: clips =>
      match audioSplice2Create isSameAudioFormat tmp cref with
      | SpliceError msg => WrapperError msg
      | SpliceFilter cb d =>
          let tmp :=
            createAudioFilter (as_ai d) (fun fill n r => spliceGetframe cb fill n r d) in
          audioSplice2Loop tmp clips
      end
  end.

(** With a single clip the function stores that clip in [out] first, and then
    again after the loop, which does not run: the outcome is the same.
    Without a clip [propGetNode] has nothing to return. *)
Definition audioSplice2Wrapper (clips : list VSNodeRef) : option SpliceWrapperResult :=
  match clips with
  | [] => None
  | tmp :: clips => Some (audioSplice2Loop tmp clips)
  end.

End Wrapper.

(** ** AudioMix *)

(** Conversions between integers, [float] and [double]. *)
Definition double_of_Z (z : Z) : spec_float := binary_normalize 53 1024 z 0 false.
Definition float_of_Z (z : Z) : spec_float := binary_normalize 24 128 z 0 false.

Definition float_of_double (x : spec_float) : spec_float :=
  match x with
  | S754_finite s m e => binary_round 24 128 s m e
  | _ => x
  end.

Definition double_of_float (x : spec_float) : spec_float :=
  match x with
  | S754_finite s m e => binary_round 53 1024 s m e
  | _ => x
  end.

(** The integer a [static_cast] from [double] to an integer type of [bits]
    bits yields: the value truncated towards zero; undefined when that does
    not fit. *)
Definition double_to_int (bits : Z) (x : spec_float) : option Z :=
  v ← match x with
      | S754_zero _ => Some 0
      | S754_finite s m e =>
          Some (cond_Zopp s (if 0 <=? e then Zpos m * 2 ^ e
                             else Z.quot (Zpos m) (2 ^ (- e))))
      | _ => None
      end;
  if (- 2 ^ (bits - 1) <=? v) && (v <? 2 ^ (bits - 1)) then Some v else None.

(** [std::min<float>(a, b)] on values already converted to [float]. *)
Definition std_min_float (a b : spec_float) : spec_float := if SFltb b a then b else a.

Definition to_int16 (z : Z) : Z := (z + 32768) mod 65536 - 32768.

(** The instantiations of [audioMixGetFrame<T>]. *)
Inductive MixSampleType := mixFloat | mixInt16 | mixInt32.

Record AudioMixDataNode := mkAudioMixDataNode {
  am_node : VSNodeRef;
  am_numFrames : Z;
  am_idx : Z;
  am_weights : list spec_float
}.

Record AudioMixData := mkAudioMixData {
  am_reqNodes : list VSNodeRef;
  am_sourceNodes : list AudioMixDataNode;
  am_ai : VSAudioInfo
}.

Section AudioMix.

(** How a [float] sample lies in a buffer: the value of a stored sample, and
    the representation of a value. *)
Variable float_of_bits : Z -> spec_float.
Variable bits_of_float : spec_float -> Z.

(** [static_cast<double>(srcPtrs[srcIdx][i])] *)
Definition mixLoad (T : MixSampleType) (raw : Z) : spec_float :=
  match T with
  | mixFloat => double_of_float (float_of_bits raw)
  | mixInt16 => double_of_Z (to_int16 raw)
  | mixInt32 => double_of_Z (to_int raw)
  end.

(** The narrowing of the accumulator into [dstPtrs[dstIdx][i]]. *)
Definition mixStore (T : MixSampleType) (bitsPerSample : Z) (tmp : spec_float) : option Z :=
  match T with
  | mixInt16 => double_to_int 16 tmp
  | mixInt32 =>
      let tmp :=
        double_of_float
          (std_min_float (float_of_double tmp)
             (float_of_Z (Z.shiftl 1 (bitsPerSample - 1) - 1))) in
      double_to_int 32 tmp
  | mixFloat => Some (bits_of_float (float_of_double tmp))
  end.

(** The accumulation over the sources, in the order of [srcPtrs]. *)
Fixpoint mixAccumulate (T : MixSampleType) (srcPtrs : list (list Z))
    (sourceNodes : list AudioMixDataNode) (i dstIdx : Z) (tmp : spec_float)
  : option spec_float :=
  match srcPtrs, sourceNodes with
  | src :: srcPtrs, sn :: sourceNodes =>
      x ← buf_get src i;
      w ← (if dstIdx <? 0 then None else am_weights sn !! Z.to_nat dstIdx);
      mixAccumulate T srcPtrs sourceNodes i dstIdx
        (SFadd 53 1024 tmp (SFmul 53 1024 (mixLoad T x) (double_of_float w)))
  | [], _ => Some tmp
  | _ :: _, [] => None
  end.

Definition audioMixGetFrame (T : MixSampleType) (fill : Z) (n : Z)
    (activationReason : ActivationReason) (d : AudioMixData)
  : option (GetFrameResult (Z * Z)) :=
  match activationReason with
  | arInitial => Some (Requested (map (fun nd => (nodeId nd, n)) (am_reqNodes d)))
  | arAllFramesReady =>
      let fmt := format (am_ai d) in
      let numOutChannels := numChannels fmt in
      let srcFrames := map (fun sn => nodeFrame (am_node sn) n) (am_sourceNodes d) in
      srcPtrs ← mapM (fun sn => getReadPtr (nodeFrame (am_node sn) n) (am_idx sn))
                  (am_sourceNodes d);
      src0 ← srcFrames !! 0%nat;
      let srcLength := getFrameLength src0 in
      let dst := newAudioFrame fill fmt (sampleRate (am_ai d)) srcLength in
      dst ← for_loop 0 srcLength (fun i dst =>
               for_loop 0 numOutChannels (fun dstIdx dst =>
                 tmp ← mixAccumulate T srcPtrs (am_sourceNodes d) i dstIdx (S754_zero false);
                 v ← mixStore T (bitsPerSample fmt) tmp;
                 w ← getReadPtr dst dstIdx;
                 w ← buf_set w i v;
                 Some (setChannel dst dstIdx w)) dst) dst;
      Some (Returned dst)
  | arOther => Some Null
  end.

End AudioMix.

(** ** AudioMix: construction *)

Inductive MixCreateResult :=
| MixError (msg : string)
| MixFilter (T : MixSampleType) (d : AudioMixData).

(** [vsapi->propGetFloat(in, "matrix", index, nullptr)]: element [index] of
    the array; there is none outside of it. *)
Definition propGetFloat (matrix : list spec_float) (index : Z) : option spec_float :=
  if index <? 0 then None else matrix !! Z.to_nat index.

(** The first loop of [audioMixCreate]: one entry per channel of every clip
    ([cloneNodeRef] yields another reference to the same node).
    [push_back({ node, j })] initialises the members of [AudioMixDataNode] in
    the order of their declaration: [node], then [numFrames]; [idx] is left
    zero and [weights] empty. *)
Definition audioMixBind (clips : list VSNodeRef) : option (list AudioMixDataNode) :=
  let numSrcNodes := Z.of_nat (length clips) in
  for_loop 0 numSrcNodes (fun i sourceNodes =>
    let k := std_min (numSrcNodes - 1) i in
    node ← (if k <? 0 then None else clips !! Z.to_nat k);
    let f := format (nodeInfo node) in
    for_loop 0 (numChannels f) (fun j sourceNodes =>
      Some (sourceNodes ++ [ {| am_node := node; am_numFrames := j; am_idx := 0;
                                am_weights := [] |} ])) sourceNodes) [].

(** The second loop of [audioMixCreate], from entry [i] on: it validates
    every entry against [d->ai], stops at the first error, and fills in the
    weights, [numFrames] and [idx].  A weight is read as a [double] and kept
    as a [float].  The shift [1 << idx] is undefined outside of 0..63. *)
Fixpoint audioMixCheck (matrix : list spec_float) (numOutChannels numSrcChannels : Z)
    (d_ai : VSAudioInfo) (nodes : list AudioMixDataNode) (i : Z)
  : option (VSAudioInfo * list AudioMixDataNode * option string) :=
  match nodes with
  | [] => Some (d_ai, [], None)
  | sn :: rest =>
      let ai := nodeInfo (am_node sn) in
      if (am_idx sn <? 0) || (63 <? am_idx sn) then None
      else if negb (hasChannel (channelLayout (format ai)) (am_idx sn)) then
        Some (d_ai, sn :: rest, Some "AudioMix: specified channel is not present in input")
      else if negb (numSamples ai =? numSamples d_ai)
              || negb (sampleRate ai =? sampleRate d_ai)
              || negb (bitsPerSample (format ai) =? bitsPerSample (format d_ai))
              || negb (bool_decide (sampleType (format ai) = sampleType (format d_ai)))
      then
        Some (d_ai, sn :: rest,
              Some "AudioMix: all inputs must have the same length, samplerate, bits per sample and sample type")
      else
        let idx := channelIndex (channelLayout (format ai)) (am_idx sn) in
        let d_ai := setNumSamples d_ai (std_max (numSamples d_ai) (numSamples ai)) in
        weights ← mapM (fun j => float_of_double <$>
                                   propGetFloat matrix (j * numSrcChannels + i))
                     (seqZ 0 numOutChannels);
        '(d_ai, rest, err) ←
          audioMixCheck matrix numOutChannels numSrcChannels d_ai rest (i + 1);
        Some (d_ai,
              {| am_node := am_node sn; am_numFrames := numFrames ai; am_idx := idx;
                 am_weights := am_weights sn ++ weights |} :: rest,
              err)
  end.

Section MixCreate.

Variable queryAudioFormat : VSSampleType -> Z -> Z -> option VSAudioFormat.

Definition audioMixCreate (clips : list VSNodeRef) (matrix : list spec_float)
    (channels_out : Z) : option MixCreateResult :=
  let numSrcNodes := Z.of_nat (length clips) in
  let numMatrixWeights := Z.of_nat (length matrix) in
  let numOutChannels := bitset64_count channels_out in
  sourceNodes ← audioMixBind clips;
  let numSrcChannels := Z.of_nat (length sourceNodes) in
  if numSrcChannels <? numSrcNodes then
    Some (MixError "AudioMix: cannot have more input nodes than selected input channels")
  else if negb (numOutChannels * numSrcChannels =? numMatrixWeights) then
    Some (MixError "AudioMix: the number of matrix weights must equal (input channels * output channels)")
  else
    first ← sourceNodes !! 0%nat;
    let d_ai := nodeInfo (am_node first) in
    '(d_ai, sourceNodes, err) ←
      audioMixCheck matrix numOutChannels numSrcChannels d_ai sourceNodes 0;
    match queryAudioFormat (sampleType (format d_ai)) (bitsPerSample (format d_ai))
            channels_out with
    | None => Some (MixError "AudioMix: invalid output channnel configuration")
    | Some fmt =>
        match err with
        | Some msg => Some (MixError msg)
        | None =>
            let d := {| am_reqNodes :=
                          foldl (fun s sn => nodeSet_insert (am_node sn) s) [] sourceNodes;
                        am_sourceNodes := sourceNodes;
                        am_ai := setFormat d_ai fmt |} in
            Some (MixFilter
                    (if bool_decide (sampleType fmt = stFloat) then mixFloat
                     else if bytesPerSample fmt =? 2 then mixInt16
                     else mixInt32) d)
        end
    end.

End MixCreate.

(** A series of requests to a BlankAudio node, one after the other: the
    frames handed out, the instance data and the allocation count at the
    end. *)
Fixpoint blankAudioRequests (fill : Z) (ns : list Z) (d : BlankAudioData) (allocated : nat)
  : option (list (option FrameHandle) * BlankAudioData * nat) :=
  match ns with
  | [] => Some ([], d, allocated)
  | n :: ns =>
      '(r, d, allocated) ← blankAudioGetframe fill n arInitial d allocated;
      '(rs, d, allocated) ← blankAudioRequests fill ns d allocated;
      Some (r :: rs, d, allocated)
  end.

(** ** Well-formed streams *)

(** The invariants of a stream descriptor and of the frames behind it: the
    frame count is [ceil (numSamples / samplesPerFrame)], every frame has one
    buffer per channel, and every frame is [samplesPerFrame] long except the
    last, which holds the remaining samples.  A request beyond the last frame
    is answered with a frame as well ([wf_any]). *)
Record wf_node (nd : VSNodeRef) : Prop := mkWfNode {
  wf_spf : 0 < samplesPerFrame (format (nodeInfo nd)) <= INT_MAX;
  wf_bps : 0 < bytesPerSample (format (nodeInfo nd));
  wf_channels : 0 <= numChannels (format (nodeInfo nd));
  wf_samples : 0 < numSamples (nodeInfo nd);
  wf_frames :
    numFrames (nodeInfo nd)
    = (numSamples (nodeInfo nd) + samplesPerFrame (format (nodeInfo nd)) - 1)
      / samplesPerFrame (format (nodeInfo nd));
  wf_frames_int : numFrames (nodeInfo nd) <= INT_MAX;
  wf_any : forall n, 0 <= n -> frame_shape (format (nodeInfo nd)) (nodeFrame nd n);
  wf_frame : forall n, 0 <= n < numFrames (nodeInfo nd) ->
    frame_shape (format (nodeInfo nd)) (nodeFrame nd n)
    /\ frameLength (nodeFrame nd n)
       = Z.min (samplesPerFrame (format (nodeInfo nd)))
           (numSamples (nodeInfo nd) - n * samplesPerFrame (format (nodeInfo nd)))
}.

(** ** The vocabulary of the statements *)

(** The value of an integer argument as a constructor sees it. *)
Definition trimArg (int64ToIntS : Z -> Z) (v : option Z) : Z :=
  int64ToIntS (fst (propGetInt v)).

Definition trimFails (r : TrimCreateResult) : Prop :=
  match r with
  | TrimError _ => True
  | _ => False
  end.

(** What destination channel [idx] of frame [n] of a ShuffleChannels node
    holds at index [i]: nothing but zeros when the source of that channel has
    no frame [n], and otherwise the samples of the selected channel of that
    frame, followed by zeros. *)
Definition shuffleExpected (n dstLength : Z) (sn : ShuffleChannelsDataNode) (i : Z)
  : option Z :=
  let src := nodeFrame (sc_node sn) n in
  if n <? sc_numFrames sn then
    if i <? Z.min dstLength (frameLength src) then frame_raw src (sc_idx sn) i
    else Some 0
  else Some 0.

(** The frame [n] of the source of a selection, when it has one: its length
    is not negative and its selected channel is backed by at least that many
    samples. *)
Definition shuffleSourceOk (n : Z) (sn : ShuffleChannelsDataNode) : Prop :=
  let src := nodeFrame (sc_node sn) n in
  n < sc_numFrames sn ->
  0 <= frameLength src
  /\ exists buf, getReadPtr src (sc_idx sn) = Some buf
                 /\ frameLength src <= Z.of_nat (length buf).

(** The remaining sample count of frame [n] of a BlankAudio node fits an
    [int]. *)
Definition blankInRange (d : BlankAudioData) (n : Z) : Prop :=
  0 <= numSamples (ba_ai d) - n * samplesPerFrame (format (ba_ai d)) <= INT_MAX.

(** A frame of zeros of the length of frame [n]. *)
Definition blankFrame (d : BlankAudioData) (n : Z) (f : VSFrameRef) : Prop :=
  frameLength f
  = Z.min (samplesPerFrame (format (ba_ai d)))
      (numSamples (ba_ai d) - n * samplesPerFrame (format (ba_ai d)))
  /\ forall ch i, 0 <= ch < numChannels (format (ba_ai d)) -> 0 <= i < frameLength f ->
       frame_sample f ch i = Some 0.

(** The value of an optional integer argument: converted by [conv] when it
    is given, [default] otherwise. *)
Definition argOr (conv : Z -> Z) (v : option Z) (default : Z) : Z :=
  match v with
  | Some x => conv x
  | None => default
  end.

(** The number of samples of a list of clips. *)
Definition totalSamples (clips : list VSNodeRef) : Z :=
  foldr (fun c s => numSamples (nodeInfo c) + s) 0 clips.

(** What the first loop of [audioMixCreate] appends for channel [j] of a
    clip, and the list it builds. *)
Definition mixEntry (node : VSNodeRef) (j : Z) : AudioMixDataNode :=
  {| am_node := node; am_numFrames := j; am_idx := 0; am_weights := [] |}.

Definition mixEntries (clips : list VSNodeRef) : list AudioMixDataNode :=
  clips ≫= fun node => mixEntry node <$> seqZ 0 (numChannels (format (nodeInfo node))).

(** The value [audioMixGetFrame<T>] computes for sample [i] of output channel
    [dstIdx]: the accumulation over the sources, narrowed to [T]. *)
Definition mixSample (float_of_bits : Z -> spec_float) (bits_of_float : spec_float -> Z)
    (T : MixSampleType) (d : AudioMixData) (srcPtrs : list (list Z)) (i dstIdx : Z)
  : option Z :=
  tmp ← mixAccumulate float_of_bits T srcPtrs (am_sourceNodes d) i dstIdx (S754_zero false);
  mixStore bits_of_float T (bitsPerSample (format (am_ai d))) tmp.

(** The sum of the products of the values [xs] and the weights [ws], taken
    in [double] from zero on, in the order of the lists. *)
Definition weightedSum (xs ws : list spec_float) : spec_float :=
  foldl (fun tmp xw => SFadd 53 1024 tmp (SFmul 53 1024 xw.1 xw.2)) (S754_zero false)
    (zip xs ws).

(** Sample [i] of output channel [idx] of frame [n] of the ShuffleChannels
    node constructed from these arguments. *)
Definition shuffleSample (int64ToIntS : Z -> Z)
    (queryAudioFormat : VSSampleType -> Z -> Z -> option VSAudioFormat)
    (clip : list VSNodeRef) (channels_in : list Z) (channels_out : Z) (n idx i : Z)
  : option Z :=
  r ← shuffleChannelsCreate int64ToIntS queryAudioFormat clip channels_in channels_out;
  match r with
  | ShuffleFilter d =>
      f ← returned (shuffleChannelsGetFrame 0 n arAllFramesReady d);
      frame_sample f idx i
  | ShuffleError _ => None
  end.

(** ** Concrete streams for the scenarios below *)

(** A saturating conversion to [int], where a scenario needs a concrete
    [int64ToIntS]. *)
Definition saturate (i : Z) : Z :=
  if INT_MAX <? i then INT_MAX else if i <? INT_MIN then INT_MIN else i.

(** 16-bit integer stereo, 3000 samples per frame. *)
Definition stereo16 : VSAudioFormat :=
  {| sampleType := stInteger; bitsPerSample := 16; bytesPerSample := 2;
     numChannels := 2; samplesPerFrame := 3000; channelLayout := 3 |}.

(** 16-bit integer mono (front left), 3000 samples per frame. *)
Definition mono16 : VSAudioFormat :=
  {| sampleType := stInteger; bitsPerSample := 16; bytesPerSample := 2;
     numChannels := 1; samplesPerFrame := 3000; channelLayout := 1 |}.

(** The sample a ramp stream holds at absolute index [k] of channel [c]. *)
Definition rampSample (c k : Z) : Z := to_uint16 (k + 1000 * c).

(** The buffer of channel [c] of frame [n] of a ramp stream. *)
Definition rampBuffer (c n : Z) : list Z :=
  (fun j => rampSample c (n * 3000 + j)) <$> seqZ 0 3000.

(** A stereo stream of [total] samples: frame [n] holds the ramp samples
    [3000 * n ..] and has the length the descriptor implies. *)
Definition rampFrame (total n : Z) : VSFrameRef :=
  {| frameFormat := stereo16;
     frameSampleRate := 44100;
     frameLength := Z.min 3000 (total - n * 3000);
     frameData := [rampBuffer 0 n; rampBuffer 1 n] |}.

Definition rampNode (id rate total : Z) : VSNodeRef :=
  {| nodeId := id;
     nodeInfo := {| format := stereo16; sampleRate := rate; numSamples := total;
                    numFrames := (total + 2999) / 3000 |};
     nodeFrame := rampFrame total |}.

(** A format query that knows mono and stereo 16-bit integer audio. *)
Definition queryAudioFormat16 (st : VSSampleType) (bits layout : Z) : option VSAudioFormat :=
  if bool_decide (st = stInteger) && (bits =? 16) && ((layout =? 1) || (layout =? 3)) then
    Some {| sampleType := st; bitsPerSample := bits; bytesPerSample := 2;
            numChannels := bitset64_count layout; samplesPerFrame := 3000;
            channelLayout := layout |}
  else None.

(** Two sources of different lengths for ShuffleChannels. *)
Definition shuffleClips : list VSNodeRef :=
  [rampNode 1 44100 7000; rampNode 2 44100 4000].

(** A format comparison for the scenarios: same format, same sample rate. *)
Definition sameAudioFormat (a b : VSAudioInfo) : bool :=
  bool_decide (format a = format b) && (sampleRate a =? sampleRate b).

(** TestAudio with its defaults: stereo, 44100 Hz, one hour. *)
Definition testAudioHour : TestAudioData :=
  {| ta_ai := {| format := stereo16; sampleRate := 44100;
                 numSamples := 44100 * 60 * 60; numFrames := 0 |} |}.

(** AudioTrim of a clip of 2^32 + 20 samples from sample 10 on. *)
Definition trimLong : AudioTrimData :=
  {| at_node := rampNode 1 44100 4294967316;
     at_ai := {| format := stereo16; sampleRate := 44100; numSamples := 4294967306;
                 numFrames := (4294967316 + 2999) / 3000 |};
     at_first := 10 |}.

(** AudioSplice of a clip of 1 sample and a clip of 2^32 + 1 samples. *)
Definition spliceLong : AudioSplice2Data :=
  {| as_ai := {| format := stereo16; sampleRate := 44100; numSamples := 4294967298;
                 numFrames := (4294967298 + 2999) / 3000 |};
     as_node1 := rampNode 1 44100 1;
     as_node2 := rampNode 2 44100 4294967297;
     as_numSamples1 := 1;
     as_numSamples2 := 4294967297;
     as_numFrames1 := 1 |}.

(** BlankAudio of 2^32 + 10 samples, [keep] unset. *)
Definition blankLong : BlankAudioData :=
  {| ba_f := None;
     ba_ai := {| format := stereo16; sampleRate := 44100; numSamples := 4294967306;
                 numFrames := 0 |};
     ba_keep := false |}.

(** 32-bit integer mono (front left), 3000 samples per frame. *)
Definition mono32 : VSAudioFormat :=
  {| sampleType := stInteger; bitsPerSample := 32; bytesPerSample := 4;
     numChannels := 1; samplesPerFrame := 3000; channelLayout := 1 |}.

(** A mono 32-bit stream of one sample, of value [v]. *)
Definition oneSampleNode (id v : Z) : VSNodeRef :=
  {| nodeId := id;
     nodeInfo := {| format := mono32; sampleRate := 44100; numSamples := 1;
                    numFrames := 1 |};
     nodeFrame := fun _ =>
       {| frameFormat := mono32; frameSampleRate := 44100; frameLength := 1;
          frameData := [v :: replicate 2999 0] |} |}.

(** The instance data of AudioMix for one such clip, the matrix [1.0] and
    [channels_out = 1]: the identity mix of a mono clip. *)
Definition mixIdentity (v : Z) : AudioMixData :=
  {| am_reqNodes := [oneSampleNode 1 v];
     am_sourceNodes := [ {| am_node := oneSampleNode 1 v; am_numFrames := 1;
                            am_idx := 0; am_weights := [float_of_Z 1] |} ];
     am_ai := {| format := mono32; sampleRate := 44100; numSamples := 1;
                 numFrames := 1 |} |}.

(** AudioTrim of frames 3000, 3000, 1000 with [first = 2999], [length = 2]. *)
Definition trimScenario : AudioTrimData :=
  {| at_node := rampNode 1 44100 7000;
     at_ai := {| format := stereo16; sampleRate := 44100; numSamples := 2;
                 numFrames := 3 |};
     at_first := 2999 |}.

(** BlankAudio of 7000 samples, with and without [keep]. *)
Definition blankShort (keep : bool) : BlankAudioData :=
  {| ba_f := None;
     ba_ai := {| format := stereo16; sampleRate := 44100; numSamples := 7000;
                 numFrames := 0 |};
     ba_keep := keep |}.

(** AudioTrim of a clip of 10000 samples from sample 3000 on: the trim starts
    on a frame boundary. *)
Definition trimAligned : AudioTrimData :=
  {| at_node := rampNode 1 44100 10000;
     at_ai := {| format := stereo16; sampleRate := 44100; numSamples := 7000;
                 numFrames := (10000 + 2999) / 3000 |};
     at_first := 3000 |}.

(** A core for the scenarios: the node of a filter instance hands out the
    frames its callback returns on frames filled with zeros, the last frame
    for a request beyond it. *)
Definition emptyFrame : VSFrameRef :=
  {| frameFormat := stereo16; frameSampleRate := 0; frameLength := 0; frameData := [] |}.

Definition scenarioFilter (ai : VSAudioInfo) (getframe : SpliceGetframe) : VSNodeRef :=
  {| nodeId := 0;
     nodeInfo := ai;
     nodeFrame := fun n =>
       default emptyFrame
         (returned (getframe 0 (Z.min n (numFrames ai - 1)) arAllFramesReady)) |}.

(** Two clips to follow the ramp of 7000 samples in a splice. *)
Definition spliceClips : list VSNodeRef :=
  [rampNode 2 44100 4000; rampNode 3 44100 500].

(** The matrix of an AudioMix of the stereo ramp down to mono: the first
    entry with weight 1, the second with weight 0. *)
Definition mixLeftOnly : list spec_float := [double_of_Z 1; double_of_Z 0].

(** 32-bit float mono (front left), 3000 samples per frame. *)
Definition monoFloat : VSAudioFormat :=
  {| sampleType := stFloat; bitsPerSample := 32; bytesPerSample := 4;
     numChannels := 1; samplesPerFrame := 3000; channelLayout := 1 |}.

(** A float sample for the scenarios: the integer that is stored stands for
    the float of that value. *)
Definition floatOfSample (raw : Z) : spec_float := float_of_Z raw.
Definition sampleOfFloat (x : spec_float) : Z :=
  default 0 (double_to_int 32 (double_of_float x)).

(** A mono float stream of one sample, and the instance data of AudioMix for
    two such clips with the weights 2 and 3. *)
Definition floatNode (id v : Z) : VSNodeRef :=
  {| nodeId := id;
     nodeInfo := {| format := monoFloat; sampleRate := 44100; numSamples := 1;
                    numFrames := 1 |};
     nodeFrame := fun _ =>
       {| frameFormat := monoFloat; frameSampleRate := 44100; frameLength := 1;
          frameData := [v :: replicate 2999 0] |} |}.

Definition mixTwoFloats : AudioMixData :=
  {| am_reqNodes := [floatNode 1 5; floatNode 2 7];
     am_sourceNodes := [ {| am_node := floatNode 1 5; am_numFrames := 1; am_idx := 0;
                            am_weights := [float_of_Z 2] |};
                         {| am_node := floatNode 2 7; am_numFrames := 1; am_idx := 0;
                            am_weights := [float_of_Z 3] |} ];
     am_ai := {| format := monoFloat; sampleRate := 44100; numSamples := 1;
                 numFrames := 1 |} |}.

(** A mono 16-bit stream of one sample, and the instance data of AudioMix for
    two such clips holding -5 and 3, with the weights 0.5 and -1. *)
Definition shortNode (id v : Z) : VSNodeRef :=
  {| nodeId := id;
     nodeInfo := {| format := mono16; sampleRate := 44100; numSamples := 1;
                    numFrames := 1 |};
     nodeFrame := fun _ =>
       {| frameFormat := mono16; frameSampleRate := 44100; frameLength := 1;
          frameData := [v :: replicate 2999 0] |} |}.

Definition mixTwoShorts : AudioMixData :=
  {| am_reqNodes := [shortNode 1 65531; shortNode 2 3];
     am_sourceNodes := [ {| am_node := shortNode 1 65531; am_numFrames := 1; am_idx := 0;
                            am_weights := [S754_finite false 1 (-1)] |};
                         {| am_node := shortNode 2 3; am_numFrames := 1; am_idx := 0;
                            am_weights := [float_of_Z (-1)] |} ];
     am_ai := {| format := mono16; sampleRate := 44100; numSamples := 1;
                 numFrames := 1 |} |}.

(** * Properties *)

(** ** Machine integers *)

Lemma to_int_id z : in_int z -> to_int z = z.
Proof.
  unfold in_int, INT_MIN, INT_MAX, to_int. intros H.
  rewrite Z.mod_small by lia. lia.
Qed.

Lemma to_int64_id z :
  -9223372036854775808 <= z <= 9223372036854775807 -> to_int64 z = z.
Proof.
  unfold to_int64. intros H. rewrite Z.mod_small by lia. lia.
Qed.

Lemma std_min_spec a b : std_min a b = Z.min a b.
Proof. unfold std_min. destruct (Z.ltb_spec b a); lia. Qed.

Lemma std_max_spec a b : std_max a b = Z.max a b.
Proof. unfold std_max. destruct (Z.ltb_spec a b); lia. Qed.

Lemma std_min_int_spec a b : in_int a -> in_int b -> std_min_int a b = Z.min a b.
Proof.
  intros Ha Hb. unfold std_min_int. rewrite !to_int_id by done. apply std_min_spec.
Qed.

(** ** Loops and buffers *)

Lemma for_loop_nil {S : Type} lo hi (body : Z -> S -> option S) s :
  hi <= lo -> for_loop lo hi body s = Some s.
Proof. intros H. unfold for_loop. by rewrite seqZ_nil by lia. Qed.

Lemma for_loop_step {S : Type} lo hi (body : Z -> S -> option S) s :
  lo < hi -> for_loop lo hi body s = s' ← body lo s; for_loop (lo + 1) hi body s'.
Proof.
  intros H. unfold for_loop. rewrite seqZ_cons by lia. simpl.
  replace (Z.pred (hi - lo)) with (hi - (lo + 1)) by lia.
  replace (Z.succ lo) with (lo + 1) by lia.
  destruct (body lo s) as [s'|]; simpl; [done|].
  generalize (seqZ (lo + 1) (hi - (lo + 1))). intros l. by induction l.
Qed.

(** The loop rule: an invariant that holds before the loop and that every
    iteration re-establishes (without running into undefined behaviour) holds
    after it. *)
Lemma for_loop_inv {S : Type} (P : Z -> S -> Prop) lo hi (body : Z -> S -> option S) s :
  lo <= hi ->
  P lo s ->
  (forall i s, lo <= i < hi -> P i s -> exists s', body i s = Some s' /\ P (i + 1) s') ->
  exists s', for_loop lo hi body s = Some s' /\ P hi s'.
Proof.
  intros Hle. remember (Z.to_nat (hi - lo)) as k eqn:Hk.
  revert lo s Hle Hk. induction k as [|k IH]; intros lo s Hle Hk HP Hbody.
  - assert (lo = hi) as -> by lia. exists s. by rewrite for_loop_nil.
  - rewrite for_loop_step by lia.
    destruct (Hbody lo s) as (s' & -> & HP'); [lia|done|]. simpl.
    apply IH; [lia|lia|done|]. intros i s0 Hi. apply Hbody. lia.
Qed.

Lemma buf_get_lookup (buf : list Z) i :
  0 <= i -> buf_get buf i = buf !! Z.to_nat i.
Proof. intros H. unfold buf_get. by destruct (Z.ltb_spec i 0); [lia|]. Qed.

Lemma buf_get_neg (buf : list Z) i : i < 0 -> buf_get buf i = None.
Proof. intros H. unfold buf_get. by destruct (Z.ltb_spec i 0); [|lia]. Qed.

Lemma memcpy_samples bps (dst : list Z) d (src : list Z) s n :
  0 < bps -> 0 <= d -> 0 <= s -> 0 <= n ->
  d + n <= Z.of_nat (length dst) -> s + n <= Z.of_nat (length src) ->
  memcpy bps dst (d * bps) src (s * bps) (n * bps) = Some (copy_samples dst d src s n).
Proof.
  intros Hbps Hd Hs Hn Hdst Hsrc. unfold memcpy.
  rewrite !Z.rem_mul, !Z.quot_mul by lia.
  destruct (Z.ltb_spec 0 bps); [|lia].
  destruct (Z.leb_spec 0 (d * bps)); [|nia].
  destruct (Z.leb_spec 0 (s * bps)); [|nia].
  destruct (Z.leb_spec 0 (n * bps)); [|nia].
  destruct (Z.leb_spec (d * bps + n * bps) (Z.of_nat (length dst) * bps)); [|nia].
  destruct (Z.leb_spec (s * bps + n * bps) (Z.of_nat (length src) * bps)); [|nia].
  done.
Qed.

Lemma copy_samples_length (dst : list Z) d (src : list Z) s n :
  0 <= d -> 0 <= s -> 0 <= n ->
  d + n <= Z.of_nat (length dst) -> s + n <= Z.of_nat (length src) ->
  length (copy_samples dst d src s n) = length dst.
Proof.
  intros. unfold copy_samples.
  rewrite !length_app, !length_take, !length_drop. lia.
Qed.

Lemma copy_samples_get (dst : list Z) d (src : list Z) s n i :
  0 <= d -> 0 <= s -> 0 <= n ->
  d + n <= Z.of_nat (length dst) -> s + n <= Z.of_nat (length src) ->
  buf_get (copy_samples dst d src s n) i
  = if (d <=? i) && (i <? d + n) then buf_get src (s + (i - d)) else buf_get dst i.
Proof.
  intros Hd Hs Hn Hdst Hsrc.
  destruct (Z.ltb_spec i 0) as [Hneg|Hpos].
  { destruct (Z.leb_spec d i); [lia|]. simpl. by rewrite !buf_get_neg by lia. }
  rewrite buf_get_lookup by lia. unfold copy_samples.
  destruct (Z.leb_spec d i) as [Hdi|Hdi]; simpl.
  - rewrite lookup_app_r by (rewrite length_take; lia).
    rewrite length_take, Nat.min_l by lia.
    destruct (Z.ltb_spec i (d + n)) as [Hin|Hin].
    + rewrite lookup_app_l by (rewrite length_take, length_drop; lia).
      rewrite lookup_take_lt by lia. rewrite lookup_drop.
      rewrite buf_get_lookup by lia. f_equal. lia.
    + rewrite lookup_app_r by (rewrite length_take, length_drop; lia).
      rewrite length_take, length_drop, lookup_drop.
      rewrite buf_get_lookup by lia. f_equal. lia.
  - rewrite lookup_app_l by (rewrite length_take; lia).
    rewrite lookup_take_lt by lia. by rewrite buf_get_lookup by lia.
Qed.

Lemma memset0_samples bps (dst : list Z) d n :
  0 < bps -> 0 <= d -> 0 <= n -> d + n <= Z.of_nat (length dst) ->
  exists dst',
    memset0 bps dst (d * bps) (n * bps) = Some dst'
    /\ length dst' = length dst
    /\ forall i, buf_get dst' i
         = if (d <=? i) && (i <? d + n) then Some 0 else buf_get dst i.
Proof.
  intros Hbps Hd Hn Hdst. unfold memset0.
  rewrite !Z.rem_mul, !Z.quot_mul by lia.
  destruct (Z.ltb_spec 0 bps); [|lia].
  destruct (Z.leb_spec 0 (d * bps)); [|nia].
  destruct (Z.leb_spec 0 (n * bps)); [|nia].
  destruct (Z.leb_spec (d * bps + n * bps) (Z.of_nat (length dst) * bps)); [|nia].
  simpl. eexists. split; [done|]. split.
  { rewrite !length_app, length_take, length_replicate, length_drop. lia. }
  intros i. destruct (Z.ltb_spec i 0) as [Hneg|Hpos].
  { destruct (Z.leb_spec d i); [lia|]. simpl. by rewrite !buf_get_neg by lia. }
  rewrite buf_get_lookup by lia.
  destruct (Z.leb_spec d i) as [Hdi|Hdi]; simpl.
  - rewrite lookup_app_r by (rewrite length_take; lia).
    rewrite length_take, Nat.min_l by lia.
    destruct (Z.ltb_spec i (d + n)) as [Hin|Hin].
    + rewrite lookup_app_l by (rewrite length_replicate; lia).
      apply lookup_replicate_2. lia.
    + rewrite lookup_app_r by (rewrite length_replicate; lia).
      rewrite length_replicate, lookup_drop.
      rewrite buf_get_lookup by lia. f_equal. lia.
  - rewrite lookup_app_l by (rewrite length_take; lia).
    rewrite lookup_take_lt by lia. by rewrite buf_get_lookup by lia.
Qed.

Lemma memcpy_bytes bps (dst : list Z) doff (src : list Z) soff nbytes d s n :
  doff = d * bps -> soff = s * bps -> nbytes = n * bps ->
  0 < bps -> 0 <= d -> 0 <= s -> 0 <= n ->
  d + n <= Z.of_nat (length dst) -> s + n <= Z.of_nat (length src) ->
  memcpy bps dst doff src soff nbytes = Some (copy_samples dst d src s n).
Proof. intros -> -> ->. apply memcpy_samples. Qed.

Lemma memset0_bytes bps (dst : list Z) doff nbytes d n :
  doff = d * bps -> nbytes = n * bps ->
  0 < bps -> 0 <= d -> 0 <= n -> d + n <= Z.of_nat (length dst) ->
  exists dst',
    memset0 bps dst doff nbytes = Some dst'
    /\ length dst' = length dst
    /\ forall i, buf_get dst' i
         = if (d <=? i) && (i <? d + n) then Some 0 else buf_get dst i.
Proof. intros -> ->. apply memset0_samples. Qed.

(** What every iteration preserves holds after the loop, if the loop gets
    there. *)
Lemma for_loop_preserved {S : Type} (P : S -> Prop) (body : Z -> S -> option S) :
  (forall i s s', body i s = Some s' -> P s -> P s') ->
  forall lo hi s s', for_loop lo hi body s = Some s' -> P s -> P s'.
Proof.
  intros Hbody lo hi. unfold for_loop. generalize (seqZ lo (hi - lo)) as l.
  induction l as [|i l IH]; intros s s'; simpl.
  - by intros [= ->].
  - destruct (body i s) as [s1|] eqn:Hs1; simpl.
    + intros Hl Hs. eapply IH; [done|]. by eapply Hbody.
    + intros Hl. exfalso. clear -Hl. induction l; simpl in *; [done|auto].
Qed.

(** [memcpy] writes into the buffer it is given. *)
Lemma memcpy_length bps (dst : list Z) doff (src : list Z) soff nbytes dst' :
  memcpy bps dst doff src soff nbytes = Some dst' -> length dst' = length dst.
Proof.
  unfold memcpy. case_match eqn:Hg; [|done]. intros [= <-].
  repeat (apply andb_prop in Hg as [Hg ?]).
  pose proof (Z.quot_rem' doff bps). pose proof (Z.quot_rem' soff bps).
  pose proof (Z.quot_rem' nbytes bps).
  assert (0 <= doff ÷ bps) by (apply Z.quot_pos; lia).
  assert (0 <= soff ÷ bps) by (apply Z.quot_pos; lia).
  assert (0 <= nbytes ÷ bps) by (apply Z.quot_pos; lia).
  apply copy_samples_length; try done; nia.
Qed.

(** ** Frames *)

Lemma newAudioFrame_shape fill fmt rate len :
  frame_shape fmt (newAudioFrame fill fmt rate len).
Proof.
  split; simpl.
  - by rewrite length_replicate.
  - intros c buf Hc. apply lookup_replicate in Hc as [-> _].
    by rewrite length_replicate.
Qed.

Lemma getReadPtr_shape_Some fmt f c :
  frame_shape fmt f -> 0 <= c < numChannels fmt -> 0 <= samplesPerFrame fmt ->
  exists buf, getReadPtr f c = Some buf /\ Z.of_nat (length buf) = samplesPerFrame fmt.
Proof.
  intros [Hn Hcap] Hc Hspf. unfold getReadPtr.
  destruct (Z.ltb_spec c 0); [lia|].
  destruct (lookup_lt_is_Some_2 (frameData f) (Z.to_nat c)) as [buf Hbuf]; [lia|].
  pose proof (Hcap _ _ Hbuf) as Hlen. exists buf. split; [done|lia].
Qed.

Lemma setChannel_shape fmt f c buf :
  frame_shape fmt f -> length buf = Z.to_nat (samplesPerFrame fmt) ->
  frame_shape fmt (setChannel f c buf).
Proof.
  intros [Hn Hcap] Hlen. split; simpl.
  - by rewrite length_insert.
  - intros c' buf' Hc'.
    destruct (decide (Z.to_nat c = c')) as [<-|Hne].
    + destruct (decide (Z.to_nat c < length (frameData f))%nat).
      * rewrite list_lookup_insert_eq in Hc' by done. by simplify_eq.
      * rewrite list_insert_ge in Hc' by lia. by eapply Hcap.
    + rewrite list_lookup_insert_ne in Hc' by done. by eapply Hcap.
Qed.

Lemma frame_raw_setChannel_eq f c buf i :
  0 <= c < Z.of_nat (length (frameData f)) ->
  frame_raw (setChannel f c buf) c i = buf_get buf i.
Proof.
  intros Hc. unfold frame_raw, getReadPtr; simpl.
  destruct (Z.ltb_spec c 0); [lia|].
  by rewrite list_lookup_insert_eq by lia.
Qed.

Lemma frame_raw_setChannel_ne f c buf c' i :
  0 <= c -> c <> c' -> frame_raw (setChannel f c buf) c' i = frame_raw f c' i.
Proof.
  intros Hc Hne. unfold frame_raw, getReadPtr; simpl.
  destruct (Z.ltb_spec c' 0); [done|].
  by rewrite list_lookup_insert_ne by lia.
Qed.

Lemma frame_raw_getReadPtr f c buf i :
  getReadPtr f c = Some buf -> frame_raw f c i = buf_get buf i.
Proof. intros H. unfold frame_raw. by rewrite H. Qed.

Lemma frame_sample_raw f c i :
  0 <= i < frameLength f -> frame_sample f c i = frame_raw f c i.
Proof.
  intros H. unfold frame_sample.
  destruct (Z.leb_spec 0 i); [|lia]. by destruct (Z.ltb_spec i (frameLength f)); [|lia].
Qed.

Lemma getReadPtr_length fmt f c buf :
  frame_shape fmt f -> getReadPtr f c = Some buf ->
  length buf = Z.to_nat (samplesPerFrame fmt).
Proof.
  intros [_ Hcap]. unfold getReadPtr. case_match; [done|]. apply Hcap.
Qed.

(** ** Copies between frames *)

Lemma copy_channels_spec fmt dst doff src soff nbytes d s n :
  doff = d * bytesPerSample fmt -> soff = s * bytesPerSample fmt ->
  nbytes = n * bytesPerSample fmt ->
  frame_shape fmt dst -> frame_shape fmt src ->
  0 < bytesPerSample fmt -> 0 <= numChannels fmt ->
  0 <= d -> 0 <= s -> 0 <= n ->
  d + n <= samplesPerFrame fmt -> s + n <= samplesPerFrame fmt ->
  exists dst',
    copy_channels fmt dst doff src soff nbytes = Some dst'
    /\ frame_shape fmt dst'
    /\ frameLength dst' = frameLength dst
    /\ forall ch i, 0 <= ch < numChannels fmt ->
         frame_raw dst' ch i
         = if (d <=? i) && (i <? d + n) then frame_raw src ch (s + (i - d))
           else frame_raw dst ch i.
Proof.
  intros Hdoff Hsoff Hnb Hdst Hsrc Hbps Hch Hd Hs Hn Hdn Hsn. unfold copy_channels.
  destruct (for_loop_inv
              (fun k f =>
                 frame_shape fmt f /\ frameLength f = frameLength dst
                 /\ forall ch i, 0 <= ch < numChannels fmt ->
                      frame_raw f ch i
                      = if (ch <? k) && (d <=? i) && (i <? d + n)
                        then frame_raw src ch (s + (i - d))
                        else frame_raw dst ch i)
              0 (numChannels fmt)
              (fun channel dst0 =>
                 w ← getReadPtr dst0 channel;
                 r ← getReadPtr src channel;
                 w' ← memcpy (bytesPerSample fmt) w doff r soff nbytes;
                 Some (setChannel dst0 channel w')) dst)
    as (f & Hf & Hshape & Hlen & Hall).
  - done.
  - split; [done|]. split; [done|]. intros ch i Hc.
    by destruct (Z.ltb_spec ch 0); [lia|].
  - intros k f0 Hk (Hshape & Hlen & Hall).
    destruct (getReadPtr_shape_Some fmt f0 k) as (w & Hw & Hwlen); [done|lia|lia|].
    destruct (getReadPtr_shape_Some fmt src k) as (r & Hr & Hrlen); [done|lia|lia|].
    rewrite Hw, Hr. simpl.
    rewrite (memcpy_bytes _ _ _ _ _ _ d s n) by (try done; lia). simpl.
    eexists. split; [done|].
    split; [apply setChannel_shape; [done|rewrite copy_samples_length; lia]|].
    split; [done|].
    intros ch i Hc. destruct (decide (ch = k)) as [->|Hne].
    + rewrite frame_raw_setChannel_eq by (destruct Hshape; lia).
      rewrite copy_samples_get by lia.
      destruct (Z.ltb_spec k (k + 1)); [|lia]. simpl.
      rewrite (frame_raw_getReadPtr _ _ _ _ Hr).
      destruct ((d <=? i) && (i <? d + n)); [done|].
      rewrite <- (frame_raw_getReadPtr _ _ _ _ Hw). rewrite Hall by done.
      by destruct (Z.ltb_spec k k); [lia|].
    + rewrite frame_raw_setChannel_ne by lia. rewrite Hall by done.
      destruct (Z.ltb_spec ch k), (Z.ltb_spec ch (k + 1)); try lia; done.
  - exists f. split; [done|]. split; [done|]. split; [done|].
    intros ch i Hc. rewrite Hall by done. by destruct (Z.ltb_spec ch (numChannels fmt)); [|lia].
Qed.

(** Reading a stream through its frames. *)
Lemma node_sample_frame nd ch n i :
  wf_node nd ->
  0 <= n -> 0 <= i ->
  n * samplesPerFrame (format (nodeInfo nd)) + i < numSamples (nodeInfo nd) ->
  i < samplesPerFrame (format (nodeInfo nd)) ->
  0 <= n < numFrames (nodeInfo nd)
  /\ i < frameLength (nodeFrame nd n)
  /\ node_sample nd ch (n * samplesPerFrame (format (nodeInfo nd)) + i)
     = frame_raw (nodeFrame nd n) ch i.
Proof.
  intros Hwf Hn Hi Hlt Hspf. destruct Hwf as [Hs _ _ _ Hnf _ _ Hfr].
  set (spf := samplesPerFrame (format (nodeInfo nd))) in *.
  assert (Hn' : 0 <= n < numFrames (nodeInfo nd)).
  { rewrite Hnf. split; [done|].
    assert (n + 1 <= (numSamples (nodeInfo nd) + spf - 1) / spf); [|lia].
    apply Z.div_le_lower_bound; [lia|]. nia. }
  destruct (Hfr n Hn') as [_ Hlen].
  split; [done|]. split; [lia|].
  unfold node_sample. fold spf.
  replace ((n * spf + i) / spf) with n by (apply Z.div_unique with i; lia).
  replace ((n * spf + i) mod spf) with i by (apply Z.mod_unique with n; lia).
  apply frame_sample_raw. lia.
Qed.

(** ** The ramp streams are well formed *)

Lemma rampBuffer_length c n : length (rampBuffer c n) = 3000%nat.
Proof. unfold rampBuffer. by rewrite length_fmap, length_seqZ. Qed.

Lemma rampFrame_shape total n : frame_shape stereo16 (rampFrame total n).
Proof.
  split; [done|]. intros [|[|c]] buf Hc; simpl in Hc; simplify_eq;
    apply rampBuffer_length.
Qed.

Lemma rampNode_wf id rate total :
  0 < total <= 3000 * INT_MAX -> wf_node (rampNode id rate total).
Proof.
  unfold INT_MAX. intros Htotal.
  assert (Hnf : 0 <= (total + 2999) / 3000 <= 2147483647).
  { split; [apply Z.div_pos; lia|].
    assert ((total + 2999) / 3000 < 2147483648); [|lia].
    apply Z.div_lt_upper_bound; lia. }
  split; simpl; unfold INT_MAX; try lia.
  - f_equal. lia.
  - intros n _. apply rampFrame_shape.
  - intros n Hn. split; [apply rampFrame_shape|done].
Qed.

Lemma sameAudioFormat_format ai1 ai2 :
  sameAudioFormat ai1 ai2 = true -> format ai1 = format ai2.
Proof.
  unfold sameAudioFormat. intros H. apply andb_true_iff in H as [H _].
  by apply bool_decide_eq_true in H.
Qed.

(** * AudioTrim *)

(** ** Construction *)

Section TrimCreate.

Variable int64ToIntS : Z -> Z.
Hypothesis int64ToIntS_int : forall x, in_int (int64ToIntS x).

Lemma trimArg_int v : in_int (trimArg int64ToIntS v).
Proof. apply int64ToIntS_int. Qed.

(** The constructor returns an error exactly when both [last] and [length]
    are given, or [last] is given and below [first], or [length] is given
    and below 1, or [first] is negative, or the range reaches beyond the end
    of the source, all of this on the arguments as the constructor reads
    them: through [propGetInt] and [int64ToIntS]. *)
Lemma audioTrimCreate_fails_iff_converted (first last length : option Z) (clip : VSNodeRef) :
  0 <= numSamples (nodeInfo clip) <= 9223372036854775807 ->
  let N := numSamples (nodeInfo clip) in
  trimFails (audioTrimCreate int64ToIntS first last length clip) <->
    (is_Some last /\ is_Some length)
    \/ (is_Some last /\ trimArg int64ToIntS last < trimArg int64ToIntS first)
    \/ (is_Some length /\ trimArg int64ToIntS length < 1)
    \/ trimArg int64ToIntS first < 0
    \/ (is_Some last /\ N <= trimArg int64ToIntS last)
    \/ (is_Some length /\ N < trimArg int64ToIntS first + trimArg int64ToIntS length)
    \/ N <= trimArg int64ToIntS first.
Proof.
  intros HN N.
  pose proof (trimArg_int first) as Hf.
  pose proof (trimArg_int last) as Hl.
  pose proof (trimArg_int length) as Hn.
  unfold in_int, INT_MIN, INT_MAX in Hf, Hl, Hn.
  unfold audioTrimCreate, trimArg in *.
  assert (Hsome : forall o : option Z, is_Some o <-> snd (propGetInt o) = false).
  { intros [x|]; simpl; split; intros H; try done; try (by eexists);
      by destruct H. }
  rewrite !Hsome. clear Hsome.
  destruct (propGetInt first) as [vf ef], (propGetInt last) as [vl el],
    (propGetInt length) as [vn en]; simpl in *.
  rewrite (to_int64_id (int64ToIntS vf + int64ToIntS vn)) by lia.
  destruct el, en; simpl;
    repeat match goal with
    | |- context [Z.ltb ?a ?b] => destruct (Z.ltb_spec a b); simpl
    | |- context [Z.leb ?a ?b] => destruct (Z.leb_spec a b); simpl
    | |- context [if ?c then _ else _] => destruct c; simpl
    end; subst N; split; intros HH; try done; try lia;
    try (intuition (try discriminate; lia)).
Qed.

End TrimCreate.

Lemma saturate_int x : in_int (saturate x).
Proof.
  unfold saturate, in_int, INT_MAX, INT_MIN.
  destruct (Z.ltb_spec 2147483647 x); [lia|].
  destruct (Z.ltb_spec x (-2147483648)); lia.
Qed.

Lemma saturate_id x : in_int x -> saturate x = x.
Proof.
  unfold saturate, in_int, INT_MAX, INT_MIN. intros Hx.
  destruct (Z.ltb_spec 2147483647 x); [lia|].
  destruct (Z.ltb_spec x (-2147483648)); lia.
Qed.

(** An argument within the [int] range is read as it is given, an absent
    one as 0, by a conversion that leaves the values of that range alone. *)
Lemma trimArg_value int64ToIntS v :
  (forall x, in_int x -> int64ToIntS x = x) -> in_int (default 0 v) ->
  trimArg int64ToIntS v = default 0 v.
Proof. intros Hid Hv. unfold trimArg. destruct v; simpl in *; by apply Hid. Qed.

(** For arguments within the [int] range, AudioTrim construction returns an
    error exactly when both [last] and [length] are given, or [last] is
    given and below [first], or [length] is given and below 1, or [first] is
    negative, or the range reaches beyond the end of the source
    ([last >= numSamples], [first + length > numSamples] or
    [first >= numSamples]); an absent [first] counts as 0. *)
Theorem audioTrimCreate_fails_iff_in_range (int64ToIntS : Z -> Z)
    (first last length : option Z) (clip : VSNodeRef) :
  (forall x, in_int (int64ToIntS x)) ->
  (forall x, in_int x -> int64ToIntS x = x) ->
  in_int (default 0 first) -> in_int (default 0 last) -> in_int (default 0 length) ->
  0 <= numSamples (nodeInfo clip) <= 9223372036854775807 ->
  let N := numSamples (nodeInfo clip) in
  trimFails (audioTrimCreate int64ToIntS first last length clip) <->
    (is_Some last /\ is_Some length)
    \/ (is_Some last /\ default 0 last < default 0 first)
    \/ (is_Some length /\ default 0 length < 1)
    \/ default 0 first < 0
    \/ (is_Some last /\ N <= default 0 last)
    \/ (is_Some length /\ N < default 0 first + default 0 length)
    \/ N <= default 0 first.
Proof.
  intros Hint Hid Hf Hl Hn HN N.
  rewrite <- (trimArg_value int64ToIntS first Hid Hf),
          <- (trimArg_value int64ToIntS last Hid Hl),
          <- (trimArg_value int64ToIntS length Hid Hn).
  by apply audioTrimCreate_fails_iff_converted.
Qed.

Lemma audioTrimCreate_fails_iff_in_range_witness :
  trimFails (audioTrimCreate saturate (Some 2999) None (Some 7000) (rampNode 1 44100 7000)) <->
    (is_Some (@None Z) /\ is_Some (Some 7000))
    \/ (is_Some (@None Z) /\ default 0 None < default 0 (Some 2999))
    \/ (is_Some (Some 7000) /\ default 0 (Some 7000) < 1)
    \/ default 0 (Some 2999) < 0
    \/ (is_Some (@None Z) /\ 7000 <= default 0 None)
    \/ (is_Some (Some 7000) /\ 7000 < default 0 (Some 2999) + default 0 (Some 7000))
    \/ 7000 <= default 0 (Some 2999).
Proof.
  apply (audioTrimCreate_fails_iff_in_range saturate (Some 2999) None (Some 7000)
           (rampNode 1 44100 7000) saturate_int saturate_id);
    unfold in_int, INT_MIN, INT_MAX; simpl; lia.
Defined.

(** ** Frames *)

Section TrimFrame.

Variables (fill : Z) (d : AudioTrimData) (n : Z).

Let fmt := format (nodeInfo (at_node d)).
Let spf := samplesPerFrame fmt.

(** What the constructor establishes: the format is the one of the source,
    and the range lies within the source. *)
Hypothesis Hwf : wf_node (at_node d).
Hypothesis Hfmt : format (at_ai d) = format (nodeInfo (at_node d)).
Hypothesis Hfirst : 0 <= at_first d.
Hypothesis Hrange : at_first d + numSamples (at_ai d) <= numSamples (nodeInfo (at_node d)).

(** Frame [n] is a frame of the trimmed stream, and its remaining sample
    count fits an [int]. *)
Hypothesis Hn : 0 <= n /\ n * spf < numSamples (at_ai d).
Hypothesis Hint : numSamples (at_ai d) - n * spf <= INT_MAX.

Let startSample := n * spf + at_first d.
Let startFrame := startSample / spf.
Let offset := startSample mod spf.
Let length := Z.min spf (numSamples (at_ai d) - n * spf).

Lemma trim_spf : 0 < spf <= INT_MAX.
Proof. apply Hwf. Qed.

Lemma trim_start :
  0 <= startSample /\ startSample = startFrame * spf + offset /\ 0 <= offset < spf
  /\ 0 <= startFrame /\ 0 < length <= spf
  /\ Z.rem startSample spf = offset /\ Z.quot startSample spf = startFrame.
Proof.
  pose proof trim_spf as Hspf. unfold INT_MAX in Hspf.
  assert (0 <= startSample) as H0 by (unfold startSample; nia).
  split; [done|].
  pose proof (Z.div_mod startSample spf ltac:(lia)) as Hdm.
  pose proof (Z.mod_pos_bound startSample spf ltac:(lia)) as Hmod.
  pose proof (Z.div_pos startSample spf H0 ltac:(lia)) as Hdiv.
  fold startFrame offset in Hdm, Hmod, Hdiv.
  repeat split; try (unfold length; lia).
  - by apply Z.rem_mod_nonneg; lia.
  - by apply Z.quot_div_nonneg; lia.
Qed.

Lemma trim_source_sample ch F i :
  0 <= F -> 0 <= i < spf ->
  F * spf + i < numSamples (nodeInfo (at_node d)) ->
  0 <= F < numFrames (nodeInfo (at_node d))
  /\ frame_shape fmt (nodeFrame (at_node d) F)
  /\ frameLength (nodeFrame (at_node d) F)
     = Z.min spf (numSamples (nodeInfo (at_node d)) - F * spf)
  /\ node_sample (at_node d) ch (F * spf + i) = frame_raw (nodeFrame (at_node d) F) ch i.
Proof.
  intros HF Hi Hlt.
  destruct (node_sample_frame (at_node d) ch F i Hwf) as (HFr & _ & Hs);
    try (fold fmt spf; lia).
  destruct (wf_frame _ Hwf F HFr) as [Hshape Hlen]. auto.
Qed.

Lemma trim_sample_in_source i :
  0 <= i < length ->
  startFrame * spf + (offset + i) < numSamples (nodeInfo (at_node d)).
Proof.
  intros Hi. destruct trim_start as (_ & Hs & _). unfold length, startSample in *. lia.
Qed.

Lemma trim_startFrame_int : to_int startFrame = startFrame.
Proof.
  destruct trim_start as (H0 & Hs & Hoff & HF & Hlen & _).
  pose proof (trim_sample_in_source 0 ltac:(lia)) as Hin.
  destruct (trim_source_sample 0 startFrame offset) as [HFr _]; try lia.
  pose proof (wf_frames_int _ Hwf).
  apply to_int_id. unfold in_int, INT_MIN, INT_MAX in *. lia.
Qed.

Lemma trim_length : std_min_int (numSamples (at_ai d) - n * spf) spf = length.
Proof.
  pose proof trim_spf as Hspf.
  rewrite std_min_int_spec; [unfold length; lia| |];
    unfold in_int, INT_MIN, INT_MAX in *; lia.
Qed.

(** The request phase asks for the source frame the output frame starts in,
    and for the next one when the output frame reaches into it. *)
Lemma audioTrimGetframe_requests :
  audioTrimGetframe fill n arInitial d
  = Some (Requested (startFrame :: if spf - offset <? length then [startFrame + 1] else [])).
Proof.
  destruct trim_start as (H0 & Hs & Hoff & HF & Hlen & Hrem & Hquot).
  pose proof trim_spf as Hspf.
  unfold audioTrimGetframe. rewrite Hfmt. fold fmt spf. fold startSample.
  rewrite Hrem, Hquot, trim_startFrame_int, trim_length.
  destruct (Z.eqb_spec offset 0) as [Hz|Hnz]; simpl.
  - destruct (n =? _); simpl.
    + rewrite Hz, Z.sub_0_r. rewrite to_int_id by (unfold in_int, INT_MIN; lia). done.
    + rewrite Hz, Z.sub_0_r. by destruct (Z.ltb_spec spf length); [lia|].
  - rewrite to_int_id by (unfold in_int, INT_MIN, INT_MAX in *; lia). done.
Qed.

(** The ready phase returns a frame of the right length that holds the
    samples of the source from [first + n * spf] on. *)
Lemma audioTrimGetframe_frame :
  exists f,
    audioTrimGetframe fill n arAllFramesReady d = Some (Returned f)
    /\ frameLength f = length
    /\ forall ch i,
         0 <= ch < numChannels fmt -> 0 <= i < length ->
         frame_sample f ch i = node_sample (at_node d) ch (at_first d + n * spf + i).
Proof.
  destruct trim_start as (H0 & Hs & Hoff & HF & Hlen & Hrem & Hquot).
  pose proof trim_spf as Hspf.
  pose proof (wf_bps _ Hwf) as Hbps. pose proof (wf_channels _ Hwf) as Hch.
  assert (Hsample : forall ch i, 0 <= i < length ->
            node_sample (at_node d) ch (at_first d + n * spf + i)
            = node_sample (at_node d) ch (startFrame * spf + (offset + i))).
  { intros ch i Hi. f_equal. unfold startSample in Hs. lia. }
  unfold audioTrimGetframe. rewrite Hfmt. fold fmt spf. fold startSample.
  rewrite Hrem, Hquot, trim_startFrame_int, trim_length.
  destruct ((offset =? 0) && negb (n =? numFrames (at_ai d) - 1)) eqn:Hpass.
  - (* pass through *)
    apply andb_true_iff in Hpass as [Hz _]. apply Z.eqb_eq in Hz.
    pose proof (trim_sample_in_source 0 ltac:(lia)) as Hin0.
    destruct (trim_source_sample 0 startFrame 0) as (HFr & Hshape & Hsrclen & _);
      try lia.
    assert (Hraw : forall ch i, 0 <= i < length ->
              node_sample (at_node d) ch (at_first d + n * spf + i)
              = frame_raw (nodeFrame (at_node d) startFrame) ch i
              /\ i < frameLength (nodeFrame (at_node d) startFrame)).
    { intros ch i Hi. rewrite Hsample by done. rewrite Hz, Z.add_0_l.
      pose proof (trim_sample_in_source i Hi) as Hin. rewrite Hz, Z.add_0_l in Hin.
      destruct (trim_source_sample ch startFrame i) as (_ & _ & _ & ->); try lia.
      split; [done|lia]. }
    unfold getFrameLength.
    destruct (Z.eqb_spec length (frameLength (nodeFrame (at_node d) startFrame)))
      as [Heq|Hne].
    + eexists. split; [done|]. split; [done|]. intros ch i Hc Hi.
      destruct (Hraw ch i Hi) as [-> Hlt]. apply frame_sample_raw. lia.
    + destruct (copy_channels_spec fmt
                  (newAudioFrame fill fmt (sampleRate (at_ai d)) length) 0
                  (nodeFrame (at_node d) startFrame) 0 (length * bytesPerSample fmt)
                  0 0 length) as (f & -> & Hfshape & Hflen & Hf);
        try done; try lia; try apply newAudioFrame_shape.
      simpl. exists f. split; [done|]. split; [done|]. intros ch i Hc Hi.
      rewrite frame_sample_raw by (rewrite Hflen; simpl; lia).
      rewrite Hf by done.
      destruct (Z.leb_spec 0 i); [|lia]. destruct (Z.ltb_spec i (0 + length)); [|lia].
      simpl. destruct (Hraw ch i Hi) as [-> _]. f_equal; lia.
  - (* two source frames *)
    assert (Hn1 : to_int (spf - offset) = spf - offset)
      by (apply to_int_id; unfold in_int, INT_MIN, INT_MAX in *; lia).
    rewrite Hn1. set (n1 := spf - offset) in *.
    pose proof (trim_sample_in_source 0 ltac:(lia)) as Hin0.
    destruct (trim_source_sample 0 startFrame offset) as (HFr & Hshape1 & Hsrclen1 & _);
      try lia.
    destruct (copy_channels_spec fmt
                (newAudioFrame fill fmt (sampleRate (at_ai d)) length) 0
                (nodeFrame (at_node d) startFrame) ((spf - n1) * bytesPerSample fmt)
                (n1 * bytesPerSample fmt) 0 (spf - n1) n1)
      as (f1 & -> & Hf1shape & Hf1len & Hf1);
      try done; try (subst n1; lia); try apply newAudioFrame_shape.
    simpl.
    assert (Hfirstpart : forall ch i, 0 <= i < length -> i < n1 ->
              node_sample (at_node d) ch (at_first d + n * spf + i)
              = frame_raw (nodeFrame (at_node d) startFrame) ch (offset + i)).
    { intros ch i Hi Hlt. rewrite Hsample by done.
      pose proof (trim_sample_in_source i Hi) as Hin.
      destruct (trim_source_sample ch startFrame (offset + i)) as (_ & _ & _ & ->);
        try (subst n1; lia). done. }
    destruct (Z.ltb_spec n1 length) as [Hstraddle|Hwithin].
    + assert (Hnext : startFrame * spf + (offset + n1)
                      < numSamples (nodeInfo (at_node d)))
        by (apply trim_sample_in_source; subst n1; lia).
      destruct (trim_source_sample 0 (startFrame + 1) 0) as (HFr2 & Hshape2 & Hsrclen2 & _);
        try (subst n1; lia).
      destruct (copy_channels_spec fmt f1 (n1 * bytesPerSample fmt)
                  (nodeFrame (at_node d) (startFrame + 1)) 0
                  ((length - n1) * bytesPerSample fmt) n1 0 (length - n1))
        as (f2 & -> & Hf2shape & Hf2len & Hf2); try done; try (subst n1; lia).
      simpl. exists f2. split; [done|]. split; [by rewrite Hf2len, Hf1len|].
      intros ch i Hc Hi.
      rewrite frame_sample_raw by (rewrite Hf2len, Hf1len; simpl; lia).
      rewrite Hf2 by done.
      destruct (Z.leb_spec n1 i) as [Hsecond|Hfst]; simpl.
      * destruct (Z.ltb_spec i (n1 + (length - n1))); [|lia].
        rewrite Hsample by done.
        pose proof (trim_sample_in_source i Hi) as Hin.
        replace (startFrame * spf + (offset + i))
          with ((startFrame + 1) * spf + (i - n1)) in * by (subst n1; lia).
        destruct (trim_source_sample ch (startFrame + 1) (i - n1)) as (_ & _ & _ & ->);
          try (subst n1; lia).
        f_equal; lia.
      * rewrite Hf1 by done.
        destruct (Z.leb_spec 0 i); [|lia]. destruct (Z.ltb_spec i (0 + n1)); [|lia].
        simpl. rewrite Hfirstpart by lia. f_equal; subst n1; lia.
    + simpl. exists f1. split; [done|]. split; [done|].
      intros ch i Hc Hi.
      rewrite frame_sample_raw by (rewrite Hf1len; simpl; lia).
      rewrite Hf1 by done.
      destruct (Z.leb_spec 0 i); [|lia]. destruct (Z.ltb_spec i (0 + n1)); [|lia].
      simpl. rewrite Hfirstpart by lia. f_equal; subst n1; lia.
Qed.

End TrimFrame.

(** ** The trimmed stream *)

Section TrimStream.

Variable int64ToIntS : Z -> Z.
Hypothesis int64ToIntS_int : forall x, in_int (int64ToIntS x).

(** The node [audioTrimCreate] builds. *)
Lemma audioTrimCreate_filter first last length clip d :
  0 <= numSamples (nodeInfo clip) <= 9223372036854775807 ->
  audioTrimCreate int64ToIntS first last length clip = TrimFilter d ->
  at_node d = clip
  /\ format (at_ai d) = format (nodeInfo clip)
  /\ sampleRate (at_ai d) = sampleRate (nodeInfo clip)
  /\ numFrames (at_ai d) = numFrames (nodeInfo clip)
  /\ at_first d = trimArg int64ToIntS first
  /\ numSamples (at_ai d)
     = match last, length with
       | Some _, _ => trimArg int64ToIntS last - trimArg int64ToIntS first + 1
       | None, Some _ => trimArg int64ToIntS length
       | None, None => numSamples (nodeInfo clip) - trimArg int64ToIntS first
       end
  /\ 0 <= at_first d
  /\ 1 <= numSamples (at_ai d)
  /\ at_first d + numSamples (at_ai d) <= numSamples (nodeInfo clip).
Proof.
  intros HN.
  pose proof (trimArg_int int64ToIntS int64ToIntS_int first) as Hf.
  pose proof (trimArg_int int64ToIntS int64ToIntS_int last) as Hl.
  pose proof (trimArg_int int64ToIntS int64ToIntS_int length) as Hn.
  unfold in_int, INT_MIN, INT_MAX in Hf, Hl, Hn.
  unfold audioTrimCreate, trimArg in *.
  destruct first as [vf|], last as [vl|], length as [vn|]; simpl in *;
    rewrite ?(to_int64_id (int64ToIntS _ + int64ToIntS _)),
            ?(to_int64_id (int64ToIntS _ - int64ToIntS _ + 1)),
            ?(to_int64_id (numSamples _ - int64ToIntS _)) by lia;
    repeat match goal with
    | |- context [Z.ltb ?a ?b] => destruct (Z.ltb_spec a b); simpl
    | |- context [Z.leb ?a ?b] => destruct (Z.leb_spec a b); simpl
    | |- context [Z.eqb ?a ?b] => destruct (Z.eqb_spec a b); simpl
    end; intros Hcreate; try discriminate; injection Hcreate as <-; simpl;
    rewrite ?to_int64_id in * by lia; repeat split; try done; lia.
Qed.

(** Sample [k] of the stream of an AudioTrim node is sample [first + k] of
    its source, on every channel, when the trimmed stream has at most
    [INT_MAX] samples. *)
Lemma audioTrim_stream fill first last length clip d ch k :
  wf_node clip ->
  numSamples (nodeInfo clip) <= 9223372036854775807 ->
  audioTrimCreate int64ToIntS first last length clip = TrimFilter d ->
  numSamples (at_ai d) <= INT_MAX ->
  0 <= ch < numChannels (format (nodeInfo clip)) ->
  0 <= k < numSamples (at_ai d) ->
  stream_sample (samplesPerFrame (format (nodeInfo clip)))
    (fun n => audioTrimGetframe fill n arAllFramesReady d) ch k
  = node_sample clip ch (trimArg int64ToIntS first + k).
Proof.
  intros Hwf HN Hcreate Hint Hch Hk.
  pose proof (wf_samples _ Hwf) as Hpos. pose proof (wf_spf _ Hwf) as Hspf.
  destruct (audioTrimCreate_filter first last length clip d ltac:(lia) Hcreate)
    as (Hnode & Hfmt & _ & Hnf & Hfirst & _ & Hf0 & HT & Hrange).
  subst clip. set (spf := samplesPerFrame (format (nodeInfo (at_node d)))) in *.
  pose proof (Z.div_mod k spf ltac:(lia)) as Hdm.
  pose proof (Z.mod_pos_bound k spf ltac:(lia)) as Hmod.
  pose proof (Z.div_pos k spf ltac:(lia) ltac:(lia)) as Hdiv.
  destruct (audioTrimGetframe_frame fill d (k / spf) Hwf Hfmt Hf0 Hrange)
    as (f & Hf & Hlen & Hsamples); fold spf.
  - split; [lia|]. nia.
  - nia.
  - unfold stream_sample. rewrite Hf. simpl.
    fold spf in Hlen, Hsamples.
    rewrite Hsamples by (try done; lia). f_equal. rewrite <- Hfirst. lia.
Qed.

End TrimStream.

(** ** Sample-accurate trimming *)

(** For arguments within the [int] range and a trimmed stream of at most
    [INT_MAX] samples, the AudioTrim node has the samples the arguments ask
    for: [last - first + 1] of them, or [length], or all from [first] on,
    and sample [k] of the node is sample [first + k] of the source, on every
    channel; an absent [first] counts as 0. *)
Theorem audioTrim_samples_in_range (int64ToIntS : Z -> Z) (fill : Z)
    (first last length : option Z) (clip : VSNodeRef) (d : AudioTrimData) (ch k : Z) :
  (forall x, in_int (int64ToIntS x)) ->
  (forall x, in_int x -> int64ToIntS x = x) ->
  in_int (default 0 first) -> in_int (default 0 last) -> in_int (default 0 length) ->
  wf_node clip ->
  numSamples (nodeInfo clip) <= 9223372036854775807 ->
  audioTrimCreate int64ToIntS first last length clip = TrimFilter d ->
  numSamples (at_ai d) <= INT_MAX ->
  0 <= ch < numChannels (format (nodeInfo clip)) ->
  0 <= k < numSamples (at_ai d) ->
  numSamples (at_ai d)
  = match last, length with
    | Some l, _ => l - default 0 first + 1
    | None, Some n => n
    | None, None => numSamples (nodeInfo clip) - default 0 first
    end
  /\ stream_sample (samplesPerFrame (format (nodeInfo clip)))
       (fun n => audioTrimGetframe fill n arAllFramesReady d) ch k
     = node_sample clip ch (default 0 first + k).
Proof.
  intros Hint Hid Hf Hl Hn Hwf HN Hcreate Hmax Hch Hk.
  pose proof (wf_samples _ Hwf) as Hpos.
  rewrite <- (trimArg_value int64ToIntS first Hid Hf). split.
  - destruct (audioTrimCreate_filter int64ToIntS Hint first last length clip d
                ltac:(lia) Hcreate) as (_ & _ & _ & _ & _ & -> & _).
    rewrite (trimArg_value int64ToIntS last Hid Hl),
            (trimArg_value int64ToIntS length Hid Hn).
    by destruct last, length.
  - by eapply audioTrim_stream.
Qed.

Lemma audioTrim_samples_in_range_witness :
  numSamples (at_ai trimScenario)
  = match @None Z, Some 2 with
    | Some l, _ => l - default 0 (Some 2999) + 1
    | None, Some n => n
    | None, None => numSamples (nodeInfo (rampNode 1 44100 7000)) - default 0 (Some 2999)
    end
  /\ stream_sample 3000 (fun n => audioTrimGetframe 0 n arAllFramesReady trimScenario) 1 1
     = node_sample (rampNode 1 44100 7000) 1 (default 0 (Some 2999) + 1).
Proof.
  apply (audioTrim_samples_in_range saturate 0 (Some 2999) None (Some 2)
           (rampNode 1 44100 7000) trimScenario 1 1 saturate_int saturate_id);
    try (unfold in_int, INT_MIN, INT_MAX; simpl; lia).
  - apply rampNode_wf. unfold INT_MAX. lia.
  - reflexivity.
Defined.

(** The scenario of the design document: a source of 7000 samples in frames
    of 3000, 3000 and 1000 samples, trimmed with [first = 2999] and
    [length = 2].  Frame 0 of the result requests the source frames 0 and 1
    and is 2 samples long: source samples 2999 and 3000, on both channels. *)
Theorem audioTrim_scenario :
  audioTrimCreate saturate (Some 2999) None (Some 2) (rampNode 1 44100 7000)
    = TrimFilter trimScenario
  /\ numFrames (nodeInfo (rampNode 1 44100 7000)) = 3
  /\ map (fun n => frameLength (nodeFrame (rampNode 1 44100 7000) n)) [0; 1; 2]
     = [3000; 3000; 1000]
  /\ audioTrimGetframe 0 0 arInitial trimScenario = Some (Requested [0; 1])
  /\ frameLength <$> returned (audioTrimGetframe 0 0 arAllFramesReady trimScenario) = Some 2
  /\ forall ch, ch = 0 \/ ch = 1 ->
       stream_sample 3000 (fun n => audioTrimGetframe 0 n arAllFramesReady trimScenario) ch 0
       = node_sample (rampNode 1 44100 7000) ch 2999
       /\ stream_sample 3000 (fun n => audioTrimGetframe 0 n arAllFramesReady trimScenario)
            ch 1
          = node_sample (rampNode 1 44100 7000) ch 3000
       /\ node_sample (rampNode 1 44100 7000) ch 2999 = Some (rampSample ch 2999)
       /\ node_sample (rampNode 1 44100 7000) ch 3000 = Some (rampSample ch 3000).
Proof.
  split; [reflexivity|]. split; [reflexivity|]. split; [reflexivity|].
  split; [reflexivity|]. split; [vm_compute; reflexivity|].
  assert (Hwf : wf_node (rampNode 1 44100 7000))
    by (apply rampNode_wf; unfold INT_MAX; lia).
  assert (Hstream : forall ch k, 0 <= ch < 2 -> 0 <= k < 2 ->
            stream_sample 3000
              (fun n => audioTrimGetframe 0 n arAllFramesReady trimScenario) ch k
            = node_sample (rampNode 1 44100 7000) ch (2999 + k)).
  { intros ch k Hch Hk.
    apply (audioTrim_stream saturate saturate_int 0 (Some 2999) None (Some 2)
             (rampNode 1 44100 7000) trimScenario ch k);
      try done; simpl; unfold INT_MAX; lia. }
  intros ch Hch. rewrite !Hstream by lia.
  split; [done|]. split; [done|]. destruct Hch as [->| ->]; vm_compute; by split.
Qed.

(** ** Construction without effect *)

Section TrimNop.

Variable int64ToIntS : Z -> Z.
Hypothesis int64ToIntS_int : forall x, in_int (int64ToIntS x).

(** The three outcomes of the constructor, on the arguments as it reads
    them. *)
Lemma audioTrimCreate_outcomes (first last length : option Z)
    (clip : VSNodeRef) :
  0 <= numSamples (nodeInfo clip) <= 9223372036854775807 ->
  match audioTrimCreate int64ToIntS first last length clip with
  | TrimError _ => True
  | TrimPassthrough c =>
      c = clip
      /\ ((first = None /\ last = None /\ length = None)
          \/ (trimArg int64ToIntS first = 0
              /\ (is_Some last ->
                  trimArg int64ToIntS last = numSamples (nodeInfo clip) - 1)
              /\ (is_Some length ->
                  trimArg int64ToIntS length = numSamples (nodeInfo clip))))
  | TrimFilter d =>
      at_node d = clip
      /\ (is_Some first \/ is_Some last \/ is_Some length)
      /\ 1 <= numSamples (at_ai d) < numSamples (nodeInfo clip)
  end.
Proof.
  intros HN.
  pose proof (trimArg_int int64ToIntS int64ToIntS_int first) as Hf.
  pose proof (trimArg_int int64ToIntS int64ToIntS_int last) as Hl.
  pose proof (trimArg_int int64ToIntS int64ToIntS_int length) as Hn.
  unfold in_int, INT_MIN, INT_MAX in Hf, Hl, Hn.
  unfold audioTrimCreate, trimArg in *.
  destruct first as [vf|], last as [vl|], length as [vn|]; simpl in *;
    rewrite ?(to_int64_id (int64ToIntS _ + int64ToIntS _)),
            ?(to_int64_id (int64ToIntS _ - int64ToIntS _ + 1)),
            ?(to_int64_id (numSamples _ - int64ToIntS _)) by lia;
    repeat match goal with
    | |- context [Z.ltb ?a ?b] => destruct (Z.ltb_spec a b); simpl
    | |- context [Z.leb ?a ?b] => destruct (Z.leb_spec a b); simpl
    | |- context [Z.eqb ?a ?b] => destruct (Z.eqb_spec a b); simpl
    end; try done;
    rewrite ?to_int64_id in * by lia;
    repeat split; eauto; try lia;
    try (right; repeat split; intros; try lia; by destruct select (is_Some None)).
Qed.

End TrimNop.

(** A filter node is created only where something is trimmed.  For
    arguments within the [int] range: when the constructor hands back a clip
    without a node of its own, that clip is the input clip, and either no
    argument was given or the range is the whole clip ([first] is 0, [last]
    the last sample, [length] the number of samples); when it creates a
    node, an argument was given and the node is at least one sample shorter
    than the input. *)
Theorem audioTrimCreate_passthrough_or_shorter (int64ToIntS : Z -> Z)
    (first last length : option Z) (clip : VSNodeRef) :
  (forall x, in_int (int64ToIntS x)) ->
  (forall x, in_int x -> int64ToIntS x = x) ->
  in_int (default 0 first) -> in_int (default 0 last) -> in_int (default 0 length) ->
  0 <= numSamples (nodeInfo clip) <= 9223372036854775807 ->
  match audioTrimCreate int64ToIntS first last length clip with
  | TrimError _ => True
  | TrimPassthrough c =>
      c = clip
      /\ ((first = None /\ last = None /\ length = None)
          \/ (default 0 first = 0
              /\ (forall l, last = Some l -> l = numSamples (nodeInfo clip) - 1)
              /\ (forall n, length = Some n -> n = numSamples (nodeInfo clip))))
  | TrimFilter d =>
      at_node d = clip
      /\ (is_Some first \/ is_Some last \/ is_Some length)
      /\ 1 <= numSamples (at_ai d) < numSamples (nodeInfo clip)
  end.
Proof.
  intros Hint Hid Hf Hl Hn HN.
  pose proof (audioTrimCreate_outcomes int64ToIntS Hint first last length clip HN) as H.
  rewrite (trimArg_value int64ToIntS first Hid Hf),
          (trimArg_value int64ToIntS last Hid Hl),
          (trimArg_value int64ToIntS length Hid Hn) in H.
  destruct (audioTrimCreate _ _ _ _ _); [done| |done].
  destruct H as [-> [H|(H0 & Hlast & Hlen)]]; (split; [done|]); [by left|right].
  split; [done|]. split.
  - intros l ->. by apply Hlast.
  - intros n ->. by apply Hlen.
Qed.

Lemma audioTrimCreate_passthrough_or_shorter_witness :
  match audioTrimCreate saturate (Some 0) None (Some 7000) (rampNode 1 44100 7000) with
  | TrimError _ => True
  | TrimPassthrough c =>
      c = rampNode 1 44100 7000
      /\ ((Some 0 = None /\ @None Z = None /\ Some 7000 = None)
          \/ (default 0 (Some 0) = 0
              /\ (forall l, None = Some l ->
                    l = numSamples (nodeInfo (rampNode 1 44100 7000)) - 1)
              /\ (forall n, Some 7000 = Some n ->
                    n = numSamples (nodeInfo (rampNode 1 44100 7000)))))
  | TrimFilter d =>
      at_node d = rampNode 1 44100 7000
      /\ (is_Some (Some 0) \/ is_Some (@None Z) \/ is_Some (Some 7000))
      /\ 1 <= numSamples (at_ai d) < numSamples (nodeInfo (rampNode 1 44100 7000))
  end.
Proof.
  apply (audioTrimCreate_passthrough_or_shorter saturate (Some 0) None (Some 7000)
           (rampNode 1 44100 7000) saturate_int saturate_id);
    unfold in_int, INT_MIN, INT_MAX; simpl; lia.
Defined.

(** ** Requests and aligned trims *)

Section TrimRequests.

Variable int64ToIntS : Z -> Z.
Hypothesis int64ToIntS_int : forall x, in_int (int64ToIntS x).

(** A node is created only for a range that leaves out a sample. *)
Lemma audioTrimCreate_filter_lt first last length clip d :
  0 <= numSamples (nodeInfo clip) <= 9223372036854775807 ->
  audioTrimCreate int64ToIntS first last length clip = TrimFilter d ->
  numSamples (at_ai d) < numSamples (nodeInfo clip).
Proof.
  intros HN.
  pose proof (trimArg_int int64ToIntS int64ToIntS_int first) as Hf.
  pose proof (trimArg_int int64ToIntS int64ToIntS_int last) as Hl.
  pose proof (trimArg_int int64ToIntS int64ToIntS_int length) as Hn.
  unfold in_int, INT_MIN, INT_MAX in Hf, Hl, Hn.
  unfold audioTrimCreate, trimArg in *.
  destruct first as [vf|], last as [vl|], length as [vn|]; simpl in *;
    rewrite ?(to_int64_id (int64ToIntS _ + int64ToIntS _)),
            ?(to_int64_id (int64ToIntS _ - int64ToIntS _ + 1)),
            ?(to_int64_id (numSamples _ - int64ToIntS _)) by lia;
    repeat match goal with
    | |- context [Z.ltb ?a ?b] => destruct (Z.ltb_spec a b); simpl
    | |- context [Z.leb ?a ?b] => destruct (Z.leb_spec a b); simpl
    | |- context [Z.eqb ?a ?b] => destruct (Z.eqb_spec a b); simpl
    end; intros Hcreate; try discriminate; injection Hcreate as <-; simpl;
    rewrite ?to_int64_id in * by lia; lia.
Qed.

(** The frames the request phase asks for, with [first] as the constructor
    reads it. *)
Lemma audioTrim_requests (fill : Z) (first last length : option Z)
    (clip : VSNodeRef) (d : AudioTrimData) (n : Z) :
  wf_node clip ->
  numSamples (nodeInfo clip) <= 9223372036854775807 ->
  audioTrimCreate int64ToIntS first last length clip = TrimFilter d ->
  numSamples (at_ai d) <= INT_MAX ->
  0 <= n ->
  n * samplesPerFrame (format (nodeInfo clip)) < numSamples (at_ai d) ->
  let spf := samplesPerFrame (format (nodeInfo clip)) in
  let F := (trimArg int64ToIntS first + n * spf) / spf in
  exists reqs,
    audioTrimGetframe fill n arInitial d = Some (Requested reqs)
    /\ (reqs = [F] \/ reqs = [F; F + 1])
    /\ forall x, x ∈ reqs -> 0 <= x < numFrames (nodeInfo clip).
Proof.
  intros Hwf HN Hcreate Hint Hn0 Hn spf F.
  pose proof (wf_samples _ Hwf) as Hpos. pose proof (wf_spf _ Hwf) as Hspf.
  destruct (audioTrimCreate_filter int64ToIntS int64ToIntS_int first last length clip d
              ltac:(lia) Hcreate)
    as (Hnode & Hfmt & _ & Hnf & Hfirst & _ & Hf0 & HT & Hrange).
  subst clip. fold spf in Hn.
  assert (Hn' : 0 <= n /\ n * spf < numSamples (at_ai d)) by done.
  assert (Hint' : numSamples (at_ai d) - n * spf <= INT_MAX) by nia.
  pose proof (audioTrimGetframe_requests fill d n Hwf Hfmt Hf0 Hrange Hn' Hint') as Hreq.
  destruct (trim_start d n Hwf Hf0 Hn') as (H0 & Hs & Hoff & HF & Hlen & _).
  pose proof (trim_sample_in_source d n Hwf Hf0 Hrange Hn') as Hin.
  fold spf in Hreq, Hs, Hoff, HF, Hlen, Hin.
  assert (HFeq : (n * spf + at_first d) / spf = F).
  { unfold F. rewrite <- Hfirst. f_equal. lia. }
  rewrite HFeq in *.
  set (offset := (n * spf + at_first d) mod spf) in *.
  set (len := Z.min spf (numSamples (at_ai d) - n * spf)) in *.
  eexists. split; [exact Hreq|].
  destruct (trim_source_sample d 0 Hwf 0 F offset HF Hoff) as [HFr _].
  { fold spf. specialize (Hin 0). lia. }
  destruct (Z.ltb_spec (spf - offset) len) as [Hlt|Hge].
  - split; [by right|].
    destruct (trim_source_sample d 0 Hwf 0 (F + 1) 0) as [HFr1 _];
      [lia|fold spf; lia|fold spf; specialize (Hin (spf - offset)); lia|].
    intros x Hx. apply elem_of_cons in Hx as [->|Hx]; [done|].
    apply elem_of_cons in Hx as [->|Hx]; [done|]. by apply elem_of_nil in Hx.
  - split; [by left|].
    intros x Hx. apply elem_of_cons in Hx as [->|Hx]; [done|]. by apply elem_of_nil in Hx.
Qed.

(** The frames of a trim that starts on a frame boundary, with [first] as
    the constructor reads it. *)
Lemma audioTrim_aligned (fill : Z) (first last length : option Z)
    (clip : VSNodeRef) (d : AudioTrimData) (n : Z) :
  wf_node clip ->
  numSamples (nodeInfo clip) <= 9223372036854775807 ->
  audioTrimCreate int64ToIntS first last length clip = TrimFilter d ->
  numSamples (at_ai d) <= INT_MAX ->
  let spf := samplesPerFrame (format (nodeInfo clip)) in
  trimArg int64ToIntS first mod spf = 0 ->
  0 <= n ->
  (n + 1) * spf <= numSamples (at_ai d) ->
  audioTrimGetframe fill n arInitial d
    = Some (Requested [trimArg int64ToIntS first / spf + n])
  /\ audioTrimGetframe fill n arAllFramesReady d
     = Some (Returned (nodeFrame clip (trimArg int64ToIntS first / spf + n))).
Proof.
  intros Hwf HN Hcreate Hint spf Halign Hn0 Hfull.
  pose proof (wf_samples _ Hwf) as Hpos. pose proof (wf_spf _ Hwf) as Hspf.
  pose proof (audioTrimCreate_filter_lt first last length clip d ltac:(lia) Hcreate) as Hlt.
  destruct (audioTrimCreate_filter int64ToIntS int64ToIntS_int first last length clip d
              ltac:(lia) Hcreate)
    as (Hnode & Hfmt & _ & Hnf & Hfirst & _ & Hf0 & HT & Hrange).
  subst clip. fold spf in Hspf. rewrite <- Hfirst in *.
  assert (Hn' : 0 <= n /\ n * spf < numSamples (at_ai d)) by lia.
  assert (Hint' : numSamples (at_ai d) - n * spf <= INT_MAX) by nia.
  destruct (trim_start d n Hwf Hf0 Hn') as (H0 & Hs & Hoff & HF & Hlen & Hrem & Hquot).
  pose proof (trim_startFrame_int d n Hwf Hf0 Hrange Hn') as HFint.
  pose proof (trim_length d n Hwf Hn' Hint') as Hl.
  fold spf in Hs, Hoff, HF, Hlen, Hrem, Hquot, HFint, Hl.
  pose proof (Z.div_mod (at_first d) spf ltac:(lia)) as Hdm.
  set (q := at_first d / spf) in *. rewrite Halign in Hdm.
  assert (Hq : 0 <= q) by (unfold q; apply Z.div_pos; lia).
  assert (Hstart : n * spf + at_first d = (q + n) * spf) by lia.
  assert (Hoff0 : (n * spf + at_first d) mod spf = 0).
  { rewrite Hstart. apply Z.mod_mul. lia. }
  assert (HF' : (n * spf + at_first d) / spf = q + n).
  { rewrite Hstart. apply Z.div_mul. lia. }
  rewrite Hoff0 in Hrem. rewrite HF' in Hquot, HFint.
  assert (Hnext : (q + n + 1) * spf <= numSamples (nodeInfo (at_node d))) by nia.
  assert (Hlast : n <> numFrames (at_ai d) - 1).
  { rewrite Hnf, (wf_frames _ Hwf). fold spf.
    assert (n + 2 <= (numSamples (nodeInfo (at_node d)) + spf - 1) / spf); [|lia].
    apply Z.div_le_lower_bound; [lia|]. nia. }
  destruct (trim_source_sample d 0 Hwf 0 (q + n) 0) as (_ & _ & Hsl & _);
    try (fold spf; lia).
  fold spf in Hsl.
  unfold audioTrimGetframe. rewrite Hfmt. fold spf.
  rewrite Hrem, Hquot, HFint, Hl.
  destruct (Z.eqb_spec 0 0) as [_|]; [|done].
  destruct (Z.eqb_spec n (numFrames (at_ai d) - 1)) as [|_]; [done|]. simpl.
  split; [done|].
  unfold getFrameLength. rewrite Hsl.
  destruct (Z.eqb_spec (Z.min spf (numSamples (at_ai d) - n * spf))
              (Z.min spf (numSamples (nodeInfo (at_node d)) - (q + n) * spf))) as [_|Hne];
    [done|lia].
Qed.

End TrimRequests.

(** For [first] within the [int] range and a trimmed stream of at most
    [INT_MAX] samples, the request phase of frame [n] asks for the source
    frame in which sample [first + n * spf] lies, and for the next one or
    not: one or two consecutive frames, all of them frames the source
    has. *)
Theorem audioTrim_requests_in_source (int64ToIntS : Z -> Z) (fill : Z)
    (first last length : option Z) (clip : VSNodeRef) (d : AudioTrimData) (n : Z) :
  (forall x, in_int (int64ToIntS x)) ->
  (forall x, in_int x -> int64ToIntS x = x) ->
  in_int (default 0 first) ->
  wf_node clip ->
  numSamples (nodeInfo clip) <= 9223372036854775807 ->
  audioTrimCreate int64ToIntS first last length clip = TrimFilter d ->
  numSamples (at_ai d) <= INT_MAX ->
  0 <= n ->
  n * samplesPerFrame (format (nodeInfo clip)) < numSamples (at_ai d) ->
  let spf := samplesPerFrame (format (nodeInfo clip)) in
  let F := (default 0 first + n * spf) / spf in
  exists reqs,
    audioTrimGetframe fill n arInitial d = Some (Requested reqs)
    /\ (reqs = [F] \/ reqs = [F; F + 1])
    /\ forall x, x ∈ reqs -> 0 <= x < numFrames (nodeInfo clip).
Proof.
  intros Hint Hid Hf Hwf HN Hcreate Hmax Hn0 Hn.
  rewrite <- (trimArg_value int64ToIntS first Hid Hf).
  by eapply audioTrim_requests.
Qed.

Lemma audioTrim_requests_in_source_witness :
  exists reqs,
    audioTrimGetframe 0 0 arInitial trimScenario = Some (Requested reqs)
    /\ (reqs = [(default 0 (Some 2999) + 0 * 3000) / 3000]
        \/ reqs = [(default 0 (Some 2999) + 0 * 3000) / 3000;
                   (default 0 (Some 2999) + 0 * 3000) / 3000 + 1])
    /\ forall x, x ∈ reqs -> 0 <= x < numFrames (nodeInfo (rampNode 1 44100 7000)).
Proof.
  apply (audioTrim_requests_in_source saturate 0 (Some 2999) None (Some 2)
           (rampNode 1 44100 7000) trimScenario 0 saturate_int saturate_id);
    try (unfold in_int, INT_MIN, INT_MAX; simpl; lia).
  - apply rampNode_wf. unfold INT_MAX. lia.
  - reflexivity.
Defined.

(** A trim that starts on a frame boundary copies nothing for a full frame.
    For [first] within the [int] range and a multiple of the frame size,
    output frame [n] is requested as source frame [first / spf + n], and the
    frame handed out is that frame of the source itself. *)
Theorem audioTrim_aligned_frame_is_source_frame (int64ToIntS : Z -> Z) (fill : Z)
    (first last length : option Z) (clip : VSNodeRef) (d : AudioTrimData) (n : Z) :
  (forall x, in_int (int64ToIntS x)) ->
  (forall x, in_int x -> int64ToIntS x = x) ->
  in_int (default 0 first) ->
  wf_node clip ->
  numSamples (nodeInfo clip) <= 9223372036854775807 ->
  audioTrimCreate int64ToIntS first last length clip = TrimFilter d ->
  numSamples (at_ai d) <= INT_MAX ->
  let spf := samplesPerFrame (format (nodeInfo clip)) in
  default 0 first mod spf = 0 ->
  0 <= n ->
  (n + 1) * spf <= numSamples (at_ai d) ->
  audioTrimGetframe fill n arInitial d
    = Some (Requested [default 0 first / spf + n])
  /\ audioTrimGetframe fill n arAllFramesReady d
     = Some (Returned (nodeFrame clip (default 0 first / spf + n))).
Proof.
  intros Hint Hid Hf Hwf HN Hcreate Hmax spf.
  rewrite <- (trimArg_value int64ToIntS first Hid Hf). intros Halign Hn0 Hfull.
  by eapply audioTrim_aligned.
Qed.

Lemma audioTrim_aligned_frame_is_source_frame_witness :
  audioTrimGetframe 0 1 arInitial trimAligned
    = Some (Requested [default 0 (Some 3000) / 3000 + 1])
  /\ audioTrimGetframe 0 1 arAllFramesReady trimAligned
     = Some (Returned (nodeFrame (rampNode 1 44100 10000)
                         (default 0 (Some 3000) / 3000 + 1))).
Proof.
  apply (audioTrim_aligned_frame_is_source_frame saturate 0 (Some 3000) None None
           (rampNode 1 44100 10000) trimAligned 1 saturate_int saturate_id);
    try (unfold in_int, INT_MIN, INT_MAX; simpl; lia).
  - apply rampNode_wf. unfold INT_MAX. lia.
  - reflexivity.
  - reflexivity.
Defined.

(** ** A long clip *)

(** C3, at a clip of 2^32 + 20 samples trimmed with [first = 10]: the
    trimmed stream has 2^32 + 10 samples, but [std::min<int>] narrows that
    count to 10, so frame 0 comes out 10 samples long and sample 10 of the
    trimmed stream is missing, where the source has its sample 20. *)
Theorem audioTrim_long_clip_short_frame :
  audioTrimCreate saturate (Some 10) None None (rampNode 1 44100 4294967316)
    = TrimFilter trimLong
  /\ numSamples (at_ai trimLong) = 4294967306
  /\ frameLength <$> returned (audioTrimGetframe 0 0 arAllFramesReady trimLong) = Some 10
  /\ stream_sample 3000 (fun n => audioTrimGetframe 0 n arAllFramesReady trimLong) 0 10
     = None
  /\ node_sample (rampNode 1 44100 4294967316) 0 (10 + 10) = Some 20.
Proof. split; [reflexivity|]. vm_compute. repeat split. Qed.

(** ** Arguments beyond the [int] range *)

(** C8, at [first = 5000000000] on a clip of 4294967316 samples: [first] is
    beyond the end of the source, and yet the constructor returns no error.
    It reads [first] through [int64ToIntS], as 2147483647, and builds a node
    of the 2147483669 samples from there on. *)
Theorem audioTrimCreate_first_beyond_end :
  numSamples (nodeInfo (rampNode 1 44100 4294967316)) <= 5000000000
  /\ ~ trimFails (audioTrimCreate saturate (Some 5000000000) None None
                    (rampNode 1 44100 4294967316))
  /\ exists d,
       audioTrimCreate saturate (Some 5000000000) None None (rampNode 1 44100 4294967316)
         = TrimFilter d
       /\ at_first d = 2147483647
       /\ numSamples (at_ai d) = 2147483669.
Proof.
  split; [simpl; lia|]. split; [vm_compute; tauto|].
  eexists. split; [reflexivity|]. split; reflexivity.
Qed.

(** * AudioSplice *)

(** ** Frames *)

Lemma splice_channels_spec fmt f f1 f1offset f1copy f2 f2copy o1 c1 c2 :
  f1offset = o1 * bytesPerSample fmt -> f1copy = c1 * bytesPerSample fmt ->
  f2copy = c2 * bytesPerSample fmt ->
  frame_shape fmt f -> frame_shape fmt f1 -> frame_shape fmt f2 ->
  0 < bytesPerSample fmt -> 0 <= numChannels fmt ->
  0 <= o1 -> 0 <= c1 -> 0 <= c2 ->
  o1 + c1 <= samplesPerFrame fmt -> c1 + c2 <= samplesPerFrame fmt ->
  exists f',
    splice_channels fmt f f1 f1offset f1copy f2 f2copy = Some f'
    /\ frameLength f' = frameLength f
    /\ forall ch i, 0 <= ch < numChannels fmt -> 0 <= i < c1 + c2 ->
         frame_raw f' ch i
         = if i <? c1 then frame_raw f1 ch (o1 + i) else frame_raw f2 ch (i - c1).
Proof.
  intros Ho1 Hc1 Hc2 Hf Hf1 Hf2 Hbps Hch Ho Hc1pos Hc2pos Hoc Hcc.
  unfold splice_channels.
  destruct (for_loop_inv
              (fun k g =>
                 frame_shape fmt g /\ frameLength g = frameLength f
                 /\ forall ch i, 0 <= ch < k -> 0 <= i < c1 + c2 ->
                      frame_raw g ch i
                      = if i <? c1 then frame_raw f1 ch (o1 + i)
                        else frame_raw f2 ch (i - c1))
              0 (numChannels fmt)
              (fun channel g =>
                 w ← getReadPtr g channel;
                 r1 ← getReadPtr f1 channel;
                 w0 ← memcpy (bytesPerSample fmt) w 0 r1 f1offset f1copy;
                 r2 ← getReadPtr f2 channel;
                 w1 ← memcpy (bytesPerSample fmt) w0 f1copy r2 0 f2copy;
                 Some (setChannel g channel w1)) f)
    as (g & Hg & Hshape & Hlen & Hall).
  - done.
  - split; [done|]. split; [done|]. intros; lia.
  - intros k g0 Hk (Hshape & Hlen & Hall).
    destruct (getReadPtr_shape_Some fmt g0 k) as (w & Hw & Hwlen); [done|lia|lia|].
    destruct (getReadPtr_shape_Some fmt f1 k) as (r1 & Hr1 & Hr1len); [done|lia|lia|].
    destruct (getReadPtr_shape_Some fmt f2 k) as (r2 & Hr2 & Hr2len); [done|lia|lia|].
    rewrite Hw, Hr1. simpl.
    rewrite (memcpy_bytes _ _ _ _ _ _ 0 o1 c1) by (try done; lia). simpl.
    rewrite Hr2. simpl.
    assert (Hw0len : length (copy_samples w 0 r1 o1 c1) = length w)
      by (apply copy_samples_length; lia).
    rewrite (memcpy_bytes _ _ _ _ _ _ c1 0 c2) by (try done; lia). simpl.
    eexists. split; [done|].
    split; [apply setChannel_shape; [done|rewrite copy_samples_length; lia]|].
    split; [done|].
    intros ch i Hc Hi. destruct (decide (ch = k)) as [->|Hne].
    + rewrite frame_raw_setChannel_eq by (destruct Hshape; lia).
      rewrite copy_samples_get by lia.
      destruct (Z.leb_spec c1 i), (Z.ltb_spec i c1); try lia; simpl.
      * destruct (Z.ltb_spec i (c1 + c2)); [|lia].
        rewrite (frame_raw_getReadPtr _ _ _ _ Hr2). f_equal; lia.
      * rewrite copy_samples_get by lia.
        destruct (Z.leb_spec 0 i); [|lia]. destruct (Z.ltb_spec i (0 + c1)); [|lia].
        simpl. rewrite (frame_raw_getReadPtr _ _ _ _ Hr1). f_equal; lia.
    + rewrite frame_raw_setChannel_ne by lia. apply Hall; [lia|done].
  - exists g. split; [done|]. split; [done|]. intros ch i Hc Hi. by apply Hall.
Qed.

Lemma wf_node_sample nd fmt spf ch F i :
  wf_node nd -> format (nodeInfo nd) = fmt -> spf = samplesPerFrame fmt ->
  0 <= F -> 0 <= i < spf ->
  F * spf + i < numSamples (nodeInfo nd) ->
  0 <= F < numFrames (nodeInfo nd)
  /\ frameLength (nodeFrame nd F) = Z.min spf (numSamples (nodeInfo nd) - F * spf)
  /\ node_sample nd ch (F * spf + i) = frame_raw (nodeFrame nd F) ch i.
Proof.
  intros Hwf <- -> HF Hi Hlt.
  destruct (node_sample_frame nd ch F i Hwf) as (HFr & _ & Hs); try lia.
  destruct (wf_frame _ Hwf F HFr) as [_ Hlen]. auto.
Qed.

Lemma ceil_div_frames T spf :
  0 < spf -> 0 < T ->
  exists q r, T = q * spf + r /\ 0 < r <= spf /\ 0 <= q /\ (T + spf - 1) / spf = q + 1.
Proof.
  intros Hspf HT.
  exists ((T - 1) / spf), ((T - 1) mod spf + 1).
  pose proof (Z.div_mod (T - 1) spf ltac:(lia)) as Hdm.
  pose proof (Z.mod_pos_bound (T - 1) spf ltac:(lia)) as Hmod.
  pose proof (Z.div_pos (T - 1) spf ltac:(lia) ltac:(lia)) as Hdiv.
  split; [lia|]. split; [lia|]. split; [lia|].
  symmetry. apply Z.div_unique with ((T - 1) mod spf); lia.
Qed.

Section SpliceFrame.

Variables (fill : Z) (d : AudioSplice2Data) (n : Z).

Let A := as_node1 d.
Let B := as_node2 d.
Let fmt := format (nodeInfo A).
Let spf := samplesPerFrame fmt.
Let a := numSamples (nodeInfo A).
Let b := numSamples (nodeInfo B).

(** What the constructor establishes. *)
Hypothesis HwfA : wf_node A.
Hypothesis HwfB : wf_node B.
Hypothesis HfmtB : format (nodeInfo B) = fmt.
Hypothesis Hfmt : format (as_ai d) = fmt.
Hypothesis Htotal : numSamples (as_ai d) = a + b.
Hypothesis Hframes : numFrames (as_ai d) = (a + b + spf - 1) / spf.
Hypothesis Hsamples1 : as_numSamples1 d = a.
Hypothesis Hframes1 : as_numFrames1 d = numFrames (nodeInfo A).

(** Frame [n] is a frame of the spliced stream, and its remaining sample
    count fits an [int]. *)
Hypothesis Hn : 0 <= n /\ n * spf < a + b.
Hypothesis Hint : a + b - n * spf <= INT_MAX.

Let samplesOut := Z.min spf (a + b - n * spf).

(** Sample [k] of the concatenation of the two sources. *)
Let spliced (ch k : Z) : option Z :=
  if k <? a then node_sample A ch k else node_sample B ch (k - a).

Lemma splice_facts :
  0 < spf <= INT_MAX /\ 0 < bytesPerSample fmt /\ 0 <= numChannels fmt
  /\ 0 < a /\ 0 < b /\ 0 < samplesOut <= spf
  /\ std_min_int spf (numSamples (as_ai d) - n * spf) = samplesOut.
Proof.
  pose proof (wf_spf _ HwfA) as Hspf. fold fmt spf in Hspf.
  pose proof (wf_samples _ HwfA). pose proof (wf_samples _ HwfB).
  repeat split; try apply HwfA; try done; try (unfold samplesOut; lia).
  rewrite Htotal. apply std_min_int_spec; unfold in_int, INT_MIN, INT_MAX in *; lia.
Qed.

Lemma splice_sample_A ch F i :
  0 <= F -> 0 <= i < spf -> F * spf + i < a ->
  0 <= F < numFrames (nodeInfo A)
  /\ frameLength (nodeFrame A F) = Z.min spf (a - F * spf)
  /\ node_sample A ch (F * spf + i) = frame_raw (nodeFrame A F) ch i.
Proof. intros. by apply (wf_node_sample A fmt spf). Qed.

Lemma splice_sample_B ch F i :
  0 <= F -> 0 <= i < spf -> F * spf + i < b ->
  0 <= F < numFrames (nodeInfo B)
  /\ frameLength (nodeFrame B F) = Z.min spf (b - F * spf)
  /\ node_sample B ch (F * spf + i) = frame_raw (nodeFrame B F) ch i.
Proof. intros. by apply (wf_node_sample B fmt spf). Qed.

Lemma splice_shape_A F : 0 <= F -> frame_shape fmt (nodeFrame A F).
Proof. intros. by apply (wf_any _ HwfA). Qed.

Lemma splice_shape_B F : 0 <= F -> frame_shape fmt (nodeFrame B F).
Proof. intros. rewrite <- HfmtB. by apply (wf_any _ HwfB). Qed.

(** The passthrough callback, registered when the first clip ends on a frame
    boundary. *)
Lemma audioSplice2PassthroughGetframe_frame :
  a mod spf = 0 ->
  exists f,
    audioSplice2PassthroughGetframe n arAllFramesReady d = Some (Returned f)
    /\ frameLength f = samplesOut
    /\ forall ch i, 0 <= ch < numChannels fmt -> 0 <= i < samplesOut ->
         frame_sample f ch i = spliced ch (n * spf + i).
Proof.
  intros Hmod.
  destruct splice_facts as (Hspf & Hbps & Hch & Ha & Hb & Hout & _).
  destruct (ceil_div_frames a spf) as (q & r & Haq & Hr & Hq & Hnf1); [lia|lia|].
  assert (r = spf) as ->.
  { rewrite Haq in Hmod. rewrite Z.add_comm, Z.mod_add in Hmod by lia.
    destruct (decide (r = spf)); [done|]. rewrite Z.mod_small in Hmod by lia. lia. }
  pose proof (wf_frames _ HwfA) as HnfA. fold fmt spf a in HnfA.
  unfold audioSplice2PassthroughGetframe. rewrite Hframes1, HnfA, Hnf1.
  fold A B. unfold spliced.
  destruct (Z.ltb_spec n (q + 1)) as [Hin1|Hin2].
  - eexists. split; [done|].
    destruct (splice_sample_A 0 n 0) as (_ & Hlen & _); try nia.
    split; [unfold samplesOut; nia|].
    intros ch i Hc Hi. destruct (Z.ltb_spec (n * spf + i) a); [|nia].
    destruct (splice_sample_A ch n i) as (_ & _ & ->); try lia.
    apply frame_sample_raw. rewrite Hlen. nia.
  - eexists. split; [done|].
    destruct (splice_sample_B 0 (n - (q + 1)) 0) as (_ & Hlen & _); try nia.
    split; [unfold samplesOut; nia|].
    intros ch i Hc Hi. destruct (Z.ltb_spec (n * spf + i) a); [nia|].
    replace (n * spf + i - a) with ((n - (q + 1)) * spf + i) by nia.
    destruct (splice_sample_B ch (n - (q + 1)) i) as (_ & _ & ->);
      try (unfold samplesOut in *; nia).
    apply frame_sample_raw. rewrite Hlen. unfold samplesOut in *. nia.
Qed.

(** The general callback, registered when the first clip does not end on a
    frame boundary. *)
Lemma audioSplice2Getframe_frame :
  a mod spf <> 0 ->
  exists f,
    audioSplice2Getframe fill n arAllFramesReady d = Some (Returned f)
    /\ frameLength f = samplesOut
    /\ forall ch i, 0 <= ch < numChannels fmt -> 0 <= i < samplesOut ->
         frame_sample f ch i = spliced ch (n * spf + i).
Proof.
  intros Hmod.
  destruct splice_facts as (Hspf & Hbps & Hch & Ha & Hb & Hout & HsamplesOut).
  destruct (ceil_div_frames a spf) as (q & r & Haq & Hr & Hq & Hnf1); [lia|lia|].
  assert (r < spf) as Hrlt.
  { destruct (decide (r = spf)) as [->|]; [|lia].
    exfalso. apply Hmod. rewrite Haq. replace (q * spf + spf) with ((q + 1) * spf) by lia.
    apply Z.mod_mul. lia. }
  pose proof (wf_frames _ HwfA) as HnfA. fold fmt spf a in HnfA.
  assert (Hoff : to_int (spf - Z.rem (as_numSamples1 d - 1) spf - 1) = spf - r).
  { rewrite Hsamples1, Z.rem_mod_nonneg by lia.
    replace ((a - 1) mod spf) with (r - 1)
      by (apply Z.mod_unique with q; lia).
    replace (spf - (r - 1) - 1) with (spf - r) by lia.
    apply to_int_id. unfold in_int, INT_MIN, INT_MAX in *. lia. }
  unfold audioSplice2Getframe. rewrite Hfmt. fold spf.
  rewrite Hframes1, HnfA, Hnf1, Hoff.
  fold A B. rewrite HsamplesOut. unfold spliced.
  replace (q + 1 - 1) with q by lia.
  destruct (Z.ltb_spec n q) as [Hin1|Hnin1].
  - (* a frame of the first clip *)
    eexists. split; [done|].
    destruct (splice_sample_A 0 n 0) as (_ & Hlen & _); try nia.
    split; [unfold samplesOut; nia|].
    intros ch i Hc Hi. destruct (Z.ltb_spec (n * spf + i) a); [|nia].
    destruct (splice_sample_A ch n i) as (_ & _ & ->); try lia.
    apply frame_sample_raw. rewrite Hlen. nia.
  - destruct (Z.eqb_spec n q) as [->|Hne].
    + (* the seam *)
      destruct (splice_sample_A 0 q 0) as (_ & Hlen1 & _); try nia.
      unfold getFrameLength. rewrite Hlen1, std_min_spec.
      replace (Z.min samplesOut (Z.min spf (a - q * spf))) with r
        by (unfold samplesOut; nia).
      destruct (splice_channels_spec fmt
                  (newAudioFrame fill fmt (sampleRate (as_ai d)) samplesOut)
                  (nodeFrame A q) 0 (r * bytesPerSample fmt) (nodeFrame B 0)
                  ((samplesOut - r) * bytesPerSample fmt) 0 r (samplesOut - r))
        as (f & -> & Hflen & Hf);
        try done; try lia; try apply newAudioFrame_shape;
        try (apply splice_shape_A; lia); try (apply splice_shape_B; lia);
        try (unfold samplesOut; nia).
      simpl. exists f. split; [done|]. split; [done|].
      intros ch i Hc Hi.
      rewrite frame_sample_raw by (rewrite Hflen; simpl; lia).
      rewrite Hf by (try done; lia).
      destruct (Z.ltb_spec i r) as [Hfst|Hsnd].
      * destruct (Z.ltb_spec (q * spf + i) a); [|lia].
        destruct (splice_sample_A ch q i) as (_ & _ & ->); try lia. done.
      * destruct (Z.ltb_spec (q * spf + i) a); [lia|].
        replace (q * spf + i - a) with (0 * spf + (i - r)) by lia.
        destruct (splice_sample_B ch 0 (i - r)) as (_ & _ & ->);
          try (unfold samplesOut in *; lia). done.
    + (* frames of the second clip *)
      set (m := n - (q + 1)). set (o := spf - r).
      assert (Hm : 0 <= m) by (unfold m; lia).
      assert (Hnspf : n * spf = m * spf + q * spf + spf) by (unfold m; ring).
      assert (Hm1spf : (m + 1) * spf = m * spf + spf) by ring.
      assert (Hmspf : 0 <= m * spf) by nia.
      assert (Hrem : a + b - n * spf = b - m * spf - o) by (unfold o; lia).
      destruct (splice_sample_B 0 m o) as (_ & Hlen1 & _); try (unfold o; lia).
      unfold getFrameLength. rewrite Hlen1, std_min_spec.
      set (c1 := Z.min samplesOut (Z.min spf (b - m * spf) - o)).
      assert (Hc1 : 0 < c1 <= samplesOut /\ o + c1 <= spf)
        by (unfold c1, samplesOut, o in *; lia).
      assert (Hlast : samplesOut - c1 = 0 -> n = numFrames (as_ai d) - 1).
      { intros Hz. rewrite Hframes.
        assert ((a + b + spf - 1) / spf = n + 1) as ->; [|lia].
        symmetry. apply Z.div_unique with (a + b - n * spf - 1).
        - left. unfold c1, samplesOut, o in *. lia.
        - lia. }
      destruct (Z.ltb_spec 0 c1) as [_|]; [|lia].
      assert (Hassert : (0 <? samplesOut - c1)
                        || ((0 <=? samplesOut - c1) && (n =? numFrames (as_ai d) - 1))
                        = true).
      { destruct (Z.ltb_spec 0 (samplesOut - c1)); [done|]. simpl.
        destruct (Z.leb_spec 0 (samplesOut - c1)); [|lia]. simpl.
        apply Z.eqb_eq, Hlast. lia. }
      rewrite Hassert. simpl.
      destruct (splice_channels_spec fmt
                  (newAudioFrame fill fmt (sampleRate (as_ai d)) samplesOut)
                  (nodeFrame B m) (o * bytesPerSample fmt) (c1 * bytesPerSample fmt)
                  (nodeFrame B (m + 1)) ((samplesOut - c1) * bytesPerSample fmt)
                  o c1 (samplesOut - c1))
        as (f & Hfeq & Hflen & Hf);
        try done; try lia; try apply newAudioFrame_shape;
        try (apply splice_shape_B; lia); try (unfold o; lia).
      replace (n - (q + 1) + 1) with (m + 1) by (unfold m; lia).
      fold m. rewrite Hfeq. simpl. exists f. split; [done|]. split; [done|].
      intros ch i Hc Hi.
      rewrite frame_sample_raw by (rewrite Hflen; simpl; lia).
      rewrite Hf by (try done; lia).
      destruct (Z.ltb_spec (n * spf + i) a); [lia|].
      destruct (Z.ltb_spec i c1) as [Hfst|Hsnd].
      * replace (n * spf + i - a) with (m * spf + (o + i)) by (unfold o; lia).
        destruct (splice_sample_B ch m (o + i)) as (_ & _ & ->);
          try (unfold samplesOut in *; lia). done.
      * assert (c1 = r) as Hc1r by (unfold c1, samplesOut, o in *; lia).
        replace (n * spf + i - a) with ((m + 1) * spf + (i - c1)) by lia.
        destruct (splice_sample_B ch (m + 1) (i - c1)) as (_ & _ & ->);
          try (unfold samplesOut, o in *; lia). done.
Qed.

End SpliceFrame.

(** ** The spliced stream *)

Section SpliceStream.

Variable isSameAudioFormat : VSAudioInfo -> VSAudioInfo -> bool.

(** What the filter relies on: clips that pass the comparison have the same
    format. *)
Hypothesis isSameAudioFormat_format : forall ai1 ai2,
  isSameAudioFormat ai1 ai2 = true -> format ai1 = format ai2.

(** The splice of two clips holds the samples of the first clip followed by
    those of the second, on every channel, through whichever callback the
    constructor registers, when the result has at most [INT_MAX] samples. *)
Lemma audioSplice_stream fill A B :
  let spf := samplesPerFrame (format (nodeInfo A)) in
  let a := numSamples (nodeInfo A) in
  let b := numSamples (nodeInfo B) in
  wf_node A -> wf_node B ->
  isSameAudioFormat (nodeInfo A) (nodeInfo B) = true ->
  a + b <= INT_MAX ->
  exists cb d,
    audioSplice2Create isSameAudioFormat A B = SpliceFilter cb d
    /\ numSamples (as_ai d) = a + b
    /\ numFrames (as_ai d) = (a + b + spf - 1) / spf
    /\ (cb = splicePassthrough <-> a mod spf = 0)
    /\ forall ch, 0 <= ch < numChannels (format (nodeInfo A)) ->
         (forall i, 0 <= i < a ->
            stream_sample spf (fun n => spliceGetframe cb fill n arAllFramesReady d) ch i
            = node_sample A ch i)
         /\ (forall j, 0 <= j < b ->
               stream_sample spf (fun n => spliceGetframe cb fill n arAllFramesReady d)
                 ch (a + j)
               = node_sample B ch j).
Proof.
  intros spf a b HwfA HwfB Hsame Hint.
  pose proof (wf_spf _ HwfA) as Hspf. fold spf in Hspf.
  pose proof (wf_samples _ HwfA) as Ha. pose proof (wf_samples _ HwfB) as Hb.
  fold a in Ha. fold b in Hb.
  pose proof (isSameAudioFormat_format _ _ Hsame) as Hfmt.
  unfold INT_MAX in *.
  assert (Hceil : 0 <= (a + b + spf - 1) / spf <= a + b).
  { split; [apply Z.div_pos; lia|].
    apply Z.div_le_upper_bound; [lia|]. nia. }
  unfold audioSplice2Create. rewrite Hsame. simpl. fold a b spf.
  rewrite (to_int64_id (a + b)) by lia.
  rewrite (to_int64_id (a + b + spf - 1)) by lia.
  rewrite Z.quot_div_nonneg by lia.
  rewrite to_int_id by (unfold in_int, INT_MIN, INT_MAX; lia).
  destruct (Z.ltb_spec (a + b) a); [lia|]. destruct (Z.ltb_spec (a + b) b); [lia|].
  simpl. rewrite Z.rem_mod_nonneg by lia.
  set (cb := if negb (a mod spf =? 0) then spliceGeneral else splicePassthrough).
  set (d := {| as_ai := _ |}).
  exists cb, d. split; [done|]. split; [done|]. split; [done|]. split.
  { subst cb. destruct (Z.eqb_spec (a mod spf) 0); simpl; split; done. }
  assert (Hframe : forall n, 0 <= n -> n * spf < a + b ->
            exists f,
              spliceGetframe cb fill n arAllFramesReady d = Some (Returned f)
              /\ frameLength f = Z.min spf (a + b - n * spf)
              /\ forall ch i, 0 <= ch < numChannels (format (nodeInfo A)) ->
                   0 <= i < Z.min spf (a + b - n * spf) ->
                   frame_sample f ch i
                   = if n * spf + i <? a then node_sample A ch (n * spf + i)
                     else node_sample B ch (n * spf + i - a)).
  { intros n Hn0 Hn. subst cb.
    destruct (Z.eqb_spec (a mod spf) 0) as [Hz|Hnz]; simpl.
    - apply (audioSplice2PassthroughGetframe_frame d n); simpl; try done;
        unfold INT_MAX; fold a b spf; nia.
    - apply (audioSplice2Getframe_frame fill d n); simpl; try done;
        unfold INT_MAX; fold a b spf; nia. }
  assert (Hstream : forall ch k, 0 <= ch < numChannels (format (nodeInfo A)) ->
            0 <= k < a + b ->
            stream_sample spf (fun n => spliceGetframe cb fill n arAllFramesReady d) ch k
            = if k <? a then node_sample A ch k else node_sample B ch (k - a)).
  { intros ch k Hc Hk.
    pose proof (Z.div_mod k spf ltac:(lia)) as Hdm.
    pose proof (Z.mod_pos_bound k spf ltac:(lia)) as Hmod.
    pose proof (Z.div_pos k spf ltac:(lia) ltac:(lia)) as Hdiv.
    destruct (Hframe (k / spf)) as (f & Hf & Hlen & Hsamples); [lia|nia|].
    unfold stream_sample. rewrite Hf. simpl.
    rewrite Hsamples by (try done; lia).
    by replace (k / spf * spf + k mod spf) with k by lia. }
  intros ch Hc. split.
  - intros i Hi. rewrite Hstream by (try done; lia).
    by destruct (Z.ltb_spec i a); [|lia].
  - intros j Hj. rewrite Hstream by (try done; lia).
    destruct (Z.ltb_spec (a + j) a); [lia|]. f_equal. lia.
Qed.

End SpliceStream.

(** ** Sample-accurate splicing *)

(** For a result of at most [INT_MAX] samples, the splice of [A] and [B] has
    [a + b] samples in [ceil ((a + b) / samplesPerFrame)] frames, and holds
    the samples of [A] followed by those of [B] on every channel, through the
    passthrough callback (registered exactly when [a] is a multiple of the
    frame size) as through the general one. *)
Theorem audioSplice_samples_in_range
    (isSameAudioFormat : VSAudioInfo -> VSAudioInfo -> bool) (fill : Z) (A B : VSNodeRef) :
  (forall ai1 ai2, isSameAudioFormat ai1 ai2 = true -> format ai1 = format ai2) ->
  wf_node A -> wf_node B ->
  isSameAudioFormat (nodeInfo A) (nodeInfo B) = true ->
  numSamples (nodeInfo A) + numSamples (nodeInfo B) <= INT_MAX ->
  exists cb d,
    audioSplice2Create isSameAudioFormat A B = SpliceFilter cb d
    /\ numSamples (as_ai d) = numSamples (nodeInfo A) + numSamples (nodeInfo B)
    /\ numFrames (as_ai d)
       = (numSamples (nodeInfo A) + numSamples (nodeInfo B)
          + samplesPerFrame (format (nodeInfo A)) - 1)
         / samplesPerFrame (format (nodeInfo A))
    /\ (cb = splicePassthrough
        <-> numSamples (nodeInfo A) mod samplesPerFrame (format (nodeInfo A)) = 0)
    /\ forall ch, 0 <= ch < numChannels (format (nodeInfo A)) ->
         (forall i, 0 <= i < numSamples (nodeInfo A) ->
            stream_sample (samplesPerFrame (format (nodeInfo A)))
              (fun n => spliceGetframe cb fill n arAllFramesReady d) ch i
            = node_sample A ch i)
         /\ (forall j, 0 <= j < numSamples (nodeInfo B) ->
               stream_sample (samplesPerFrame (format (nodeInfo A)))
                 (fun n => spliceGetframe cb fill n arAllFramesReady d) ch
                 (numSamples (nodeInfo A) + j)
               = node_sample B ch j).
Proof. intros Hsame HwfA HwfB Heq Hint. by apply audioSplice_stream. Qed.

Lemma audioSplice_samples_in_range_witness :
  exists cb d,
    audioSplice2Create sameAudioFormat (rampNode 1 44100 7000) (rampNode 2 44100 4000)
      = SpliceFilter cb d
    /\ numSamples (as_ai d) = 7000 + 4000
    /\ numFrames (as_ai d) = (7000 + 4000 + 3000 - 1) / 3000
    /\ (cb = splicePassthrough <-> 7000 mod 3000 = 0)
    /\ forall ch, 0 <= ch < 2 ->
         (forall i, 0 <= i < 7000 ->
            stream_sample 3000 (fun n => spliceGetframe cb 0 n arAllFramesReady d) ch i
            = node_sample (rampNode 1 44100 7000) ch i)
         /\ (forall j, 0 <= j < 4000 ->
               stream_sample 3000 (fun n => spliceGetframe cb 0 n arAllFramesReady d) ch
                 (7000 + j)
               = node_sample (rampNode 2 44100 4000) ch j).
Proof.
  apply (audioSplice_samples_in_range sameAudioFormat 0
           (rampNode 1 44100 7000) (rampNode 2 44100 4000)).
  - apply sameAudioFormat_format.
  - apply rampNode_wf. unfold INT_MAX. lia.
  - apply rampNode_wf. unfold INT_MAX. lia.
  - reflexivity.
  - simpl. unfold INT_MAX. lia.
Defined.

(** ** Construction *)

Section SpliceCreate.

Variable isSameAudioFormat : VSAudioInfo -> VSAudioInfo -> bool.

(** The constructor of a splice of two clips fails in two cases only: the
    clips do not pass the format comparison, or the sum of their lengths is
    beyond the 64-bit range.  Otherwise the node is over these two clips and
    has the sum of their lengths. *)
Theorem audioSplice2Create_cases (clip1 clip2 : VSNodeRef) :
  0 <= numSamples (nodeInfo clip1) <= 9223372036854775807 ->
  0 <= numSamples (nodeInfo clip2) <= 9223372036854775807 ->
  match audioSplice2Create isSameAudioFormat clip1 clip2 with
  | SpliceError _ =>
      isSameAudioFormat (nodeInfo clip1) (nodeInfo clip2) = false
      \/ 9223372036854775807 < numSamples (nodeInfo clip1) + numSamples (nodeInfo clip2)
  | SpliceFilter cb d =>
      isSameAudioFormat (nodeInfo clip1) (nodeInfo clip2) = true
      /\ numSamples (as_ai d) = numSamples (nodeInfo clip1) + numSamples (nodeInfo clip2)
      /\ numSamples (as_ai d) <= 9223372036854775807
      /\ as_node1 d = clip1 /\ as_node2 d = clip2
  end.
Proof.
  intros Ha Hb. unfold audioSplice2Create.
  destruct (isSameAudioFormat _ _); simpl; [|by left].
  set (a := numSamples (nodeInfo clip1)) in *.
  set (b := numSamples (nodeInfo clip2)) in *.
  destruct (Z_le_gt_dec (a + b) 9223372036854775807) as [Hle|Hgt].
  - rewrite (to_int64_id (a + b)) by lia.
    destruct (Z.ltb_spec (a + b) a); [lia|].
    destruct (Z.ltb_spec (a + b) b); [lia|]. simpl. repeat split; lia.
  - assert (Hw : to_int64 (a + b) = a + b - 18446744073709551616).
    { unfold to_int64.
      rewrite <- (Z.mod_add _ (-1) 18446744073709551616) by lia.
      rewrite Z.mod_small by lia. lia. }
    rewrite Hw.
    destruct (Z.ltb_spec (a + b - 18446744073709551616) a); [|lia]. simpl. right. lia.
Qed.

End SpliceCreate.

Lemma audioSplice2Create_cases_witness :
  match audioSplice2Create sameAudioFormat (rampNode 1 44100 7000) (rampNode 2 48000 4000) with
  | SpliceError _ =>
      sameAudioFormat (nodeInfo (rampNode 1 44100 7000)) (nodeInfo (rampNode 2 48000 4000))
        = false
      \/ 9223372036854775807
         < numSamples (nodeInfo (rampNode 1 44100 7000))
           + numSamples (nodeInfo (rampNode 2 48000 4000))
  | SpliceFilter cb d =>
      sameAudioFormat (nodeInfo (rampNode 1 44100 7000)) (nodeInfo (rampNode 2 48000 4000))
        = true
      /\ numSamples (as_ai d)
         = numSamples (nodeInfo (rampNode 1 44100 7000))
           + numSamples (nodeInfo (rampNode 2 48000 4000))
      /\ numSamples (as_ai d) <= 9223372036854775807
      /\ as_node1 d = rampNode 1 44100 7000 /\ as_node2 d = rampNode 2 48000 4000
  end.
Proof.
  apply (audioSplice2Create_cases sameAudioFormat (rampNode 1 44100 7000)
           (rampNode 2 48000 4000)); simpl; lia.
Defined.

(** ** More than two clips *)

(** The frames a splice hands out have the buffers of their format. *)
Lemma splice_channels_shape fmt f f1 f1offset f1copy f2 f2copy f' :
  frame_shape fmt f ->
  splice_channels fmt f f1 f1offset f1copy f2 f2copy = Some f' ->
  frame_shape fmt f'.
Proof.
  intros Hshape Hsplice. revert Hsplice Hshape. unfold splice_channels.
  apply for_loop_preserved. intros ch g g' Hbody Hg.
  destruct (getReadPtr g ch) as [w|] eqn:Hw; simpl in Hbody; [|done].
  destruct (getReadPtr f1 ch) as [r1|]; simpl in Hbody; [|done].
  destruct (memcpy _ w 0 r1 _ _) as [w1|] eqn:Hw1; simpl in Hbody; [|done].
  destruct (getReadPtr f2 ch) as [r2|]; simpl in Hbody; [|done].
  destruct (memcpy _ w1 _ r2 _ _) as [w2|] eqn:Hw2; simpl in Hbody; [|done].
  injection Hbody as <-. apply setChannel_shape; [done|].
  rewrite (memcpy_length _ _ _ _ _ _ _ Hw2), (memcpy_length _ _ _ _ _ _ _ Hw1).
  by eapply getReadPtr_length.
Qed.

Lemma spliceGetframe_shape cb fill n d f :
  wf_node (as_node1 d) -> wf_node (as_node2 d) ->
  format (nodeInfo (as_node2 d)) = format (nodeInfo (as_node1 d)) ->
  format (as_ai d) = format (nodeInfo (as_node1 d)) ->
  0 <= n -> 0 <= as_numFrames1 d ->
  spliceGetframe cb fill n arAllFramesReady d = Some (Returned f) ->
  frame_shape (format (as_ai d)) f.
Proof.
  intros HwfA HwfB HfmtB Hfmt Hn Hnf1.
  assert (HA : forall F, 0 <= F -> frame_shape (format (as_ai d)) (nodeFrame (as_node1 d) F)).
  { intros F HF. rewrite Hfmt. by apply wf_any. }
  assert (HB : forall F, 0 <= F -> frame_shape (format (as_ai d)) (nodeFrame (as_node2 d) F)).
  { intros F HF. rewrite Hfmt, <- HfmtB. by apply wf_any. }
  destruct cb; simpl.
  - unfold audioSplice2Getframe.
    destruct (Z.ltb_spec n (as_numFrames1 d - 1)).
    { intros [= <-]. by apply HA. }
    destruct (Z.eqb_spec n (as_numFrames1 d - 1)).
    + destruct (splice_channels _ _ _ _ _ _ _) as [f'|] eqn:Hs; simpl; [|done].
      intros [= <-]. eapply splice_channels_shape; [|done]. apply newAudioFrame_shape.
    + case_match; [|done].
      destruct (splice_channels _ _ _ _ _ _ _) as [f'|] eqn:Hs; simpl; [|done].
      intros [= <-]. eapply splice_channels_shape; [|done]. apply newAudioFrame_shape.
  - unfold audioSplice2PassthroughGetframe.
    destruct (Z.ltb_spec n (as_numFrames1 d)); intros [= <-]; [by apply HA|].
    apply HB. lia.
Qed.

Section WrapperProps.

Variable isSameAudioFormat : VSAudioInfo -> VSAudioInfo -> bool.
Variable createAudioFilter : VSAudioInfo -> SpliceGetframe -> VSNodeRef.

(** What the wrapper relies on.  Clips that pass the comparison have the same
    format, and the comparison looks at the format and the sample rate of a
    clip only. *)
Hypothesis isSameAudioFormat_format : forall ai1 ai2,
  isSameAudioFormat ai1 ai2 = true -> format ai1 = format ai2.
Hypothesis isSameAudioFormat_left : forall ai1 ai1' ai2,
  format ai1 = format ai1' -> sampleRate ai1 = sampleRate ai1' ->
  isSameAudioFormat ai1 ai2 = isSameAudioFormat ai1' ai2.

(** The node of a filter instance has the descriptor handed to
    [createAudioFilter], and answers a request for frame [n] (a request
    beyond the last frame is one for the last frame) with the frame the
    callback returns. *)
Hypothesis createAudioFilter_info : forall ai getframe,
  nodeInfo (createAudioFilter ai getframe) = ai.
Hypothesis createAudioFilter_frame : forall ai getframe n,
  0 <= n ->
  exists fill, forall f,
    returned (getframe fill (Z.min n (numFrames ai - 1)) arAllFramesReady) = Some f ->
    nodeFrame (createAudioFilter ai getframe) n = f.

(** The node of the splice of two clips is a well-formed stream again: the
    samples of the first clip followed by those of the second. *)
Lemma audioSplice_node A B :
  let a := numSamples (nodeInfo A) in
  let b := numSamples (nodeInfo B) in
  wf_node A -> wf_node B ->
  isSameAudioFormat (nodeInfo A) (nodeInfo B) = true ->
  a + b <= INT_MAX ->
  exists cb d,
    audioSplice2Create isSameAudioFormat A B = SpliceFilter cb d
    /\ let node :=
         createAudioFilter (as_ai d) (fun fill n r => spliceGetframe cb fill n r d) in
       wf_node node
       /\ format (nodeInfo node) = format (nodeInfo A)
       /\ sampleRate (nodeInfo node) = sampleRate (nodeInfo A)
       /\ numSamples (nodeInfo node) = a + b
       /\ forall ch k, 0 <= ch < numChannels (format (nodeInfo A)) -> 0 <= k < a + b ->
            node_sample node ch k
            = if k <? a then node_sample A ch k else node_sample B ch (k - a).
Proof.
  intros a b HwfA HwfB Hsame Hint.
  set (spf := samplesPerFrame (format (nodeInfo A))).
  pose proof (wf_spf _ HwfA) as Hspf. fold spf in Hspf.
  pose proof (wf_samples _ HwfA) as Ha. pose proof (wf_samples _ HwfB) as Hb.
  fold a in Ha. fold b in Hb.
  pose proof (isSameAudioFormat_format _ _ Hsame) as Hfmt.
  unfold INT_MAX in *.
  assert (Hceil : 1 <= (a + b + spf - 1) / spf <= a + b).
  { split; [apply Z.div_le_lower_bound; lia|].
    apply Z.div_le_upper_bound; [lia|]. nia. }
  unfold audioSplice2Create. rewrite Hsame. simpl. fold a b spf.
  rewrite (to_int64_id (a + b)) by lia.
  rewrite (to_int64_id (a + b + spf - 1)) by lia.
  rewrite Z.quot_div_nonneg by lia.
  rewrite to_int_id by (unfold in_int, INT_MIN, INT_MAX; lia).
  destruct (Z.ltb_spec (a + b) a); [lia|]. destruct (Z.ltb_spec (a + b) b); [lia|].
  simpl. rewrite Z.rem_mod_nonneg by lia.
  set (cb := if negb (a mod spf =? 0) then spliceGeneral else splicePassthrough).
  set (d := {| as_ai := _ |}).
  exists cb, d. split; [done|].
  set (nf := (a + b + spf - 1) / spf) in *.
  assert (Hin : forall n, 0 <= n < nf -> n * spf < a + b).
  { intros n Hn. destruct (Z_lt_ge_dec (n * spf) (a + b)); [done|].
    assert (nf < n + 1); [|lia]. apply Z.div_lt_upper_bound; [lia|]. nia. }
  assert (Hframe : forall fill n, 0 <= n < nf ->
            exists f,
              spliceGetframe cb fill n arAllFramesReady d = Some (Returned f)
              /\ frame_shape (format (nodeInfo A)) f
              /\ frameLength f = Z.min spf (a + b - n * spf)
              /\ forall ch i, 0 <= ch < numChannels (format (nodeInfo A)) ->
                   0 <= i < Z.min spf (a + b - n * spf) ->
                   frame_sample f ch i
                   = if n * spf + i <? a then node_sample A ch (n * spf + i)
                     else node_sample B ch (n * spf + i - a)).
  { intros fill n Hn. pose proof (Hin n Hn) as Hlt.
    assert (exists f,
              spliceGetframe cb fill n arAllFramesReady d = Some (Returned f)
              /\ frameLength f = Z.min spf (a + b - n * spf)
              /\ forall ch i, 0 <= ch < numChannels (format (nodeInfo A)) ->
                   0 <= i < Z.min spf (a + b - n * spf) ->
                   frame_sample f ch i
                   = if n * spf + i <? a then node_sample A ch (n * spf + i)
                     else node_sample B ch (n * spf + i - a)) as (f & Hf & Hlen & Hs).
    { subst cb.
      destruct (Z.eqb_spec (a mod spf) 0) as [Hz|Hnz]; simpl.
      - apply (audioSplice2PassthroughGetframe_frame d n); simpl; try done;
          unfold INT_MAX; fold a b spf; nia.
      - apply (audioSplice2Getframe_frame fill d n); simpl; try done;
          unfold INT_MAX; fold a b spf; nia. }
    exists f. split; [done|]. split; [|done].
    apply (spliceGetframe_shape cb fill n d f); simpl; try done; try lia.
    rewrite (wf_frames _ HwfA). apply Z.div_pos; lia. }
  set (node := createAudioFilter (as_ai d) _).
  assert (Hinfo : nodeInfo node = as_ai d) by apply createAudioFilter_info.
  assert (Hnode : forall n, 0 <= n ->
            exists fill f,
              spliceGetframe cb fill (Z.min n (nf - 1)) arAllFramesReady d = Some (Returned f)
              /\ nodeFrame node n = f).
  { intros n Hn.
    destruct (createAudioFilter_frame (as_ai d)
                (fun fill n r => spliceGetframe cb fill n r d) n Hn) as (fill & Hfill).
    destruct (Hframe fill (Z.min n (nf - 1)) ltac:(lia)) as (f & Hf & _).
    exists fill, f. split; [done|]. apply Hfill. simpl. fold nf. by rewrite Hf. }
  cbn zeta. split; [|split; [by rewrite Hinfo|split; [by rewrite Hinfo|split;
    [by rewrite Hinfo|]]]].
  - split; rewrite ?Hinfo; simpl; fold spf; try (unfold INT_MAX; lia).
    + apply HwfA.
    + apply HwfA.
    + intros n Hn. destruct (Hnode n Hn) as (fill & f & Hf & ->).
      destruct (Hframe fill (Z.min n (nf - 1)) ltac:(lia)) as (f' & Hf' & Hshape & _).
      rewrite Hf in Hf'. by injection Hf' as <-.
    + intros n Hn. fold nf in Hn. destruct (Hnode n ltac:(lia)) as (fill & f & Hf & ->).
      rewrite Z.min_l in Hf by lia.
      destruct (Hframe fill n Hn) as (f' & Hf' & Hshape & Hlen & _).
      rewrite Hf in Hf'. by injection Hf' as <-.
  - intros ch k Hc Hk.
    pose proof (Z.div_mod k spf ltac:(lia)) as Hdm.
    pose proof (Z.mod_pos_bound k spf ltac:(lia)) as Hmod.
    pose proof (Z.div_pos k spf ltac:(lia) ltac:(lia)) as Hdiv.
    assert (Hkf : 0 <= k / spf < nf).
    { split; [done|]. assert (k / spf + 1 <= nf); [|lia].
      apply Z.div_le_lower_bound; [lia|]. nia. }
    unfold node_sample. rewrite Hinfo. simpl. fold spf.
    destruct (Hnode (k / spf) ltac:(lia)) as (fill & f & Hf & ->).
    rewrite Z.min_l in Hf by lia.
    destruct (Hframe fill (k / spf) Hkf) as (f' & Hf' & _ & Hlen & Hs).
    rewrite Hf in Hf'. injection Hf' as <-.
    rewrite Hs by (try done; lia).
    by replace (k / spf * spf + k mod spf) with k by lia.
Qed.

Lemma totalSamples_pos clips :
  Forall wf_node clips -> 0 <= totalSamples clips.
Proof.
  induction 1 as [|c clips Hc _ IH]; simpl; [done|].
  pose proof (wf_samples _ Hc). lia.
Qed.

Lemma audioSplice2Loop_concat clips : forall tmp,
  wf_node tmp -> Forall wf_node clips ->
  Forall (fun c => isSameAudioFormat (nodeInfo tmp) (nodeInfo c) = true) clips ->
  numSamples (nodeInfo tmp) + totalSamples clips <= INT_MAX ->
  exists node,
    audioSplice2Loop isSameAudioFormat createAudioFilter tmp clips = WrapperClip node
    /\ wf_node node
    /\ format (nodeInfo node) = format (nodeInfo tmp)
    /\ sampleRate (nodeInfo node) = sampleRate (nodeInfo tmp)
    /\ numSamples (nodeInfo node) = numSamples (nodeInfo tmp) + totalSamples clips
    /\ (forall ch k, 0 <= ch < numChannels (format (nodeInfo tmp)) ->
          0 <= k < numSamples (nodeInfo tmp) ->
          node_sample node ch k = node_sample tmp ch k)
    /\ (forall (j : nat) c ch k, clips !! j = Some c ->
          0 <= ch < numChannels (format (nodeInfo tmp)) ->
          0 <= k < numSamples (nodeInfo c) ->
          node_sample node ch (numSamples (nodeInfo tmp) + totalSamples (take j clips) + k)
          = node_sample c ch k).
Proof.
  induction clips as [|c clips IH]; intros tmp Hwf Hwfs Hsame Hint; simpl in *.
  - exists tmp. split; [done|]. split; [done|]. split; [done|]. split; [done|].
    split; [lia|]. split; [done|]. intros j. by rewrite lookup_nil.
  - apply Forall_cons in Hwfs as [Hc Hwfs]. apply Forall_cons in Hsame as [Hsc Hsame].
    pose proof (totalSamples_pos _ Hwfs) as Htot.
    pose proof (wf_samples _ Hc) as Hb. pose proof (wf_samples _ Hwf) as Ha.
    destruct (audioSplice_node tmp c Hwf Hc Hsc ltac:(lia))
      as (cb & d & -> & Hwf1 & Hfmt1 & Hrate1 & Hn1 & Hs1).
    cbn zeta in *.
    set (node1 := createAudioFilter (as_ai d) _) in *.
    destruct (IH node1 Hwf1 Hwfs) as (node & -> & Hwfn & Hfmt & Hrate & Hn & HsA & HsB).
    { eapply Forall_impl; [exact Hsame|]. intros c' Hc'. simpl in Hc'.
      by rewrite (isSameAudioFormat_left _ (nodeInfo tmp)). }
    { lia. }
    exists node. split; [done|]. split; [done|]. split; [congruence|].
    split; [congruence|]. split; [lia|]. rewrite Hfmt1 in HsA, HsB. split.
    + intros ch k Hch Hk. rewrite HsA by (try done; lia). rewrite Hs1 by (try done; lia).
      by destruct (Z.ltb_spec k (numSamples (nodeInfo tmp))); [|lia].
    + intros [|j] c' ch k Hj Hch Hk; simpl in *.
      * injection Hj as ->. rewrite HsA by (try done; lia).
        rewrite Hs1 by (try done; lia).
        destruct (Z.ltb_spec (numSamples (nodeInfo tmp) + 0 + k) (numSamples (nodeInfo tmp)));
          [lia|]. f_equal. lia.
      * rewrite <- (HsB j c' ch k Hj Hch Hk). f_equal. lia.
Qed.

Lemma audioSplice2Loop_app pre post : forall tmp,
  audioSplice2Loop isSameAudioFormat createAudioFilter tmp (pre ++ post)
  = match audioSplice2Loop isSameAudioFormat createAudioFilter tmp pre with
    | WrapperClip node => audioSplice2Loop isSameAudioFormat createAudioFilter node post
    | WrapperError msg => WrapperError msg
    end.
Proof.
  induction pre as [|c pre IH]; intros tmp; simpl; [done|].
  destruct (audioSplice2Create _ _ _); [done|]. apply IH.
Qed.

(** AudioSplice of any number of clips: when all clips are well-formed
    streams that pass the format comparison with the first one, and the
    result has at most [INT_MAX] samples, the node that comes out has the
    format and the sample rate of the first clip and the sum of all lengths,
    and it holds the samples of the clips one after the other: sample [k] of
    clip [j] is found at the total length of the clips before it plus [k], on
    every channel.  A single clip comes out as it is. *)
Theorem audioSplice2Wrapper_concatenates (c0 : VSNodeRef) (clips : list VSNodeRef) :
  Forall wf_node (c0 :: clips) ->
  Forall (fun c => isSameAudioFormat (nodeInfo c0) (nodeInfo c) = true) clips ->
  totalSamples (c0 :: clips) <= INT_MAX ->
  exists node,
    audioSplice2Wrapper isSameAudioFormat createAudioFilter (c0 :: clips)
      = Some (WrapperClip node)
    /\ (clips = [] -> node = c0)
    /\ format (nodeInfo node) = format (nodeInfo c0)
    /\ sampleRate (nodeInfo node) = sampleRate (nodeInfo c0)
    /\ numSamples (nodeInfo node) = totalSamples (c0 :: clips)
    /\ forall (j : nat) c ch k, (c0 :: clips) !! j = Some c ->
         0 <= ch < numChannels (format (nodeInfo c0)) ->
         0 <= k < numSamples (nodeInfo c) ->
         node_sample node ch (totalSamples (take j (c0 :: clips)) + k) = node_sample c ch k.
Proof.
  intros Hwfs Hsame Hint. apply Forall_cons in Hwfs as [Hwf Hwfs]. simpl in Hint.
  destruct (audioSplice2Loop_concat clips c0 Hwf Hwfs Hsame Hint)
    as (node & Hloop & _ & Hfmt & Hrate & Hn & HsA & HsB).
  exists node. simpl. rewrite Hloop. split; [done|]. split.
  { intros ->. simpl in Hloop. by injection Hloop as <-. }
  split; [done|]. split; [done|]. split; [done|].
  intros [|j] c ch k Hj Hch Hk; simpl in *.
  - injection Hj as <-. by apply HsA.
  - by apply HsB.
Qed.

(** The first clip that does not pass the format comparison with the first
    one ends the construction with the format error, whatever clips follow
    it. *)
Theorem audioSplice2Wrapper_format_mismatch (c0 : VSNodeRef) (pre : list VSNodeRef)
    (c : VSNodeRef) (post : list VSNodeRef) :
  Forall wf_node (c0 :: pre) ->
  Forall (fun c => isSameAudioFormat (nodeInfo c0) (nodeInfo c) = true) pre ->
  totalSamples (c0 :: pre) <= INT_MAX ->
  isSameAudioFormat (nodeInfo c0) (nodeInfo c) = false ->
  audioSplice2Wrapper isSameAudioFormat createAudioFilter (c0 :: pre ++ c :: post)
  = Some (WrapperError "AudioSplice: format mismatch").
Proof.
  intros Hwfs Hsame Hint Hdiff. apply Forall_cons in Hwfs as [Hwf Hwfs]. simpl in Hint.
  destruct (audioSplice2Loop_concat pre c0 Hwf Hwfs Hsame Hint)
    as (node & Hloop & _ & Hfmt & Hrate & _).
  simpl. rewrite audioSplice2Loop_app, Hloop. simpl.
  unfold audioSplice2Create.
  by rewrite (isSameAudioFormat_left _ (nodeInfo c0)), Hdiff.
Qed.

End WrapperProps.

Lemma sameAudioFormat_left ai1 ai1' ai2 :
  format ai1 = format ai1' -> sampleRate ai1 = sampleRate ai1' ->
  sameAudioFormat ai1 ai2 = sameAudioFormat ai1' ai2.
Proof. unfold sameAudioFormat. by intros -> ->. Qed.

Lemma scenarioFilter_frame ai getframe n :
  0 <= n ->
  exists fill, forall f,
    returned (getframe fill (Z.min n (numFrames ai - 1)) arAllFramesReady) = Some f ->
    nodeFrame (scenarioFilter ai getframe) n = f.
Proof. intros _. exists 0. intros f Hf. simpl. by rewrite Hf. Qed.

Lemma spliceClips_wf : Forall wf_node (rampNode 1 44100 7000 :: spliceClips).
Proof. repeat constructor; apply rampNode_wf; unfold INT_MAX; lia. Qed.

Lemma audioSplice2Wrapper_concatenates_witness :
  exists node,
    audioSplice2Wrapper sameAudioFormat scenarioFilter (rampNode 1 44100 7000 :: spliceClips)
      = Some (WrapperClip node)
    /\ (spliceClips = [] -> node = rampNode 1 44100 7000)
    /\ format (nodeInfo node) = format (nodeInfo (rampNode 1 44100 7000))
    /\ sampleRate (nodeInfo node) = sampleRate (nodeInfo (rampNode 1 44100 7000))
    /\ numSamples (nodeInfo node) = totalSamples (rampNode 1 44100 7000 :: spliceClips)
    /\ forall (j : nat) c ch k, (rampNode 1 44100 7000 :: spliceClips) !! j = Some c ->
         0 <= ch < numChannels (format (nodeInfo (rampNode 1 44100 7000))) ->
         0 <= k < numSamples (nodeInfo c) ->
         node_sample node ch (totalSamples (take j (rampNode 1 44100 7000 :: spliceClips)) + k)
         = node_sample c ch k.
Proof.
  apply (audioSplice2Wrapper_concatenates sameAudioFormat scenarioFilter
           sameAudioFormat_format sameAudioFormat_left (fun _ _ => eq_refl)
           scenarioFilter_frame (rampNode 1 44100 7000) spliceClips).
  - apply spliceClips_wf.
  - by repeat constructor.
  - simpl. unfold INT_MAX. lia.
Defined.

Lemma audioSplice2Wrapper_format_mismatch_witness :
  audioSplice2Wrapper sameAudioFormat scenarioFilter
    (rampNode 1 44100 7000 :: [rampNode 2 44100 4000] ++ rampNode 3 48000 500 :: [])
  = Some (WrapperError "AudioSplice: format mismatch").
Proof.
  apply (audioSplice2Wrapper_format_mismatch sameAudioFormat scenarioFilter
           sameAudioFormat_format sameAudioFormat_left (fun _ _ => eq_refl)
           scenarioFilter_frame (rampNode 1 44100 7000) [rampNode 2 44100 4000]
           (rampNode 3 48000 500) []).
  - repeat constructor; apply rampNode_wf; unfold INT_MAX; lia.
  - by repeat constructor.
  - simpl. unfold INT_MAX. lia.
  - reflexivity.
Defined.

(** ** A long clip *)

(** C4, at a clip of 1 sample spliced with a clip of 2^32 + 1 samples: the
    result has 2^32 + 2 samples, but [std::min<int>] narrows that count to 2,
    so the seam frame 0 comes out 2 samples long and sample 2 of the result is
    missing, where the second clip has its sample 1. *)
Theorem audioSplice_long_clip_short_frame :
  audioSplice2Create sameAudioFormat (rampNode 1 44100 1) (rampNode 2 44100 4294967297)
    = SpliceFilter spliceGeneral spliceLong
  /\ numSamples (as_ai spliceLong) = 1 + 4294967297
  /\ frameLength <$> returned (spliceGetframe spliceGeneral 0 0 arAllFramesReady spliceLong)
     = Some 2
  /\ stream_sample 3000
       (fun n => spliceGetframe spliceGeneral 0 n arAllFramesReady spliceLong) 0 (1 + 1)
     = None
  /\ node_sample (rampNode 2 44100 4294967297) 0 1 = Some 1.
Proof. split; [reflexivity|]. vm_compute. repeat split. Qed.

(** * AudioMix *)

(** C5, at the identity mix of a 32-bit integer mono clip whose sample is
    16777217 (2^24 + 1): the accumulator is 16777217.0, below the clamp of
    2^31 - 1, but the sample written is 16777216.  The clamp is
    [std::min<float>], which converts the accumulator to single precision
    before the cast. *)
Theorem audioMix_int32_rounds_to_float :
  forall float_of_bits bits_of_float,
    (f ← returned (audioMixGetFrame float_of_bits bits_of_float mixInt32 0 0
                     arAllFramesReady (mixIdentity 16777217));
     frame_sample f 0 0) = Some 16777216
    /\ mixAccumulate float_of_bits mixInt32 [[16777217]] (am_sourceNodes (mixIdentity 16777217))
         0 0 (S754_zero false) = Some (double_of_Z 16777217)
    /\ double_to_int 32 (double_of_Z 16777217) = Some 16777217
    /\ float_of_Z (Z.shiftl 1 (32 - 1) - 1) = float_of_Z 2147483648.
Proof. intros. vm_compute. repeat split. Qed.

(** ** Construction *)

(** The first loop appends the entries of the clips in order. *)
Lemma audioMixBind_channels node n : forall acc,
  for_loop 0 n (fun j sourceNodes => Some (sourceNodes ++ [mixEntry node j])) acc
  = Some (acc ++ (mixEntry node <$> seqZ 0 n)).
Proof.
  unfold for_loop. rewrite Z.sub_0_r. generalize (seqZ 0 n) as l.
  induction l as [|j l IH]; intros acc; simpl.
  - by rewrite app_nil_r.
  - rewrite IH. by rewrite <- app_assoc.
Qed.

Lemma audioMixBind_spec clips : audioMixBind clips = Some (mixEntries clips).
Proof.
  unfold audioMixBind.
  destruct (for_loop_inv
              (fun i acc => acc = mixEntries (take (Z.to_nat i) clips))
              0 (Z.of_nat (length clips))
              (fun i sourceNodes =>
                 let k := std_min (Z.of_nat (length clips) - 1) i in
                 node ← (if k <? 0 then None else clips !! Z.to_nat k);
                 for_loop 0 (numChannels (format (nodeInfo node)))
                   (fun j sourceNodes =>
                      Some (sourceNodes ++ [ {| am_node := node; am_numFrames := j;
                                                am_idx := 0; am_weights := [] |} ]))
                   sourceNodes) []) as (s & Hs & Hinv).
  - lia.
  - done.
  - intros i acc Hi ->. cbn zeta. rewrite std_min_spec, Z.min_r by lia.
    destruct (Z.ltb_spec i 0); [lia|].
    destruct (lookup_lt_is_Some_2 clips (Z.to_nat i)) as [node Hnode]; [lia|].
    rewrite Hnode. simpl.
    eexists. split; [apply (audioMixBind_channels node)|].
    replace (Z.to_nat (i + 1)) with (S (Z.to_nat i)) by lia.
    rewrite (take_S_r _ _ _ Hnode). unfold mixEntries.
    rewrite bind_app. simpl. by rewrite app_nil_r.
  - rewrite Hinv, Nat2Z.id, firstn_all in Hs. exact Hs.
Qed.

Lemma mixEntries_idx clips sn :
  sn ∈ mixEntries clips -> am_idx sn = 0 /\ am_weights sn = [].
Proof.
  unfold mixEntries. intros (node & Hsn & _)%list_elem_of_bind.
  by apply list_elem_of_fmap in Hsn as (j & -> & _).
Qed.

Lemma mixEntries_nodes clips :
  am_node <$> mixEntries clips
  = clips ≫= fun c => replicate (Z.to_nat (numChannels (format (nodeInfo c)))) c.
Proof.
  unfold mixEntries. induction clips as [|c clips IH]; [done|].
  rewrite !bind_cons, fmap_app, IH. f_equal.
  rewrite <- list_fmap_compose.
  rewrite (const_fmap _ _ c) by done. by rewrite length_seqZ.
Qed.

(** What the second loop has checked and filled in when it ends without an
    error. *)
Lemma audioMixCheck_spec matrix nout nsrc nodes : forall d_ai i d_ai' nodes',
  audioMixCheck matrix nout nsrc d_ai nodes i = Some (d_ai', nodes', None) ->
  format d_ai' = format d_ai /\ sampleRate d_ai' = sampleRate d_ai
  /\ numSamples d_ai' = numSamples d_ai
  /\ length nodes' = length nodes
  /\ forall (k : nat) sn', nodes' !! k = Some sn' ->
       exists sn weights,
         nodes !! k = Some sn
         /\ am_node sn' = am_node sn
         /\ am_numFrames sn' = numFrames (nodeInfo (am_node sn))
         /\ am_idx sn'
            = channelIndex (channelLayout (format (nodeInfo (am_node sn)))) (am_idx sn)
         /\ hasChannel (channelLayout (format (nodeInfo (am_node sn)))) (am_idx sn) = true
         /\ numSamples (nodeInfo (am_node sn)) = numSamples d_ai
         /\ sampleRate (nodeInfo (am_node sn)) = sampleRate d_ai
         /\ bitsPerSample (format (nodeInfo (am_node sn))) = bitsPerSample (format d_ai)
         /\ sampleType (format (nodeInfo (am_node sn))) = sampleType (format d_ai)
         /\ mapM (fun j => float_of_double <$>
                             propGetFloat matrix (j * nsrc + (i + Z.of_nat k)))
              (seqZ 0 nout) = Some weights
         /\ am_weights sn' = am_weights sn ++ weights.
Proof.
  induction nodes as [|sn nodes IH]; intros d_ai i d_ai' nodes'; simpl.
  - intros [= <- <-]. do 4 (split; [done|]). intros k sn'. by rewrite lookup_nil.
  - destruct (_ || _) eqn:Hidx; [done|].
    destruct (hasChannel _ _) eqn:Hhas; simpl; [|done].
    destruct (Z.eqb_spec (numSamples (nodeInfo (am_node sn))) (numSamples d_ai))
      as [Hn|]; simpl; [|done].
    destruct (Z.eqb_spec (sampleRate (nodeInfo (am_node sn))) (sampleRate d_ai))
      as [Hr|]; simpl; [|done].
    destruct (Z.eqb_spec (bitsPerSample (format (nodeInfo (am_node sn))))
                (bitsPerSample (format d_ai))) as [Hb|]; simpl; [|done].
    destruct (bool_decide_reflect
                (sampleType (format (nodeInfo (am_node sn))) = sampleType (format d_ai)))
      as [Ht|]; simpl; [|done].
    destruct (mapM _ _) as [weights|] eqn:Hw; simpl; [|done].
    destruct (audioMixCheck _ _ _ _ nodes (i + 1)) as [[[d1 rest] err]|] eqn:Hrest;
      simpl; [|done].
    intros [= <- <- ->].
    destruct (IH _ _ _ _ Hrest) as (Hf & Hsr & Hns & Hlen & Hk). simpl in *.
    rewrite std_max_spec in Hns.
    split; [done|]. split; [done|]. split; [lia|]. split; [by rewrite Hlen|].
    intros [|k] sn' Hsn'; simpl in *.
    + injection Hsn' as <-. exists sn, weights. simpl.
      rewrite Z.add_0_r. by repeat split.
    + destruct (Hk k sn' Hsn') as (sn0 & ws & H1 & H2 & H3 & H4 & H5 & H6 & H7 & H8
                                   & H9 & H10 & H11).
      exists sn0, ws. rewrite std_max_spec in H6.
      replace (i + Z.of_nat (S k)) with (i + 1 + Z.of_nat k) by lia.
      repeat split; try done; lia.
Qed.

Lemma channelIndex_0 layout : channelIndex layout 0 = 0.
Proof. done. Qed.

Section MixCreateProps.

Variable queryAudioFormat : VSSampleType -> Z -> Z -> option VSAudioFormat.

(** What a successful construction went through. *)
Lemma audioMixCreate_filter clips matrix channels_out T d :
  audioMixCreate queryAudioFormat clips matrix channels_out = Some (MixFilter T d) ->
  exists d_ai first fmt,
    mixEntries clips !! 0%nat = Some first
    /\ bitset64_count channels_out * Z.of_nat (length (mixEntries clips))
       = Z.of_nat (length matrix)
    /\ audioMixCheck matrix (bitset64_count channels_out)
         (Z.of_nat (length (mixEntries clips))) (nodeInfo (am_node first))
         (mixEntries clips) 0
       = Some (d_ai, am_sourceNodes d, None)
    /\ queryAudioFormat (sampleType (format d_ai)) (bitsPerSample (format d_ai))
         channels_out = Some fmt
    /\ am_ai d = setFormat d_ai fmt
    /\ T = (if bool_decide (sampleType fmt = stFloat) then mixFloat
            else if bytesPerSample fmt =? 2 then mixInt16 else mixInt32).
Proof.
  unfold audioMixCreate. rewrite audioMixBind_spec. cbn [mbind option_bind].
  destruct (_ <? _); [done|].
  destruct (Z.eqb_spec (bitset64_count channels_out
                        * Z.of_nat (length (mixEntries clips)))
              (Z.of_nat (length matrix))) as [Hm|]; simpl; [|done].
  destruct (mixEntries clips !! 0%nat) as [first|] eqn:Hfirst; simpl; [|done].
  destruct (audioMixCheck _ _ _ _ _ _) as [[[d_ai nodes] err]|] eqn:Hcheck; simpl; [|done].
  destruct (queryAudioFormat _ _ _) as [fmt|] eqn:Hq; [|done].
  destruct err; [done|]. intros [= <- <-]. simpl.
  exists d_ai, first, fmt. by repeat split.
Qed.

(** The matrix of a constructed AudioMix node has one row per output channel
    and one column per source entry: it holds [nout * nsrc] weights, every
    source entry gets [nout] weights, and weight [j] of entry [i] is element
    [j * nsrc + i] of the matrix, narrowed from [double] to [float]. *)
Theorem audioMixCreate_weights (clips : list VSNodeRef) (matrix : list spec_float)
    (channels_out : Z) (T : MixSampleType) (d : AudioMixData) :
  audioMixCreate queryAudioFormat clips matrix channels_out = Some (MixFilter T d) ->
  let nsrc := length (am_sourceNodes d) in
  let nout := Z.to_nat (bitset64_count channels_out) in
  length matrix = (nout * nsrc)%nat
  /\ forall (i : nat) sn, am_sourceNodes d !! i = Some sn ->
       length (am_weights sn) = nout
       /\ forall j : nat, (j < nout)%nat ->
            am_weights sn !! j = float_of_double <$> matrix !! (j * nsrc + i)%nat.
Proof.
  intros Hcreate nsrc nout.
  destruct (audioMixCreate_filter _ _ _ _ _ Hcreate)
    as (d_ai & first & fmt & Hfirst & Hm & Hcheck & _).
  destruct (audioMixCheck_spec _ _ _ _ _ _ _ _ Hcheck) as (_ & _ & _ & Hlen & Hk).
  assert (Hout : 0 <= bitset64_count channels_out) by (unfold bitset64_count; lia).
  fold nsrc in Hlen. rewrite <- Hlen in *.
  split; [subst nout; nia|].
  intros i sn' Hsn'.
  destruct (Hk i sn' Hsn') as (sn & ws & Hsn & _ & _ & _ & _ & _ & _ & _ & _ & Hws & Hw).
  destruct (mixEntries_idx clips sn) as [_ Hnil]; [by eapply list_elem_of_lookup_2|].
  rewrite Hnil in Hw. simpl in Hw. subst ws.
  apply mapM_Some_1 in Hws.
  pose proof (Forall2_length _ _ _ Hws) as Hwlen. rewrite length_seqZ in Hwlen.
  split; [done|]. intros j Hj.
  destruct (lookup_lt_is_Some_2 (am_weights sn') j) as [w Hwj]; [lia|].
  assert (Hseq : seqZ 0 (bitset64_count channels_out) !! j = Some (Z.of_nat j)).
  { rewrite lookup_seqZ. split; lia. }
  pose proof (Forall2_lookup_lr _ _ _ _ _ _ Hws Hseq Hwj) as Hf. simpl in Hf.
  rewrite Hwj, <- Hf. unfold propGetFloat.
  destruct (Z.ltb_spec (Z.of_nat j * Z.of_nat nsrc + (0 + Z.of_nat i)) 0); [lia|].
  do 2 f_equal. lia.
Qed.

(** A constructed AudioMix node has one source entry per channel of every
    clip, in the order of the clips, and every one of them reads buffer 0 of
    its clip: [push_back({ node, j })] puts the channel number [j] into
    [numFrames] and leaves [idx] at zero, so the second loop looks for
    channel 0 in every layout and computes the index 0.  [numFrames] ends up
    as the frame count of the clip. *)
Theorem audioMixCreate_reads_channel_0 (clips : list VSNodeRef) (matrix : list spec_float)
    (channels_out : Z) (T : MixSampleType) (d : AudioMixData) :
  audioMixCreate queryAudioFormat clips matrix channels_out = Some (MixFilter T d) ->
  am_node <$> am_sourceNodes d
  = (clips ≫= fun c => replicate (Z.to_nat (numChannels (format (nodeInfo c)))) c)
  /\ forall sn, sn ∈ am_sourceNodes d ->
       am_idx sn = 0
       /\ hasChannel (channelLayout (format (nodeInfo (am_node sn)))) 0 = true
       /\ am_numFrames sn = numFrames (nodeInfo (am_node sn)).
Proof.
  intros Hcreate.
  destruct (audioMixCreate_filter _ _ _ _ _ Hcreate)
    as (d_ai & first & fmt & Hfirst & Hm & Hcheck & _).
  destruct (audioMixCheck_spec _ _ _ _ _ _ _ _ Hcheck) as (_ & _ & _ & Hlen & Hk).
  split.
  - rewrite <- mixEntries_nodes. apply list_eq. intros k. rewrite !list_lookup_fmap.
    destruct (am_sourceNodes d !! k) as [sn'|] eqn:Hsn'; simpl.
    + destruct (Hk k sn' Hsn') as (sn & ws & -> & -> & _). done.
    + apply lookup_ge_None in Hsn'. rewrite lookup_ge_None_2 by lia. done.
  - intros sn' (k & Hsn')%list_elem_of_lookup_1.
    destruct (Hk k sn' Hsn') as (sn & ws & Hsn & Hnode & Hnf & Hidx & Hhas & _).
    destruct (mixEntries_idx clips sn) as [Hz _]; [by eapply list_elem_of_lookup_2|].
    rewrite Hz in Hidx, Hhas. rewrite Hnode. by rewrite channelIndex_0 in Hidx.
Qed.

(** Every input of a constructed AudioMix node has the length and the
    sample rate of the node, and the format of the node is the one found for
    the sample type and the bit depth of the input with the layout
    [channels_out].  The callback is the [float] one for a float format, the
    16-bit one for samples of two bytes, the 32-bit one otherwise. *)
Theorem audioMixCreate_inputs_agree (clips : list VSNodeRef) (matrix : list spec_float)
    (channels_out : Z) (T : MixSampleType) (d : AudioMixData) :
  audioMixCreate queryAudioFormat clips matrix channels_out = Some (MixFilter T d) ->
  (forall sn, sn ∈ am_sourceNodes d ->
     numSamples (nodeInfo (am_node sn)) = numSamples (am_ai d)
     /\ sampleRate (nodeInfo (am_node sn)) = sampleRate (am_ai d)
     /\ queryAudioFormat (sampleType (format (nodeInfo (am_node sn))))
          (bitsPerSample (format (nodeInfo (am_node sn)))) channels_out
        = Some (format (am_ai d)))
  /\ T = (if bool_decide (sampleType (format (am_ai d)) = stFloat) then mixFloat
          else if bytesPerSample (format (am_ai d)) =? 2 then mixInt16 else mixInt32).
Proof.
  intros Hcreate.
  destruct (audioMixCreate_filter _ _ _ _ _ Hcreate)
    as (d_ai & first & fmt & Hfirst & Hm & Hcheck & Hq & Hai & HT).
  destruct (audioMixCheck_spec _ _ _ _ _ _ _ _ Hcheck) as (Hf & Hr & Hn & Hlen & Hk).
  rewrite Hai. simpl. split; [|done].
  intros sn' (k & Hsn')%list_elem_of_lookup_1.
  destruct (Hk k sn' Hsn')
    as (sn & ws & Hsn & Hnode & _ & _ & _ & Hns & Hsr & Hbits & Hst & _).
  rewrite Hnode, Hns, Hsr, Hbits, Hst, <- Hf, Hn, Hr. done.
Qed.

End MixCreateProps.

Lemma audioMixCreate_weights_witness :
  exists T d,
    audioMixCreate queryAudioFormat16 [rampNode 1 44100 7000] mixLeftOnly 1
      = Some (MixFilter T d)
    /\ (let nsrc := length (am_sourceNodes d) in
        let nout := Z.to_nat (bitset64_count 1) in
        length mixLeftOnly = (nout * nsrc)%nat
        /\ forall (i : nat) sn, am_sourceNodes d !! i = Some sn ->
             length (am_weights sn) = nout
             /\ forall j : nat, (j < nout)%nat ->
                  am_weights sn !! j
                  = float_of_double <$> mixLeftOnly !! (j * nsrc + i)%nat).
Proof.
  eexists. eexists. split; [reflexivity|].
  apply (audioMixCreate_weights queryAudioFormat16 [rampNode 1 44100 7000] mixLeftOnly 1
           _ _ eq_refl).
Defined.

Lemma audioMixCreate_reads_channel_0_witness :
  exists T d,
    audioMixCreate queryAudioFormat16 [rampNode 1 44100 7000] mixLeftOnly 1
      = Some (MixFilter T d)
    /\ (am_node <$> am_sourceNodes d
        = ([rampNode 1 44100 7000] ≫=
             fun c => replicate (Z.to_nat (numChannels (format (nodeInfo c)))) c)
        /\ forall sn, sn ∈ am_sourceNodes d ->
             am_idx sn = 0
             /\ hasChannel (channelLayout (format (nodeInfo (am_node sn)))) 0 = true
             /\ am_numFrames sn = numFrames (nodeInfo (am_node sn))).
Proof.
  eexists. eexists. split; [reflexivity|].
  apply (audioMixCreate_reads_channel_0 queryAudioFormat16 [rampNode 1 44100 7000]
           mixLeftOnly 1 _ _ eq_refl).
Defined.

Lemma audioMixCreate_inputs_agree_witness :
  exists T d,
    audioMixCreate queryAudioFormat16 [rampNode 1 44100 7000] mixLeftOnly 1
      = Some (MixFilter T d)
    /\ ((forall sn, sn ∈ am_sourceNodes d ->
           numSamples (nodeInfo (am_node sn)) = numSamples (am_ai d)
           /\ sampleRate (nodeInfo (am_node sn)) = sampleRate (am_ai d)
           /\ queryAudioFormat16 (sampleType (format (nodeInfo (am_node sn))))
                (bitsPerSample (format (nodeInfo (am_node sn)))) 1
              = Some (format (am_ai d)))
        /\ T = (if bool_decide (sampleType (format (am_ai d)) = stFloat) then mixFloat
                else if bytesPerSample (format (am_ai d)) =? 2 then mixInt16
                else mixInt32)).
Proof.
  eexists. eexists. split; [reflexivity|].
  apply (audioMixCreate_inputs_agree queryAudioFormat16 [rampNode 1 44100 7000]
           mixLeftOnly 1 _ _ eq_refl).
Defined.

(** ** Frames *)

Section MixFrame.

Variable float_of_bits : Z -> spec_float.
Variable bits_of_float : spec_float -> Z.
Variables (T : MixSampleType) (fill n : Z) (d : AudioMixData).

Let fmt := format (am_ai d).

(** The loops of the ready phase.  When every source frame has the buffer
    its entry selects, the first source frame is not longer than a frame of
    the output format, and the value of every sample is defined, the frame
    that comes out is as long as the first source frame, and every sample
    holds the value computed for it. *)
Lemma audioMixGetFrame_frame (srcPtrs : list (list Z)) (sn0 : AudioMixDataNode) :
  let srcLength := frameLength (nodeFrame (am_node sn0) n) in
  mapM (fun sn => getReadPtr (nodeFrame (am_node sn) n) (am_idx sn)) (am_sourceNodes d)
    = Some srcPtrs ->
  am_sourceNodes d !! 0%nat = Some sn0 ->
  0 <= srcLength <= samplesPerFrame fmt ->
  0 <= numChannels fmt ->
  (forall i dstIdx, 0 <= i < srcLength -> 0 <= dstIdx < numChannels fmt ->
     is_Some (mixSample float_of_bits bits_of_float T d srcPtrs i dstIdx)) ->
  exists f,
    audioMixGetFrame float_of_bits bits_of_float T fill n arAllFramesReady d
      = Some (Returned f)
    /\ frameLength f = srcLength
    /\ forall i dstIdx, 0 <= i < srcLength -> 0 <= dstIdx < numChannels fmt ->
         frame_sample f dstIdx i
         = mixSample float_of_bits bits_of_float T d srcPtrs i dstIdx.
Proof.
  intros srcLength Hptrs Hsn0 Hlen Hch Hdef.
  unfold audioMixGetFrame. rewrite Hptrs. cbn [mbind option_bind].
  rewrite list_lookup_fmap || (change (map ?f ?l) with (f <$> l); rewrite list_lookup_fmap).
  rewrite Hsn0. cbn [fmap option_fmap option_map mbind option_bind].
  unfold getFrameLength. fold srcLength. fold fmt.
  set (sample := mixSample float_of_bits bits_of_float T d srcPtrs) in *.
  set (inner := fun (i dstIdx : Z) (dst : VSFrameRef) =>
                  tmp ← mixAccumulate float_of_bits T srcPtrs (am_sourceNodes d) i dstIdx
                          (S754_zero false);
                  v ← mixStore bits_of_float T (bitsPerSample fmt) tmp;
                  w ← getReadPtr dst dstIdx;
                  w ← buf_set w i v;
                  Some (setChannel dst dstIdx w)).
  set (Inv := fun (i c : Z) (f : VSFrameRef) =>
                frame_shape fmt f /\ frameLength f = srcLength
                /\ (forall i' c', 0 <= i' < i -> 0 <= c' < numChannels fmt ->
                      frame_raw f c' i' = sample i' c')
                /\ (forall c', 0 <= c' < c -> frame_raw f c' i = sample i c')).
  assert (Hinner : forall i c f, 0 <= i < srcLength -> 0 <= c < numChannels fmt ->
            Inv i c f -> exists f', inner i c f = Some f' /\ Inv i (c + 1) f').
  { intros i c f Hi Hc (Hshape & Hfl & Hprev & Hcur).
    destruct (Hdef i c Hi Hc) as [v Hv]. fold sample in Hv.
    unfold inner. unfold sample, mixSample in Hv. fold fmt in Hv.
    destruct (mixAccumulate _ _ _ _ _ _ _) as [tmp|] eqn:Hacc; simpl in Hv; [|done].
    simpl. rewrite Hv. simpl.
    destruct (getReadPtr_shape_Some fmt f c Hshape Hc ltac:(lia)) as (w & Hw & Hwlen).
    rewrite Hw. simpl. unfold buf_set.
    destruct (Z.leb_spec 0 i); [|lia].
    destruct (Z.ltb_spec i (Z.of_nat (length w))); [|lia]. simpl.
    eexists. split; [done|].
    assert (Hsamp : sample i c = Some v).
    { unfold sample, mixSample. fold fmt. by rewrite Hacc. }
    split; [apply setChannel_shape; [done|rewrite length_insert; lia]|].
    split; [done|]. split.
    - intros i' c' Hi' Hc'. destruct (decide (c' = c)) as [->|Hne].
      + rewrite frame_raw_setChannel_eq by (destruct Hshape; lia).
        rewrite buf_get_lookup by lia. rewrite list_lookup_insert_ne by lia.
        rewrite <- buf_get_lookup by lia. rewrite <- (frame_raw_getReadPtr _ _ _ _ Hw).
        by apply Hprev.
      + rewrite frame_raw_setChannel_ne by lia. by apply Hprev.
    - intros c' Hc'. destruct (decide (c' = c)) as [->|Hne].
      + rewrite frame_raw_setChannel_eq by (destruct Hshape; lia).
        rewrite buf_get_lookup by lia. by rewrite list_lookup_insert_eq by lia.
      + rewrite frame_raw_setChannel_ne by lia. apply Hcur. lia. }
  destruct (for_loop_inv (fun i f => Inv i 0 f) 0 srcLength
              (fun i dst => for_loop 0 (numChannels fmt) (inner i) dst)
              (newAudioFrame fill fmt (sampleRate (am_ai d)) srcLength))
    as (f & Hf & Hshape & Hfl & Hall & _).
  - lia.
  - split; [apply newAudioFrame_shape|]. split; [done|]. split; intros; lia.
  - intros i f0 Hi Hinv0.
    destruct (for_loop_inv (fun c f => Inv i c f) 0 (numChannels fmt) (inner i) f0)
      as (f1 & Hf1 & Hshape1 & Hfl1 & Hprev1 & Hcur1); [lia|done| |].
    + intros c f2 Hc Hinv2. by apply Hinner.
    + exists f1. split; [done|]. split; [done|]. split; [done|]. split; [|intros; lia].
      intros i' c' Hi' Hc'. destruct (decide (i' = i)) as [->|Hne].
      * by apply Hcur1.
      * apply Hprev1; lia.
  - exists f. split.
    { subst inner. cbv beta in Hf. by rewrite Hf. }
    split; [done|]. intros i c Hi Hc. rewrite frame_sample_raw by lia. by apply Hall.
Qed.

End MixFrame.

(** ** Frames of the [float] and of the 16-bit instantiation *)

Section MixSamples.

Variable float_of_bits : Z -> spec_float.
Variable bits_of_float : spec_float -> Z.

(** The accumulation loop, from [tmp] on. *)
Lemma mixAccumulate_sum T i dstIdx : forall srcPtrs sourceNodes xs ws tmp,
  0 <= i -> 0 <= dstIdx ->
  length sourceNodes = length srcPtrs ->
  Forall2 (fun (buf : list Z) x => buf !! Z.to_nat i = Some x) srcPtrs xs ->
  Forall2 (fun sn w => am_weights sn !! Z.to_nat dstIdx = Some w) sourceNodes ws ->
  mixAccumulate float_of_bits T srcPtrs sourceNodes i dstIdx tmp
  = Some (foldl (fun tmp xw => SFadd 53 1024 tmp (SFmul 53 1024 xw.1 xw.2)) tmp
            (zip (mixLoad float_of_bits T <$> xs) (double_of_float <$> ws))).
Proof.
  intros srcPtrs sourceNodes xs ws tmp Hi Hd Hlen Hxs. revert sourceNodes ws tmp Hlen.
  induction Hxs as [|buf x srcPtrs xs Hx Hxs IH]; intros sourceNodes ws tmp Hlen Hws.
  - by destruct sourceNodes.
  - destruct Hws as [|sn w sourceNodes ws Hw Hws]; [done|]. simpl.
    rewrite buf_get_lookup by done. rewrite Hx. simpl.
    destruct (Z.ltb_spec dstIdx 0); [lia|]. rewrite Hw. simpl.
    apply IH; [|done]. simpl in Hlen. lia.
Qed.

Variables (fill n : Z) (d : AudioMixData).

Let fmt := format (am_ai d).

(** The source frames have their buffers, with room for [srcLength] samples,
    and every entry has a weight for every output channel: then every sample
    index has its source samples and every output channel its weights. *)
Lemma mixSources_values (srcPtrs : list (list Z)) (srcLength : Z) :
  Forall2 (fun sn (buf : list Z) =>
             getReadPtr (nodeFrame (am_node sn) n) (am_idx sn) = Some buf
             /\ srcLength <= Z.of_nat (length buf))
    (am_sourceNodes d) srcPtrs ->
  Forall (fun sn => Z.of_nat (length (am_weights sn)) = numChannels fmt) (am_sourceNodes d) ->
  mapM (fun sn => getReadPtr (nodeFrame (am_node sn) n) (am_idx sn)) (am_sourceNodes d)
    = Some srcPtrs
  /\ (forall i, 0 <= i < srcLength ->
        exists xs, Forall2 (fun (buf : list Z) x => buf !! Z.to_nat i = Some x) srcPtrs xs)
  /\ (forall dstIdx, 0 <= dstIdx < numChannels fmt ->
        exists ws, Forall2 (fun sn w => am_weights sn !! Z.to_nat dstIdx = Some w)
                     (am_sourceNodes d) ws).
Proof.
  intros Hptrs Hweights. split; [|split].
  - apply mapM_Some_2. eapply Forall2_impl; [exact Hptrs|]. by intros sn buf [? _].
  - intros i Hi. clear -Hptrs Hi. induction Hptrs as [|sn buf sns bufs [_ Hb] _ IH].
    + by exists [].
    + destruct IH as [xs Hxs].
      destruct (lookup_lt_is_Some_2 buf (Z.to_nat i)) as [x Hx]; [lia|].
      exists (x :: xs). by constructor.
  - intros dstIdx Hd. clear -Hweights Hd. induction Hweights as [|sn sns Hw _ IH].
    + by exists [].
    + destruct IH as [ws Hws].
      destruct (lookup_lt_is_Some_2 (am_weights sn) (Z.to_nat dstIdx)) as [w Hw'];
        [lia|].
      exists (w :: ws). by constructor.
Qed.

(** The frame of the [float] instantiation of AudioMix.  When every source
    frame has the buffer its entry selects, with room for the length of the
    first source frame, every entry has a weight for every output channel,
    and the first source frame is not longer than a frame of the output
    format, the frame that comes out is as long as the first source frame,
    and sample [i] of output channel [dstIdx] is the [float] nearest to the
    sum, taken in [double] from zero on in the order of the sources, of
    sample [i] of every source times its weight for [dstIdx]. *)
Theorem audioMixGetFrame_float_samples (srcPtrs : list (list Z)) (sn0 : AudioMixDataNode) :
  let srcLength := frameLength (nodeFrame (am_node sn0) n) in
  am_sourceNodes d !! 0%nat = Some sn0 ->
  Forall2 (fun sn (buf : list Z) =>
             getReadPtr (nodeFrame (am_node sn) n) (am_idx sn) = Some buf
             /\ srcLength <= Z.of_nat (length buf))
    (am_sourceNodes d) srcPtrs ->
  Forall (fun sn => Z.of_nat (length (am_weights sn)) = numChannels fmt) (am_sourceNodes d) ->
  0 <= srcLength <= samplesPerFrame fmt ->
  exists f,
    audioMixGetFrame float_of_bits bits_of_float mixFloat fill n arAllFramesReady d
      = Some (Returned f)
    /\ frameLength f = srcLength
    /\ forall i dstIdx xs ws,
         0 <= i < srcLength -> 0 <= dstIdx < numChannels fmt ->
         Forall2 (fun (buf : list Z) x => buf !! Z.to_nat i = Some x) srcPtrs xs ->
         Forall2 (fun sn w => am_weights sn !! Z.to_nat dstIdx = Some w)
           (am_sourceNodes d) ws ->
         frame_sample f dstIdx i
         = Some (bits_of_float
                   (float_of_double
                      (weightedSum ((fun x => double_of_float (float_of_bits x)) <$> xs)
                         (double_of_float <$> ws)))).
Proof.
  intros srcLength Hsn0 Hptrs Hweights Hlen.
  assert (Hch : 0 <= numChannels fmt).
  { apply list_elem_of_lookup_2 in Hsn0.
    rewrite Forall_forall in Hweights. rewrite <- (Hweights _ Hsn0). lia. }
  destruct (mixSources_values srcPtrs srcLength Hptrs Hweights) as (Hmap & Hxs & Hws).
  pose proof (Forall2_length _ _ _ Hptrs) as Hplen.
  assert (Hsample : forall i dstIdx xs ws,
            0 <= i < srcLength -> 0 <= dstIdx < numChannels fmt ->
            Forall2 (fun (buf : list Z) x => buf !! Z.to_nat i = Some x) srcPtrs xs ->
            Forall2 (fun sn w => am_weights sn !! Z.to_nat dstIdx = Some w)
              (am_sourceNodes d) ws ->
            mixSample float_of_bits bits_of_float mixFloat d srcPtrs i dstIdx
            = Some (bits_of_float
                      (float_of_double
                         (weightedSum ((fun x => double_of_float (float_of_bits x)) <$> xs)
                            (double_of_float <$> ws))))).
  { intros i dstIdx xs ws Hi Hd Hx Hw. unfold mixSample.
    rewrite (mixAccumulate_sum mixFloat i dstIdx srcPtrs (am_sourceNodes d) xs ws)
      by (try done; lia).
    done. }
  destruct (audioMixGetFrame_frame float_of_bits bits_of_float mixFloat fill n d
              srcPtrs sn0 Hmap Hsn0 Hlen Hch) as (f & Hf & Hfl & Hall).
  - intros i dstIdx Hi Hd.
    destruct (Hxs i Hi) as [xs Hx]. destruct (Hws dstIdx Hd) as [ws Hw].
    rewrite (Hsample i dstIdx xs ws Hi Hd Hx Hw). by eexists.
  - exists f. split; [done|]. split; [done|].
    intros i dstIdx xs ws Hi Hd Hx Hw.
    rewrite (Hall i dstIdx Hi Hd). by apply Hsample.
Qed.

(** The frame of the 16-bit instantiation of AudioMix.  When every source
    frame has the buffer its entry selects, with room for the length of the
    first source frame, every entry has a weight for every output channel,
    the first source frame is not longer than a frame of the output format,
    and every sum fits 16 bits once its fraction is dropped, the frame that
    comes out is as long as the first source frame, and sample [i] of output
    channel [dstIdx] is the sum, taken in [double] from zero on in the order
    of the sources, of the signed sample [i] of every source times its
    weight for [dstIdx], with the fraction dropped. *)
Theorem audioMixGetFrame_int16_samples (srcPtrs : list (list Z)) (sn0 : AudioMixDataNode) :
  let srcLength := frameLength (nodeFrame (am_node sn0) n) in
  am_sourceNodes d !! 0%nat = Some sn0 ->
  Forall2 (fun sn (buf : list Z) =>
             getReadPtr (nodeFrame (am_node sn) n) (am_idx sn) = Some buf
             /\ srcLength <= Z.of_nat (length buf))
    (am_sourceNodes d) srcPtrs ->
  Forall (fun sn => Z.of_nat (length (am_weights sn)) = numChannels fmt) (am_sourceNodes d) ->
  0 <= srcLength <= samplesPerFrame fmt ->
  (forall i dstIdx xs ws,
     0 <= i < srcLength -> 0 <= dstIdx < numChannels fmt ->
     Forall2 (fun (buf : list Z) x => buf !! Z.to_nat i = Some x) srcPtrs xs ->
     Forall2 (fun sn w => am_weights sn !! Z.to_nat dstIdx = Some w) (am_sourceNodes d) ws ->
     is_Some (double_to_int 16
                (weightedSum ((fun x => double_of_Z (to_int16 x)) <$> xs)
                   (double_of_float <$> ws)))) ->
  exists f,
    audioMixGetFrame float_of_bits bits_of_float mixInt16 fill n arAllFramesReady d
      = Some (Returned f)
    /\ frameLength f = srcLength
    /\ forall i dstIdx xs ws,
         0 <= i < srcLength -> 0 <= dstIdx < numChannels fmt ->
         Forall2 (fun (buf : list Z) x => buf !! Z.to_nat i = Some x) srcPtrs xs ->
         Forall2 (fun sn w => am_weights sn !! Z.to_nat dstIdx = Some w)
           (am_sourceNodes d) ws ->
         frame_sample f dstIdx i
         = double_to_int 16
             (weightedSum ((fun x => double_of_Z (to_int16 x)) <$> xs)
                (double_of_float <$> ws)).
Proof.
  intros srcLength Hsn0 Hptrs Hweights Hlen Hfits.
  assert (Hch : 0 <= numChannels fmt).
  { apply list_elem_of_lookup_2 in Hsn0.
    rewrite Forall_forall in Hweights. rewrite <- (Hweights _ Hsn0). lia. }
  destruct (mixSources_values srcPtrs srcLength Hptrs Hweights) as (Hmap & Hxs & Hws).
  pose proof (Forall2_length _ _ _ Hptrs) as Hplen.
  assert (Hsample : forall i dstIdx xs ws,
            0 <= i < srcLength -> 0 <= dstIdx < numChannels fmt ->
            Forall2 (fun (buf : list Z) x => buf !! Z.to_nat i = Some x) srcPtrs xs ->
            Forall2 (fun sn w => am_weights sn !! Z.to_nat dstIdx = Some w)
              (am_sourceNodes d) ws ->
            mixSample float_of_bits bits_of_float mixInt16 d srcPtrs i dstIdx
            = double_to_int 16
                (weightedSum ((fun x => double_of_Z (to_int16 x)) <$> xs)
                   (double_of_float <$> ws))).
  { intros i dstIdx xs ws Hi Hd Hx Hw. unfold mixSample.
    rewrite (mixAccumulate_sum mixInt16 i dstIdx srcPtrs (am_sourceNodes d) xs ws)
      by (try done; lia).
    done. }
  destruct (audioMixGetFrame_frame float_of_bits bits_of_float mixInt16 fill n d
              srcPtrs sn0 Hmap Hsn0 Hlen Hch) as (f & Hf & Hfl & Hall).
  - intros i dstIdx Hi Hd.
    destruct (Hxs i Hi) as [xs Hx]. destruct (Hws dstIdx Hd) as [ws Hw].
    rewrite (Hsample i dstIdx xs ws Hi Hd Hx Hw). by apply (Hfits i dstIdx xs ws).
  - exists f. split; [done|]. split; [done|].
    intros i dstIdx xs ws Hi Hd Hx Hw.
    rewrite (Hall i dstIdx Hi Hd). by apply Hsample.
Qed.

End MixSamples.

Lemma audioMixGetFrame_float_samples_witness :
  exists f,
    audioMixGetFrame floatOfSample sampleOfFloat mixFloat 0 0 arAllFramesReady mixTwoFloats
      = Some (Returned f)
    /\ frameLength f = frameLength (nodeFrame (floatNode 1 5) 0)
    /\ forall i dstIdx xs ws,
         0 <= i < frameLength (nodeFrame (floatNode 1 5) 0) ->
         0 <= dstIdx < numChannels (format (am_ai mixTwoFloats)) ->
         Forall2 (fun (buf : list Z) x => buf !! Z.to_nat i = Some x)
           [5 :: replicate 2999 0; 7 :: replicate 2999 0] xs ->
         Forall2 (fun sn w => am_weights sn !! Z.to_nat dstIdx = Some w)
           (am_sourceNodes mixTwoFloats) ws ->
         frame_sample f dstIdx i
         = Some (sampleOfFloat
                   (float_of_double
                      (weightedSum ((fun x => double_of_float (floatOfSample x)) <$> xs)
                         (double_of_float <$> ws)))).
Proof.
  apply (audioMixGetFrame_float_samples floatOfSample sampleOfFloat 0 0 mixTwoFloats
           [5 :: replicate 2999 0; 7 :: replicate 2999 0]
           {| am_node := floatNode 1 5; am_numFrames := 1; am_idx := 0;
              am_weights := [float_of_Z 2] |}).
  - reflexivity.
  - constructor; [|constructor; [|constructor]];
      (split; [reflexivity|]); cbn [length]; rewrite length_replicate; simpl; lia.
  - constructor; [reflexivity|]. constructor; [reflexivity|]. constructor.
  - simpl. lia.
Defined.

(** The scenario evaluated: 5 * 2 + 7 * 3. *)
Lemma mixTwoFloats_value :
  (f ← returned (audioMixGetFrame floatOfSample sampleOfFloat mixFloat 0 0
                    arAllFramesReady mixTwoFloats);
   frame_sample f 0 0) = Some 31.
Proof. vm_compute. reflexivity. Qed.

Lemma audioMixGetFrame_int16_samples_witness :
  exists f,
    audioMixGetFrame floatOfSample sampleOfFloat mixInt16 0 0 arAllFramesReady mixTwoShorts
      = Some (Returned f)
    /\ frameLength f = frameLength (nodeFrame (shortNode 1 65531) 0)
    /\ forall i dstIdx xs ws,
         0 <= i < frameLength (nodeFrame (shortNode 1 65531) 0) ->
         0 <= dstIdx < numChannels (format (am_ai mixTwoShorts)) ->
         Forall2 (fun (buf : list Z) x => buf !! Z.to_nat i = Some x)
           [65531 :: replicate 2999 0; 3 :: replicate 2999 0] xs ->
         Forall2 (fun sn w => am_weights sn !! Z.to_nat dstIdx = Some w)
           (am_sourceNodes mixTwoShorts) ws ->
         frame_sample f dstIdx i
         = double_to_int 16
             (weightedSum ((fun x => double_of_Z (to_int16 x)) <$> xs)
                (double_of_float <$> ws)).
Proof.
  apply (audioMixGetFrame_int16_samples floatOfSample sampleOfFloat 0 0 mixTwoShorts
           [65531 :: replicate 2999 0; 3 :: replicate 2999 0]
           {| am_node := shortNode 1 65531; am_numFrames := 1; am_idx := 0;
              am_weights := [S754_finite false 1 (-1)] |}).
  - reflexivity.
  - constructor; [|constructor; [|constructor]];
      (split; [reflexivity|]); cbn [length]; rewrite length_replicate; simpl; lia.
  - constructor; [reflexivity|]. constructor; [reflexivity|]. constructor.
  - simpl. lia.
  - intros i dstIdx xs ws Hi Hd Hx Hw. simpl in Hi, Hd.
    assert (i = 0) as -> by lia. assert (dstIdx = 0) as -> by lia.
    apply Forall2_cons_inv_l in Hx as (x1 & xs1 & Hx1 & Hx & ->).
    apply Forall2_cons_inv_l in Hx as (x2 & xs2 & Hx2 & Hx & ->).
    apply Forall2_nil_inv_l in Hx as ->.
    apply Forall2_cons_inv_l in Hw as (w1 & ws1 & Hw1 & Hw & ->).
    apply Forall2_cons_inv_l in Hw as (w2 & ws2 & Hw2 & Hw & ->).
    apply Forall2_nil_inv_l in Hw as ->.
    simpl in Hx1, Hx2, Hw1, Hw2. simplify_eq.
    vm_compute. by eexists.
Defined.

(** The scenario evaluated: -5 * 0.5 - 3 is -5.5, stored as -5. *)
Lemma mixTwoShorts_value :
  (f ← returned (audioMixGetFrame floatOfSample sampleOfFloat mixInt16 0 0
                    arAllFramesReady mixTwoShorts);
   frame_sample f 0 0) = Some (-5).
Proof. vm_compute. reflexivity. Qed.

(** * ShuffleChannels *)

(** ** Construction *)

Section ShuffleCreate.

Variable int64ToIntS : Z -> Z.
Variable queryAudioFormat : VSSampleType -> Z -> Z -> option VSAudioFormat.

Lemma shuffleChannelsBind_lookup clips channels_in : forall i nodes (k : nat) sn,
  0 <= i ->
  shuffleChannelsBind int64ToIntS clips channels_in i = Some nodes ->
  nodes !! k = Some sn ->
  clips !! Z.to_nat (Z.min (Z.of_nat (length clips) - 1) (i + Z.of_nat k))
    = Some (sc_node sn)
  /\ 0 <= Z.of_nat (length clips) - 1.
Proof.
  induction channels_in as [|c rest IH]; intros i nodes k sn Hi Hbind Hk; simpl in Hbind.
  - by simplify_eq.
  - rewrite std_min_spec in Hbind.
    destruct (Z.ltb_spec (Z.min (Z.of_nat (length clips) - 1) i) 0); [done|].
    destruct (clips !! Z.to_nat _) as [node|] eqn:Hnode; [|done]. simpl in Hbind.
    destruct (shuffleChannelsBind _ _ rest _) as [nodes'|] eqn:Hrest; [|done].
    simpl in Hbind. simplify_eq.
    destruct k as [|k]; simpl in Hk.
    + simplify_eq. simpl. split; [|lia]. by rewrite Z.add_0_r.
    + destruct (IH (i + 1) nodes' k sn) as [Hl ?]; [lia|done|done|].
      split; [|done]. rewrite <- Hl. do 3 f_equal. lia.
Qed.

Lemma shuffleChannelsBind_length clips channels_in : forall i nodes,
  shuffleChannelsBind int64ToIntS clips channels_in i = Some nodes ->
  length nodes = length channels_in.
Proof.
  induction channels_in as [|c rest IH]; intros i nodes Hbind; simpl in Hbind.
  - by simplify_eq.
  - destruct (_ <? 0); [done|].
    destruct (clips !! _); [|done]. simpl in Hbind.
    destruct (shuffleChannelsBind _ _ rest _) as [nodes'|] eqn:Hrest; [|done].
    simpl in Hbind. simplify_eq. simpl. f_equal. by eapply IH.
Qed.

(** The validation loop keeps every selection on its node. *)
Lemma shuffleChannelsCheck_nodes nodes : forall d_ai d_ai' nodes' err,
  shuffleChannelsCheck d_ai nodes = Some (d_ai', nodes', err) ->
  sc_node <$> nodes' = sc_node <$> nodes.
Proof.
  induction nodes as [|sn rest IH]; intros d_ai d_ai' nodes' err H; simpl in H.
  - by simplify_eq.
  - destruct (_ || _); [done|].
    destruct (negb (hasChannel _ _)); [by simplify_eq|].
    destruct (_ || _); [by simplify_eq|].
    destruct (shuffleChannelsCheck _ rest) as [[[ai1 rest1] err1]|] eqn:Hrest; [|done].
    simpl in H. simplify_eq. simpl. f_equal. by eapply IH.
Qed.

(** C10. When ShuffleChannels is constructed from fewer nodes than channel
    selections, selection [i] is bound to the node listed at index
    [min (numSrcNodes - 1) i]: every selection from [numSrcNodes] on is bound
    to the last node listed. *)
Theorem shuffleChannelsCreate_node_binding (clip : list VSNodeRef) (channels_in : list Z)
    (channels_out : Z) (d : ShuffleChannelsData) :
  (length clip < length channels_in)%nat ->
  shuffleChannelsCreate int64ToIntS queryAudioFormat clip channels_in channels_out
    = Some (ShuffleFilter d) ->
  length (sc_sourceNodes d) = length channels_in
  /\ forall i : nat, (i < length channels_in)%nat ->
       exists sn node,
         sc_sourceNodes d !! i = Some sn
         /\ clip !! Nat.min (length clip - 1) i = Some node
         /\ sc_node sn = node
         /\ ((length clip <= i)%nat -> last clip = Some node).
Proof.
  intros Hlen Hcreate. unfold shuffleChannelsCreate in Hcreate.
  repeat (case_match; simplify_eq; simpl in *; try done).
  destruct (shuffleChannelsBind _ _ _ _) as [bound|] eqn:Hbind; [|done].
  simpl in Hcreate.
  destruct (bound !! 0%nat) as [first|] eqn:Hfirst; [|done]. simpl in Hcreate.
  destruct (shuffleChannelsCheck _ _) as [[[d_ai nodes] err]|] eqn:Hcheck; [|done].
  simpl in Hcreate.
  repeat (case_match; simplify_eq; simpl in *; try done).
  pose proof (shuffleChannelsCheck_nodes _ _ _ _ _ Hcheck) as Hnodes.
  pose proof (shuffleChannelsBind_length _ _ _ _ Hbind) as Hblen.
  assert (Hnlen : length nodes = length channels_in).
  { rewrite <- Hblen, <- (length_fmap sc_node nodes), Hnodes. apply length_fmap. }
  split; [done|]. intros i Hi.
  destruct (lookup_lt_is_Some_2 nodes i) as [sn Hsn]; [lia|].
  destruct (lookup_lt_is_Some_2 bound i) as [bn Hbn]; [lia|].
  assert (Hbnode : sc_node bn = sc_node sn).
  { assert ((sc_node <$> nodes) !! i = Some (sc_node sn)) as Hm
      by (by rewrite list_lookup_fmap, Hsn).
    rewrite Hnodes, list_lookup_fmap, Hbn in Hm. simpl in Hm. congruence. }
  destruct (shuffleChannelsBind_lookup _ _ 0 _ _ _ ltac:(lia) Hbind Hbn) as [Hl Hpos].
  exists sn, (sc_node sn). split; [done|].
  replace (Nat.min (length clip - 1) i)
    with (Z.to_nat (Z.min (Z.of_nat (length clip) - 1) (0 + Z.of_nat i))) by lia.
  rewrite <- Hbnode. split; [done|]. split; [done|]. intros Hge.
  rewrite last_lookup, <- Hl. f_equal. lia.
Qed.

End ShuffleCreate.

Lemma shuffleChannelsCreate_node_binding_witness :
  exists d,
    shuffleChannelsCreate saturate queryAudioFormat16 [rampNode 1 44100 7000] [0; 1] 3
      = Some (ShuffleFilter d)
    /\ (length (sc_sourceNodes d) = length [0; 1]
        /\ forall i : nat, (i < length [0; 1])%nat ->
             exists sn node,
               sc_sourceNodes d !! i = Some sn
               /\ [rampNode 1 44100 7000] !! Nat.min (length [rampNode 1 44100 7000] - 1) i
                  = Some node
               /\ sc_node sn = node
               /\ ((length [rampNode 1 44100 7000] <= i)%nat ->
                   last [rampNode 1 44100 7000] = Some node)).
Proof.
  eexists. split; [reflexivity|].
  apply (shuffleChannelsCreate_node_binding saturate queryAudioFormat16
           [rampNode 1 44100 7000] [0; 1] 3); [simpl; lia | reflexivity].
Defined.

(** ** Frames *)

Section ShuffleFrame.

Variables (fill n : Z) (d : ShuffleChannelsData).

Let fmt := format (sc_ai d).
Let dstLength :=
  std_min_int (numSamples (sc_ai d) - n * samplesPerFrame fmt) (samplesPerFrame fmt).

Hypothesis Hchannels : numChannels fmt = Z.of_nat (length (sc_sourceNodes d)).
Hypothesis Hbps : 0 < bytesPerSample fmt.
Hypothesis Hspf : 0 <= samplesPerFrame fmt <= INT_MAX.
Hypothesis Hsrc : forall (k : nat) sn,
  sc_sourceNodes d !! k = Some sn -> shuffleSourceOk n sn.

Lemma shuffle_dstLength_le : dstLength <= samplesPerFrame fmt.
Proof.
  unfold dstLength, std_min_int. rewrite std_min_spec.
  rewrite (to_int_id (samplesPerFrame fmt)); [lia|].
  unfold in_int, INT_MIN, INT_MAX in *. lia.
Qed.

(** The invariant of the loop over the selections. *)
Let shuffleInv (k : Z) (dst : option VSFrameRef) : Prop :=
  match dst with
  | None => k = 0
  | Some f =>
      frame_shape fmt f /\ frameLength f = dstLength
      /\ forall idx sn i,
           0 <= idx < k -> sc_sourceNodes d !! Z.to_nat idx = Some sn ->
           0 <= i < dstLength -> frame_raw f idx i = shuffleExpected n dstLength sn i
  end.

Lemma shuffleChannelsStep_inv idx dst :
  0 <= idx < Z.of_nat (length (sc_sourceNodes d)) ->
  shuffleInv idx dst ->
  exists dst', shuffleChannelsStep fill n d dstLength idx dst = Some dst'
               /\ shuffleInv (idx + 1) dst'.
Proof.
  intros Hidx Hinv.
  pose proof shuffle_dstLength_le as Hle.
  destruct (lookup_lt_is_Some_2 (sc_sourceNodes d) (Z.to_nat idx)) as [sn Hsn]; [lia|].
  pose proof (Hsrc _ _ Hsn) as Hok. unfold shuffleSourceOk in Hok.
  unfold shuffleChannelsStep. rewrite Hsn. simpl.
  fold fmt.
  set (src := nodeFrame (sc_node sn) n) in *.
  set (srcLength := if n <? sc_numFrames sn then getFrameLength src else 0).
  set (dst0 := match dst with
               | Some dst0 => dst0
               | None => newAudioFrame fill fmt (sampleRate (sc_ai d)) dstLength
               end).
  assert (Hdst0 : frame_shape fmt dst0 /\ frameLength dst0 = dstLength
                  /\ forall idx' sn' i,
                       0 <= idx' < idx -> sc_sourceNodes d !! Z.to_nat idx' = Some sn' ->
                       0 <= i < dstLength ->
                       frame_raw dst0 idx' i = shuffleExpected n dstLength sn' i).
  { subst dst0. destruct dst as [f|]; simpl in Hinv; [done|].
    split; [apply newAudioFrame_shape|]. split; [done|]. intros; lia. }
  destruct Hdst0 as (Hshape0 & Hlen0 & Hprev0).
  assert (HsrcLen : 0 <= srcLength
                    /\ (n < sc_numFrames sn -> srcLength = frameLength src)
                    /\ (sc_numFrames sn <= n -> srcLength = 0)).
  { subst srcLength. destruct (Z.ltb_spec n (sc_numFrames sn)) as [Hlt|Hge].
    - unfold getFrameLength. destruct (Hok Hlt) as [? _]. repeat split; lia.
    - repeat split; lia. }
  destruct HsrcLen as (HsrcLen0 & HsrcLenIn & HsrcLenOut).
  rewrite std_min_spec.
  set (copyLength := Z.min dstLength srcLength).
  (* the copy *)
  assert (Hcopy : exists dst1,
            (if 0 <? copyLength
             then w ← getReadPtr dst0 idx;
                  r ← getReadPtr src (sc_idx sn);
                  w0 ← memcpy (bytesPerSample fmt) w 0 r 0 (copyLength * bytesPerSample fmt);
                  Some (setChannel dst0 idx w0)
             else Some dst0) = Some dst1
            /\ frame_shape fmt dst1 /\ frameLength dst1 = dstLength
            /\ (forall idx' i, idx' <> idx -> frame_raw dst1 idx' i = frame_raw dst0 idx' i)
            /\ (forall i, 0 <= i < copyLength ->
                  frame_raw dst1 idx i = frame_raw src (sc_idx sn) i)).
  { destruct (Z.ltb_spec 0 copyLength) as [Hpos|Hnpos].
    - assert (n < sc_numFrames sn) as Hin by (subst copyLength; lia).
      destruct (Hok Hin) as (Hlen & r & Hr & Hcap).
      destruct (getReadPtr_shape_Some fmt dst0 idx) as (w & Hw & Hwlen); [done|lia|lia|].
      rewrite Hw, Hr. simpl.
      rewrite (memcpy_bytes _ _ _ _ _ _ 0 0 copyLength) by (subst copyLength; lia).
      simpl. eexists. split; [done|].
      split.
      { apply setChannel_shape; [done|].
        rewrite copy_samples_length by (subst copyLength; lia). lia. }
      split; [done|]. split.
      { intros idx' i Hne. apply frame_raw_setChannel_ne; lia. }
      intros i Hi. rewrite frame_raw_setChannel_eq by (destruct Hshape0; lia).
      rewrite copy_samples_get by (subst copyLength; lia).
      destruct (Z.leb_spec 0 i); [|lia]. destruct (Z.ltb_spec i (0 + copyLength)); [|lia].
      simpl. rewrite (frame_raw_getReadPtr _ _ _ _ Hr). f_equal. lia.
    - exists dst0. repeat split; try done; try apply Hshape0. intros; lia. }
  destruct Hcopy as (dst1 & -> & Hshape1 & Hlen1 & Hother1 & Hcopied1). simpl.
  (* the padding *)
  assert (Hzero : exists dst2,
            (if 0 <? dstLength - copyLength
             then w ← getReadPtr dst1 idx;
                  w0 ← memset0 (bytesPerSample fmt) w (copyLength * bytesPerSample fmt)
                         ((dstLength - copyLength) * bytesPerSample fmt);
                  Some (setChannel dst1 idx w0)
             else Some dst1) = Some dst2
            /\ frame_shape fmt dst2 /\ frameLength dst2 = dstLength
            /\ (forall idx' i, idx' <> idx -> frame_raw dst2 idx' i = frame_raw dst1 idx' i)
            /\ (forall i, 0 <= i < dstLength ->
                  frame_raw dst2 idx i
                  = if i <? copyLength then frame_raw dst1 idx i else Some 0)).
  { destruct (Z.ltb_spec 0 (dstLength - copyLength)) as [Hpos|Hnpos].
    - assert (copyLength = srcLength) as Hcs by (subst copyLength; lia).
      destruct (getReadPtr_shape_Some fmt dst1 idx) as (w & Hw & Hwlen); [done|lia|lia|].
      rewrite Hw. simpl.
      destruct (memset0_bytes (bytesPerSample fmt) w (copyLength * bytesPerSample fmt)
                  ((dstLength - copyLength) * bytesPerSample fmt) copyLength
                  (dstLength - copyLength)) as (w0 & -> & Hw0len & Hw0); try lia.
      simpl. eexists. split; [done|].
      split; [apply setChannel_shape; [done|lia]|].
      split; [done|]. split.
      { intros idx' i Hne. apply frame_raw_setChannel_ne; lia. }
      intros i Hi. rewrite frame_raw_setChannel_eq by (destruct Hshape1; lia).
      rewrite Hw0. rewrite (frame_raw_getReadPtr _ _ _ _ Hw).
      destruct (Z.leb_spec copyLength i); destruct (Z.ltb_spec i copyLength); try lia;
        simpl; [|done].
      by destruct (Z.ltb_spec i (copyLength + (dstLength - copyLength))); [|lia].
    - exists dst1. repeat split; try done; try apply Hshape1.
      intros i Hi. by destruct (Z.ltb_spec i copyLength); [|lia]. }
  destruct Hzero as (dst2 & -> & Hshape2 & Hlen2 & Hother2 & Hzeroed2). simpl.
  eexists. split; [done|]. simpl. split; [done|]. split; [done|].
  intros idx' sn' i Hidx' Hsn' Hi.
  destruct (decide (idx' = idx)) as [->|Hne].
  - rewrite Hsn in Hsn'. simplify_eq.
    rewrite Hzeroed2 by done. unfold shuffleExpected. fold src.
    destruct (Z.ltb_spec n (sc_numFrames sn')) as [Hin|Hout].
    + rewrite <- (HsrcLenIn Hin). fold copyLength.
      destruct (Z.ltb_spec i copyLength); [|done]. apply Hcopied1. lia.
    + destruct (Z.ltb_spec i copyLength); [|done]. subst copyLength. lia.
  - rewrite Hother2, Hother1 by done. apply Hprev0; [lia|done|done].
Qed.

Lemma shuffleChannelsGetFrame_ready :
  sc_sourceNodes d <> [] ->
  exists f,
    shuffleChannelsGetFrame fill n arAllFramesReady d = Some (Returned f)
    /\ frameLength f = dstLength
    /\ forall (idx : nat) sn i,
         sc_sourceNodes d !! idx = Some sn -> 0 <= i < dstLength ->
         frame_sample f (Z.of_nat idx) i = shuffleExpected n dstLength sn i.
Proof.
  intros Hne. unfold shuffleChannelsGetFrame. fold fmt. fold dstLength.
  destruct (for_loop_inv shuffleInv 0 (Z.of_nat (length (sc_sourceNodes d)))
              (shuffleChannelsStep fill n d dstLength) None) as (dst & -> & Hinv).
  - lia.
  - done.
  - intros i s Hi. by apply shuffleChannelsStep_inv.
  - simpl. destruct dst as [f|]; simpl in Hinv.
    + destruct Hinv as (_ & Hlen & Hall). exists f. split; [done|]. split; [done|].
      intros idx sn i Hsn Hi. rewrite frame_sample_raw by lia.
      apply Hall; [|by rewrite Nat2Z.id|done].
      apply lookup_lt_Some in Hsn. lia.
    + destruct (sc_sourceNodes d); [done|]. simpl in Hinv. lia.
Qed.

End ShuffleFrame.

(** What the validation loop leaves behind when it finds no error: the
    largest sample count seen, and the frame count of its node in every
    selection. *)
Lemma shuffleChannelsCheck_ok nodes : forall d_ai d_ai' nodes',
  shuffleChannelsCheck d_ai nodes = Some (d_ai', nodes', None) ->
  numSamples d_ai <= numSamples d_ai'
  /\ (forall sn, sn ∈ nodes -> numSamples (nodeInfo (sc_node sn)) <= numSamples d_ai')
  /\ (numSamples d_ai' = numSamples d_ai
      \/ exists sn, sn ∈ nodes /\ numSamples d_ai' = numSamples (nodeInfo (sc_node sn)))
  /\ (forall (k : nat) sn', nodes' !! k = Some sn' ->
        sc_numFrames sn' = numFrames (nodeInfo (sc_node sn'))).
Proof.
  induction nodes as [|sn rest IH]; intros d_ai d_ai' nodes' H; simpl in H.
  - simplify_eq. repeat split; [lia| |by left|done].
    intros sn Hsn. by apply not_elem_of_nil in Hsn.
  - destruct (_ || _); [done|].
    destruct (negb (hasChannel _ _)); [by simplify_eq|].
    destruct (_ || _); [by simplify_eq|].
    destruct (shuffleChannelsCheck _ rest) as [[[ai1 rest1] err1]|] eqn:Hrest; [|done].
    simpl in H. simplify_eq.
    destruct (IH _ _ _ Hrest) as (Hle & Hall & Hex & Hnf). simpl in Hle, Hex.
    rewrite std_max_spec in Hle, Hex.
    split; [lia|]. split; [|split].
    + intros sn' Hsn'. apply elem_of_cons in Hsn' as [->|Hin]; [lia|by apply Hall].
    + destruct Hex as [Heq|(sn' & Hin & Heq)].
      * destruct (Z.max_spec (numSamples d_ai) (numSamples (nodeInfo (sc_node sn))))
          as [[? Hm]|[? Hm]]; rewrite Hm in Heq.
        -- right. exists sn. split; [apply list_elem_of_here|done].
        -- by left.
      * right. exists sn'. split; [by apply list_elem_of_further|done].
    + intros [|k] sn' Hk; simpl in Hk; [by simplify_eq|]. by eapply Hnf.
Qed.

Section ShuffleChannels.

Variable int64ToIntS : Z -> Z.
Variable queryAudioFormat : VSSampleType -> Z -> Z -> option VSAudioFormat.

(** The stream of a ShuffleChannels node has as many samples as the longest
    of its sources.  In frame [n], of the length [dstLength] the callback
    computes, destination channel [idx] is all zeros when [n] is at or
    beyond the frame count of its source; otherwise it holds the first
    [min dstLength srcLength] samples of buffer [idx] of the instance data
    of frame [n] of the source, and zeros behind them. *)
Lemma shuffleChannels_frames_data (fill : Z) (clip : list VSNodeRef) (channels_in : list Z)
    (channels_out : Z) (d : ShuffleChannelsData) (n : Z) :
  shuffleChannelsCreate int64ToIntS queryAudioFormat clip channels_in channels_out
    = Some (ShuffleFilter d) ->
  let fmt := format (sc_ai d) in
  let dstLength :=
    std_min_int (numSamples (sc_ai d) - n * samplesPerFrame fmt) (samplesPerFrame fmt) in
  numChannels fmt = bitset64_count channels_out ->
  0 < bytesPerSample fmt ->
  0 <= samplesPerFrame fmt <= INT_MAX ->
  (forall (k : nat) sn, sc_sourceNodes d !! k = Some sn -> shuffleSourceOk n sn) ->
  (forall c, c ∈ clip -> numSamples (nodeInfo c) <= numSamples (sc_ai d))
  /\ (exists c, c ∈ clip /\ numSamples (nodeInfo c) = numSamples (sc_ai d))
  /\ exists f,
       shuffleChannelsGetFrame fill n arAllFramesReady d = Some (Returned f)
       /\ frameLength f = dstLength
       /\ forall (idx : nat) sn i,
            sc_sourceNodes d !! idx = Some sn -> 0 <= i < dstLength ->
            let src := nodeFrame (sc_node sn) n in
            sc_numFrames sn = numFrames (nodeInfo (sc_node sn))
            /\ frame_sample f (Z.of_nat idx) i
               = if n <? numFrames (nodeInfo (sc_node sn)) then
                   if i <? Z.min dstLength (frameLength src)
                   then frame_raw src (sc_idx sn) i
                   else Some 0
                 else Some 0.
Proof.
  intros Hcreate fmt dstLength Hnch Hbps Hspf Hsrc.
  unfold shuffleChannelsCreate in Hcreate.
  destruct (Z.ltb_spec (Z.of_nat (length channels_in)) (Z.of_nat (length clip)))
    as [|Hnodes]; [done|].
  destruct (Z.eqb_spec (bitset64_count channels_out) (Z.of_nat (length channels_in)))
    as [Hcount|]; [|done].
  simpl in Hcreate.
  destruct (shuffleChannelsBind _ _ _ _) as [bound|] eqn:Hbind; [|done].
  simpl in Hcreate.
  destruct (bound !! 0%nat) as [first|] eqn:Hfirst; [|done]. simpl in Hcreate.
  destruct (shuffleChannelsCheck _ _) as [[[d_ai nodes] err]|] eqn:Hcheck; [|done].
  simpl in Hcreate.
  destruct (queryAudioFormat _ _ _) as [qfmt|]; [|done].
  destruct err as [msg|]; [done|]. simplify_eq. simpl in *.
  pose proof (shuffleChannelsCheck_ok _ _ _ _ Hcheck) as (Hle & Hall & Hex & Hnf).
  pose proof (shuffleChannelsCheck_nodes _ _ _ _ _ Hcheck) as Hsame.
  pose proof (shuffleChannelsBind_length _ _ _ _ _ Hbind) as Hblen.
  assert (Hnlen : length nodes = length channels_in).
  { rewrite <- Hblen, <- (length_fmap sc_node nodes), Hsame. apply length_fmap. }
  assert (Hbound_clip : forall sn, sn ∈ bound -> sc_node sn ∈ clip).
  { intros sn Hsn. apply list_elem_of_lookup in Hsn as [k Hk].
    destruct (shuffleChannelsBind_lookup _ _ _ 0 _ _ _ ltac:(lia) Hbind Hk) as [Hl _].
    by eapply list_elem_of_lookup_2. }
  assert (Hclip_bound : forall c, c ∈ clip -> exists sn, sn ∈ bound /\ sc_node sn = c).
  { intros c Hc. apply list_elem_of_lookup in Hc as [k Hk].
    pose proof (lookup_lt_Some _ _ _ Hk) as Hklt.
    destruct (lookup_lt_is_Some_2 bound k) as [sn Hsn]; [lia|].
    destruct (shuffleChannelsBind_lookup _ _ _ 0 _ _ _ ltac:(lia) Hbind Hsn) as [Hl _].
    replace (Z.to_nat (Z.min (Z.of_nat (length clip) - 1) (0 + Z.of_nat k))) with k
      in Hl by lia.
    exists sn. split; [by eapply list_elem_of_lookup_2|]. congruence. }
  split; [|split].
  - intros c Hc. destruct (Hclip_bound c Hc) as (sn & Hsn & <-). by apply Hall.
  - destruct Hex as [Heq|(sn & Hsn & Heq)].
    + exists (sc_node first). split; [|done].
      apply Hbound_clip. by eapply list_elem_of_lookup_2.
    + exists (sc_node sn). split; [by apply Hbound_clip|done].
  - destruct (shuffleChannelsGetFrame_ready fill n
                {| sc_reqNodes := foldl (fun s sn => nodeSet_insert (sc_node sn) s) [] nodes;
                   sc_sourceNodes := nodes; sc_ai := setFormat d_ai qfmt |})
      as (f & Hf & Hlen & Hsamples); simpl; try done.
    + unfold fmt in Hnch. lia.
    + intros ->. apply lookup_lt_Some in Hfirst. simpl in *. lia.
    + exists f. split; [done|]. split; [done|].
      intros idx sn i Hsn Hi. simpl. split; [by eapply Hnf|].
      rewrite (Hsamples idx sn i Hsn Hi). unfold shuffleExpected. simpl.
      by rewrite (Hnf _ _ Hsn).
Qed.

End ShuffleChannels.

(** ** The channel of a selection *)

Lemma shuffleChannelsBind_idx int64ToIntS clips channels_in : forall i nodes sn,
  shuffleChannelsBind int64ToIntS clips channels_in i = Some nodes ->
  sn ∈ nodes -> sc_idx sn = 0.
Proof.
  induction channels_in as [|c rest IH]; intros i nodes sn Hbind Hsn; simpl in Hbind.
  - simplify_eq. by apply not_elem_of_nil in Hsn.
  - destruct (_ <? 0); [done|].
    destruct (clips !! _); [|done]. simpl in Hbind.
    destruct (shuffleChannelsBind _ _ rest _) as [nodes'|] eqn:Hrest; [|done].
    simpl in Hbind. simplify_eq.
    apply elem_of_cons in Hsn as [->|Hin]; [done|]. by eapply IH.
Qed.

Lemma shuffleChannelsCheck_idx nodes : forall d_ai d_ai' nodes' sn',
  (forall sn, sn ∈ nodes -> sc_idx sn = 0) ->
  shuffleChannelsCheck d_ai nodes = Some (d_ai', nodes', None) ->
  sn' ∈ nodes' ->
  sc_idx sn' = 0 /\ hasChannel (channelLayout (format (nodeInfo (sc_node sn')))) 0 = true.
Proof.
  induction nodes as [|sn rest IH]; intros d_ai d_ai' nodes' sn' Hzero H Hsn'; simpl in H.
  - simplify_eq. by apply not_elem_of_nil in Hsn'.
  - destruct (_ || _); [done|].
    rewrite (Hzero sn) in H by apply list_elem_of_here.
    destruct (hasChannel _ 0) eqn:Hhas; simpl in H; [|by simplify_eq].
    destruct (_ || _); [by simplify_eq|].
    destruct (shuffleChannelsCheck _ rest) as [[[ai1 rest1] err1]|] eqn:Hrest; [|done].
    simpl in H. simplify_eq.
    apply elem_of_cons in Hsn' as [->|Hin]; [done|].
    eapply IH; [|done|done]. intros sn0 Hsn0. apply Hzero. by apply list_elem_of_further.
Qed.

(** Whatever channels [channels_in] names, every selection of a constructed
    ShuffleChannels node reads buffer 0 of its source, and construction
    requires channel 0 in the layout of every source:
    [push_back({ node, channel })] puts the channel number into [numFrames]
    and leaves [idx] at zero. *)
Theorem shuffleChannelsCreate_reads_channel_0 (int64ToIntS : Z -> Z)
    (queryAudioFormat : VSSampleType -> Z -> Z -> option VSAudioFormat)
    (clip : list VSNodeRef) (channels_in : list Z) (channels_out : Z)
    (d : ShuffleChannelsData) (sn : ShuffleChannelsDataNode) :
  shuffleChannelsCreate int64ToIntS queryAudioFormat clip channels_in channels_out
    = Some (ShuffleFilter d) ->
  sn ∈ sc_sourceNodes d ->
  sc_idx sn = 0 /\ hasChannel (channelLayout (format (nodeInfo (sc_node sn)))) 0 = true.
Proof.
  intros Hcreate Hsn. unfold shuffleChannelsCreate in Hcreate.
  destruct (_ <? _); [done|]. destruct (negb _); [done|].
  destruct (shuffleChannelsBind _ _ _ _) as [bound|] eqn:Hbind; [|done].
  simpl in Hcreate.
  destruct (bound !! 0%nat) as [first|]; [|done]. simpl in Hcreate.
  destruct (shuffleChannelsCheck _ _) as [[[d_ai nodes] err]|] eqn:Hcheck; [|done].
  simpl in Hcreate.
  destruct (queryAudioFormat _ _ _); [|done].
  destruct err; [done|]. simplify_eq. simpl in Hsn.
  eapply shuffleChannelsCheck_idx; [|done|done].
  intros sn0 Hsn0. by eapply shuffleChannelsBind_idx.
Qed.

Lemma shuffleChannelsCreate_reads_channel_0_witness :
  exists d sn,
    shuffleChannelsCreate saturate queryAudioFormat16 [rampNode 1 44100 7000] [1] 1
      = Some (ShuffleFilter d)
    /\ sc_sourceNodes d = [sn]
    /\ (sc_idx sn = 0
        /\ hasChannel (channelLayout (format (nodeInfo (sc_node sn)))) 0 = true).
Proof.
  eexists. eexists. split; [reflexivity|]. split; [reflexivity|].
  apply (shuffleChannelsCreate_reads_channel_0 saturate queryAudioFormat16
           [rampNode 1 44100 7000] [1] 1 _ _ eq_refl).
  apply list_elem_of_here.
Defined.

(** ** The frames of a constructed node *)

Section ShuffleSelections.

Variable int64ToIntS : Z -> Z.
Variable queryAudioFormat : VSSampleType -> Z -> Z -> option VSAudioFormat.

(** The selections of a constructed node: selection [idx] is bound to the
    clip at index [min (numSrcNodes - 1) idx], reads buffer 0 of it and
    knows its frame count. *)
Lemma shuffleChannelsCreate_selections clip channels_in channels_out d :
  shuffleChannelsCreate int64ToIntS queryAudioFormat clip channels_in channels_out
    = Some (ShuffleFilter d) ->
  length (sc_sourceNodes d) = length channels_in
  /\ forall (idx : nat) sn, sc_sourceNodes d !! idx = Some sn ->
       clip !! Nat.min (length clip - 1) idx = Some (sc_node sn)
       /\ sc_idx sn = 0
       /\ sc_numFrames sn = numFrames (nodeInfo (sc_node sn)).
Proof.
  intros Hcreate. unfold shuffleChannelsCreate in Hcreate.
  destruct (_ <? _); [done|]. destruct (negb _); [done|].
  destruct (shuffleChannelsBind _ _ _ _) as [bound|] eqn:Hbind; [|done].
  simpl in Hcreate.
  destruct (bound !! 0%nat) as [first|]; [|done]. simpl in Hcreate.
  destruct (shuffleChannelsCheck _ _) as [[[d_ai nodes] err]|] eqn:Hcheck; [|done].
  simpl in Hcreate.
  destruct (queryAudioFormat _ _ _); [|done].
  destruct err; [done|]. simplify_eq. simpl.
  pose proof (shuffleChannelsCheck_nodes _ _ _ _ _ Hcheck) as Hnodes.
  pose proof (shuffleChannelsCheck_ok _ _ _ _ Hcheck) as (_ & _ & _ & Hnf).
  pose proof (shuffleChannelsBind_length _ _ _ _ _ Hbind) as Hblen.
  assert (Hnlen : length nodes = length channels_in).
  { rewrite <- Hblen, <- (length_fmap sc_node nodes), Hnodes. apply length_fmap. }
  split; [done|]. intros idx sn Hsn.
  destruct (lookup_lt_is_Some_2 bound idx) as [bn Hbn].
  { apply lookup_lt_Some in Hsn. lia. }
  assert (Hbnode : sc_node bn = sc_node sn).
  { assert ((sc_node <$> nodes) !! idx = Some (sc_node sn)) as Hm
      by (by rewrite list_lookup_fmap, Hsn).
    rewrite Hnodes, list_lookup_fmap, Hbn in Hm. simpl in Hm. congruence. }
  destruct (shuffleChannelsBind_lookup _ _ _ 0 _ _ _ ltac:(lia) Hbind Hbn) as [Hl Hpos].
  split; [|split].
  - replace (Nat.min (length clip - 1) idx)
      with (Z.to_nat (Z.min (Z.of_nat (length clip) - 1) (0 + Z.of_nat idx))) by lia.
    by rewrite <- Hbnode.
  - eapply (shuffleChannelsCheck_idx bound); [|exact Hcheck|by eapply list_elem_of_lookup_2].
    intros sn0 Hsn0. by eapply shuffleChannelsBind_idx.
  - by eapply Hnf.
Qed.

(** The frames of a constructed ShuffleChannels node, for a frame whose
    remaining sample count fits an [int].  The node has as many samples as
    the longest clip; frame [n] is [min spf remaining] samples long, and
    destination channel [idx] holds, at index [i], sample [i] of buffer 0
    of frame [n] of the clip at index [min (numSrcNodes - 1) idx] when that
    clip has a frame [n] and [i] is below its length, and zero otherwise,
    whatever channel [channels_in] names. *)
Theorem shuffleChannels_frames_in_range (fill : Z) (clip : list VSNodeRef)
    (channels_in : list Z) (channels_out : Z) (d : ShuffleChannelsData) (n : Z) :
  shuffleChannelsCreate int64ToIntS queryAudioFormat clip channels_in channels_out
    = Some (ShuffleFilter d) ->
  let fmt := format (sc_ai d) in
  let spf := samplesPerFrame fmt in
  let dstLength := Z.min spf (numSamples (sc_ai d) - n * spf) in
  numChannels fmt = bitset64_count channels_out ->
  0 < bytesPerSample fmt ->
  0 <= spf <= INT_MAX ->
  0 <= numSamples (sc_ai d) - n * spf <= INT_MAX ->
  (forall c, c ∈ clip -> n < numFrames (nodeInfo c) ->
     0 <= frameLength (nodeFrame c n)
     /\ exists buf, getReadPtr (nodeFrame c n) 0 = Some buf
                    /\ frameLength (nodeFrame c n) <= Z.of_nat (length buf)) ->
  (forall c, c ∈ clip -> numSamples (nodeInfo c) <= numSamples (sc_ai d))
  /\ (exists c, c ∈ clip /\ numSamples (nodeInfo c) = numSamples (sc_ai d))
  /\ exists f,
       shuffleChannelsGetFrame fill n arAllFramesReady d = Some (Returned f)
       /\ frameLength f = dstLength
       /\ forall (idx : nat) i,
            (idx < length channels_in)%nat -> 0 <= i < dstLength ->
            exists c,
              clip !! Nat.min (length clip - 1) idx = Some c
              /\ frame_sample f (Z.of_nat idx) i
                 = if (n <? numFrames (nodeInfo c)) && (i <? frameLength (nodeFrame c n))
                   then frame_raw (nodeFrame c n) 0 i
                   else Some 0.
Proof.
  intros Hcreate fmt spf dstLength Hnch Hbps Hspf Hrem Hsrc.
  destruct (shuffleChannelsCreate_selections _ _ _ _ Hcreate) as [Hlen Hsel].
  assert (Hdst : std_min_int (numSamples (sc_ai d) - n * spf) spf = dstLength).
  { rewrite std_min_int_spec; [unfold dstLength; lia| |];
      unfold in_int, INT_MIN, INT_MAX in *; lia. }
  destruct (shuffleChannels_frames_data int64ToIntS queryAudioFormat fill clip channels_in
              channels_out d n Hcreate Hnch Hbps Hspf)
    as (Hle & Hex & f & Hf & Hfl & Hall).
  { intros k sn Hsn. destruct (Hsel k sn Hsn) as (Hc & Hidx & Hnf).
    unfold shuffleSourceOk. rewrite Hidx, Hnf. cbn zeta.
    apply Hsrc. by eapply list_elem_of_lookup_2. }
  fold fmt spf in Hfl, Hall. rewrite Hdst in Hfl, Hall.
  split; [done|]. split; [done|]. exists f. split; [done|]. split; [done|].
  intros idx i Hidx Hi.
  destruct (lookup_lt_is_Some_2 (sc_sourceNodes d) idx) as [sn Hsn]; [lia|].
  destruct (Hsel idx sn Hsn) as (Hc & Hz & _).
  exists (sc_node sn). split; [done|].
  destruct (Hall idx sn i Hsn Hi) as [_ ->]. rewrite Hz.
  destruct (Z.ltb_spec n (numFrames (nodeInfo (sc_node sn)))); simpl; [|done].
  destruct (Z.ltb_spec i (frameLength (nodeFrame (sc_node sn) n)));
    destruct (Z.ltb_spec i (Z.min dstLength (frameLength (nodeFrame (sc_node sn) n))));
    try done; lia.
Qed.

End ShuffleSelections.

Lemma shuffleChannels_frames_in_range_witness :
  exists d,
    shuffleChannelsCreate saturate queryAudioFormat16 shuffleClips [1; 0] 3
      = Some (ShuffleFilter d)
    /\ ((forall c, c ∈ shuffleClips -> numSamples (nodeInfo c) <= numSamples (sc_ai d))
        /\ (exists c, c ∈ shuffleClips /\ numSamples (nodeInfo c) = numSamples (sc_ai d))
        /\ exists f,
             shuffleChannelsGetFrame 0 1 arAllFramesReady d = Some (Returned f)
             /\ frameLength f
                = Z.min (samplesPerFrame (format (sc_ai d)))
                    (numSamples (sc_ai d) - 1 * samplesPerFrame (format (sc_ai d)))
             /\ forall (idx : nat) i,
                  (idx < length [1; 0])%nat ->
                  0 <= i < Z.min (samplesPerFrame (format (sc_ai d)))
                             (numSamples (sc_ai d)
                              - 1 * samplesPerFrame (format (sc_ai d))) ->
                  exists c,
                    shuffleClips !! Nat.min (length shuffleClips - 1) idx = Some c
                    /\ frame_sample f (Z.of_nat idx) i
                       = if (1 <? numFrames (nodeInfo c))
                            && (i <? frameLength (nodeFrame c 1))
                         then frame_raw (nodeFrame c 1) 0 i
                         else Some 0).
Proof.
  eexists. split; [reflexivity|].
  apply (shuffleChannels_frames_in_range saturate queryAudioFormat16 0 shuffleClips
           [1; 0] 3 _ 1).
  - reflexivity.
  - reflexivity.
  - simpl. lia.
  - simpl. unfold INT_MAX. lia.
  - split; apply Z.leb_le; reflexivity.
  - intros c Hc _.
    apply elem_of_cons in Hc as [->|Hc];
      [|apply elem_of_cons in Hc as [->|Hc]; [|by apply elem_of_nil in Hc]];
      (split; [simpl; lia|]); (eexists; split; [reflexivity|]);
      rewrite rampBuffer_length; simpl; lia.
Defined.

(** ** The channel that is named *)

(** C7, at [channels_in = [1; 0]] on the stereo ramp of 7000 samples: in
    frame 2, sample 5 of destination channel 0 is 6005, the sample of source
    channel 0, where the selected source channel 1 holds 7005; destination
    channel 1 holds 6005 as well.  [push_back({ node, channel })] puts the
    channel number into [numFrames] and leaves [idx] at zero, and the
    callback copies from buffer [idx]. *)
Theorem shuffleChannels_copies_channel_0 :
  shuffleSample saturate queryAudioFormat16 [rampNode 1 44100 7000] [1; 0] 3 2 0 5
    = Some 6005
  /\ shuffleSample saturate queryAudioFormat16 [rampNode 1 44100 7000] [1; 0] 3 2 1 5
     = Some 6005
  /\ node_sample (rampNode 1 44100 7000) 0 (2 * 3000 + 5) = Some 6005
  /\ node_sample (rampNode 1 44100 7000) 1 (2 * 3000 + 5) = Some 7005.
Proof. vm_compute. repeat split. Qed.

(** * SplitChannels *)

Section SplitCreate.

Variable queryAudioFormat : VSSampleType -> Z -> Z -> option VSAudioFormat.
Variable vsacFrontLeft : Z.

(** What the filter relies on: a format that is found has the sample type,
    the bit depth and the channel layout that were asked for. *)
Hypothesis queryAudioFormat_fields : forall st bits layout fmt,
  queryAudioFormat st bits layout = Some fmt ->
  sampleType fmt = st /\ bitsPerSample fmt = bits /\ channelLayout fmt = layout.

Lemma splitChannelsInfos_spec fmt count : forall ai,
  queryAudioFormat (sampleType (format ai)) (bitsPerSample (format ai))
    (Z.shiftl 1 vsacFrontLeft) = Some fmt ->
  splitChannelsInfos queryAudioFormat vsacFrontLeft ai count
  = Some (replicate count (setFormat ai fmt)).
Proof.
  induction count as [|count IH]; intros ai Hq; simpl; [done|].
  rewrite Hq. simpl.
  destruct (queryAudioFormat_fields _ _ _ _ Hq) as (Hst & Hbits & _).
  rewrite (IH (setFormat ai fmt)); simpl; [done|].
  by rewrite Hst, Hbits.
Qed.

(** C9. Every output of SplitChannels gets the format found for the layout
    [1 << vsacFrontLeft] with the sample type and bit depth of the source,
    and so the layout [1 << vsacFrontLeft], whatever its index [k]: there is
    one output per source channel, and the identity of channel [k] is gone. *)
Theorem splitChannelsCreate_formats (clip : VSNodeRef) (fmt : VSAudioFormat) :
  queryAudioFormat (sampleType (format (nodeInfo clip)))
    (bitsPerSample (format (nodeInfo clip))) (Z.shiftl 1 vsacFrontLeft) = Some fmt ->
  exists d,
    splitChannelsCreate queryAudioFormat vsacFrontLeft clip = Some d
    /\ length (sp_ai d) = Z.to_nat (numChannels (format (nodeInfo clip)))
    /\ forall (k : nat) ai, sp_ai d !! k = Some ai ->
         format ai = fmt
         /\ channelLayout (format ai) = Z.shiftl 1 vsacFrontLeft
         /\ sampleRate ai = sampleRate (nodeInfo clip)
         /\ numSamples ai = numSamples (nodeInfo clip).
Proof.
  intros Hq. unfold splitChannelsCreate.
  rewrite (splitChannelsInfos_spec fmt _ _ Hq). simpl.
  eexists; split; [done|]. simpl. split; [by rewrite length_replicate|].
  intros k ai Hk. apply lookup_replicate in Hk as [-> _]. simpl.
  by destruct (queryAudioFormat_fields _ _ _ _ Hq) as (_ & _ & ->).
Qed.

End SplitCreate.

Lemma queryAudioFormat16_fields st bits layout fmt :
  queryAudioFormat16 st bits layout = Some fmt ->
  sampleType fmt = st /\ bitsPerSample fmt = bits /\ channelLayout fmt = layout.
Proof.
  unfold queryAudioFormat16. case_match; [|done]. by intros [= <-].
Qed.

Lemma splitChannelsCreate_formats_witness :
  exists d,
    splitChannelsCreate queryAudioFormat16 0 (rampNode 1 44100 7000) = Some d
    /\ length (sp_ai d) = Z.to_nat (numChannels (format (nodeInfo (rampNode 1 44100 7000))))
    /\ forall (k : nat) ai, sp_ai d !! k = Some ai ->
         format ai = mono16
         /\ channelLayout (format ai) = Z.shiftl 1 0
         /\ sampleRate ai = sampleRate (nodeInfo (rampNode 1 44100 7000))
         /\ numSamples ai = numSamples (nodeInfo (rampNode 1 44100 7000)).
Proof.
  apply (splitChannelsCreate_formats queryAudioFormat16 0 queryAudioFormat16_fields
           (rampNode 1 44100 7000) mono16).
  reflexivity.
Defined.

(** ** Frames *)

Section SplitFrames.

Variable queryAudioFormat : VSSampleType -> Z -> Z -> option VSAudioFormat.
Variable vsacFrontLeft : Z.

Hypothesis queryAudioFormat_fields : forall st bits layout fmt,
  queryAudioFormat st bits layout = Some fmt ->
  sampleType fmt = st /\ bitsPerSample fmt = bits /\ channelLayout fmt = layout.

(** Output [outIdx] of SplitChannels carries channel [outIdx] of the source.
    For a well-formed source whose one-channel format has the sample size
    and the frame size of the source format, every output asks for source
    frame [n] for its frame [n], its frames are as long as those of the
    source, and sample [k] of its only channel is sample [k] of channel
    [outIdx] of the source. *)
Theorem splitChannels_samples (fill : Z) (clip : VSNodeRef) (fmt : VSAudioFormat) :
  wf_node clip ->
  queryAudioFormat (sampleType (format (nodeInfo clip)))
    (bitsPerSample (format (nodeInfo clip))) (Z.shiftl 1 vsacFrontLeft) = Some fmt ->
  bytesPerSample fmt = bytesPerSample (format (nodeInfo clip)) ->
  samplesPerFrame fmt = samplesPerFrame (format (nodeInfo clip)) ->
  1 <= numChannels fmt ->
  exists d,
    splitChannelsCreate queryAudioFormat vsacFrontLeft clip = Some d
    /\ forall outIdx, 0 <= outIdx < numChannels (format (nodeInfo clip)) ->
         (forall n, 0 <= n < numFrames (nodeInfo clip) ->
            splitChannelsGetFrame fill n arInitial outIdx d = Some (Requested [n])
            /\ frameLength <$> returned (splitChannelsGetFrame fill n arAllFramesReady outIdx d)
               = Some (frameLength (nodeFrame clip n)))
         /\ forall k, 0 <= k < numSamples (nodeInfo clip) ->
              stream_sample (samplesPerFrame (format (nodeInfo clip)))
                (fun n => splitChannelsGetFrame fill n arAllFramesReady outIdx d) 0 k
              = node_sample clip outIdx k.
Proof.
  intros Hwf Hq Hbps Hspf Hnch.
  pose proof (wf_spf _ Hwf) as Hspf0. pose proof (wf_bps _ Hwf) as Hbps0.
  unfold splitChannelsCreate.
  rewrite (splitChannelsInfos_spec queryAudioFormat vsacFrontLeft queryAudioFormat_fields
             fmt _ _ Hq). cbn [mbind option_bind].
  eexists; split; [reflexivity|]. intros outIdx Hout.
  set (spf := samplesPerFrame (format (nodeInfo clip))) in *.
  assert (Hframe : forall n, 0 <= n < numFrames (nodeInfo clip) ->
            exists f,
              splitChannelsGetFrame fill n arAllFramesReady outIdx
                {| sp_ai := replicate (Z.to_nat (numChannels (format (nodeInfo clip))))
                              (setFormat (nodeInfo clip) fmt);
                   sp_node := clip;
                   sp_numChannels := numChannels (format (nodeInfo clip)) |}
              = Some (Returned f)
              /\ frameLength f = frameLength (nodeFrame clip n)
              /\ forall i, 0 <= i < frameLength (nodeFrame clip n) ->
                   frame_raw f 0 i = frame_raw (nodeFrame clip n) outIdx i).
  { intros n Hn. destruct (wf_frame _ Hwf n Hn) as [Hshape Hlen]. fold spf in Hlen.
    assert (Hpos : 0 < numSamples (nodeInfo clip) - n * spf).
    { rewrite (wf_frames _ Hwf) in Hn. fold spf in Hn.
      assert (n * spf < numSamples (nodeInfo clip)); [|lia].
      destruct (Z_lt_ge_dec (n * spf) (numSamples (nodeInfo clip))); [done|].
      assert ((numSamples (nodeInfo clip) + spf - 1) / spf < n + 1); [|lia].
      apply Z.div_lt_upper_bound; [lia|]. nia. }
    destruct (getReadPtr_shape_Some _ _ outIdx Hshape Hout ltac:(fold spf; lia))
      as (r & Hr & Hrlen). fold spf in Hrlen.
    unfold splitChannelsGetFrame; simpl.
    destruct (Z.ltb_spec outIdx 0); [lia|].
    rewrite lookup_replicate_2 by lia. simpl.
    destruct (getReadPtr_shape_Some fmt
                (newAudioFrame fill fmt (sampleRate (nodeInfo clip))
                   (getFrameLength (nodeFrame clip n))) 0
                (newAudioFrame_shape _ _ _ _) ltac:(lia) ltac:(lia))
      as (w & Hw & Hwlen).
    rewrite Hw, Hr. simpl.
    unfold getFrameLength. set (len := frameLength (nodeFrame clip n)) in *.
    rewrite (memcpy_bytes (bytesPerSample fmt) w 0 r 0 (bytesPerSample fmt * len) 0 0 len)
      by lia.
    simpl. eexists; split; [done|]. split; [done|].
    intros i Hi.
    rewrite frame_raw_setChannel_eq
      by (simpl; rewrite length_replicate; lia).
    rewrite copy_samples_get by lia.
    destruct (Z.leb_spec 0 i); [|lia]. destruct (Z.ltb_spec i (0 + len)); [|lia]. simpl.
    rewrite (frame_raw_getReadPtr _ _ _ _ Hr). f_equal. lia. }
  split.
  - intros n Hn. split; [reflexivity|].
    destruct (Hframe n Hn) as (f & -> & Hlen & _). simpl. by rewrite Hlen.
  - intros k Hk.
    pose proof (Z.div_mod k spf ltac:(lia)) as Hdm.
    pose proof (Z.mod_pos_bound k spf ltac:(lia)) as Hmod.
    pose proof (Z.div_pos k spf ltac:(lia) ltac:(lia)) as Hdiv.
    destruct (node_sample_frame clip outIdx (k / spf) (k mod spf) Hwf)
      as (HFr & Hlt & Hs); try (fold spf; lia).
    fold spf in Hs. replace (k / spf * spf + k mod spf) with k in Hs by lia.
    destruct (Hframe _ HFr) as (f & Hf & Hlen & Hraw).
    unfold stream_sample. rewrite Hf. simpl.
    rewrite frame_sample_raw by lia. rewrite Hraw by lia. done.
Qed.

End SplitFrames.

Lemma splitChannels_samples_witness :
  exists d,
    splitChannelsCreate queryAudioFormat16 0 (rampNode 1 44100 7000) = Some d
    /\ forall outIdx, 0 <= outIdx < numChannels (format (nodeInfo (rampNode 1 44100 7000))) ->
         (forall n, 0 <= n < numFrames (nodeInfo (rampNode 1 44100 7000)) ->
            splitChannelsGetFrame 0 n arInitial outIdx d = Some (Requested [n])
            /\ frameLength <$> returned (splitChannelsGetFrame 0 n arAllFramesReady outIdx d)
               = Some (frameLength (nodeFrame (rampNode 1 44100 7000) n)))
         /\ forall k, 0 <= k < numSamples (nodeInfo (rampNode 1 44100 7000)) ->
              stream_sample (samplesPerFrame (format (nodeInfo (rampNode 1 44100 7000))))
                (fun n => splitChannelsGetFrame 0 n arAllFramesReady outIdx d) 0 k
              = node_sample (rampNode 1 44100 7000) outIdx k.
Proof.
  apply (splitChannels_samples queryAudioFormat16 0 queryAudioFormat16_fields 0
           (rampNode 1 44100 7000) mono16).
  - apply rampNode_wf. unfold INT_MAX. lia.
  - reflexivity.
  - reflexivity.
  - reflexivity.
  - simpl. lia.
Defined.

(** * AssumeSampleRate *)

(** With a reference clip [src] and no [samplerate], the constructor reads the
    sample rate of [clip] itself: the descriptor that comes out is the one of
    [clip], whatever the rate of [src]. *)
Lemma assumeSampleRateCreate_src int64ToIntS clip src :
  1 <= sampleRate (nodeInfo clip) ->
  assumeSampleRateCreate int64ToIntS clip (Some src) None
  = AssumeSampleRateFilter (nodeInfo clip) {| asr_node := clip |}.
Proof.
  intros H. unfold assumeSampleRateCreate; simpl.
  destruct (Z.ltb_spec (sampleRate (nodeInfo clip)) 1); [lia|].
  by destruct (nodeInfo clip).
Qed.

(** With an explicit [samplerate] and no reference clip, the descriptor is
    the one of [clip] with the sample rate replaced. *)
Lemma assumeSampleRateCreate_samplerate int64ToIntS clip rate :
  1 <= int64ToIntS rate ->
  assumeSampleRateCreate int64ToIntS clip None (Some rate)
  = AssumeSampleRateFilter (setSampleRate (nodeInfo clip) (int64ToIntS rate))
      {| asr_node := clip |}.
Proof.
  intros H. unfold assumeSampleRateCreate; simpl.
  by destruct (Z.ltb_spec (int64ToIntS rate) 1); [lia|].
Qed.

(** The frames of an AssumeSampleRate node are those of its clip. *)
Lemma assumeSampleRateGetframe_passthrough n d :
  assumeSampleRateGetframe n arInitial d = Some (Requested [n])
  /\ assumeSampleRateGetframe n arAllFramesReady d
     = Some (Returned (nodeFrame (asr_node d) n)).
Proof. done. Qed.

(** C2, at a 44100 Hz clip with a 48000 Hz reference clip and no explicit
    rate: the node that is built keeps 44100 Hz, the rate of the clip, and
    not the 48000 Hz of the reference. *)
Theorem assumeSampleRateCreate_ignores_src :
  assumeSampleRateCreate saturate (rampNode 1 44100 7000) (Some (rampNode 2 48000 7000)) None
  = AssumeSampleRateFilter (nodeInfo (rampNode 1 44100 7000))
      {| asr_node := rampNode 1 44100 7000 |}
  /\ sampleRate (nodeInfo (rampNode 1 44100 7000)) = 44100
  /\ sampleRate (nodeInfo (rampNode 2 48000 7000)) = 48000.
Proof. repeat split. Qed.

(** ** The descriptor that is passed on *)

(** Constructed with a reference clip and no rate, AssumeSampleRate hands on
    the descriptor of its input clip unchanged, sample rate included. *)
Theorem assumeSampleRate_src_keeps_descriptor (int64ToIntS : Z -> Z) (clip src : VSNodeRef) :
  1 <= sampleRate (nodeInfo clip) ->
  assumeSampleRateCreate int64ToIntS clip (Some src) None
  = AssumeSampleRateFilter (nodeInfo clip) {| asr_node := clip |}.
Proof. apply assumeSampleRateCreate_src. Qed.

Lemma assumeSampleRate_src_keeps_descriptor_witness :
  assumeSampleRateCreate saturate (rampNode 1 44100 7000) (Some (rampNode 2 48000 7000)) None
  = AssumeSampleRateFilter (nodeInfo (rampNode 1 44100 7000))
      {| asr_node := rampNode 1 44100 7000 |}.
Proof.
  apply (assumeSampleRate_src_keeps_descriptor saturate (rampNode 1 44100 7000)
           (rampNode 2 48000 7000)).
  simpl. lia.
Defined.

(** Constructed with an explicit rate (of at least 1) and no reference clip,
    AssumeSampleRate hands on the descriptor of its input clip with the sample
    rate replaced, and its frames are the frames of the clip. *)
Theorem assumeSampleRate_explicit_rate (int64ToIntS : Z -> Z) (clip : VSNodeRef)
    (rate n : Z) :
  1 <= int64ToIntS rate ->
  exists d,
    assumeSampleRateCreate int64ToIntS clip None (Some rate)
    = AssumeSampleRateFilter (setSampleRate (nodeInfo clip) (int64ToIntS rate)) d
    /\ assumeSampleRateGetframe n arInitial d = Some (Requested [n])
    /\ assumeSampleRateGetframe n arAllFramesReady d = Some (Returned (nodeFrame clip n)).
Proof.
  intros H. eexists. split; [by apply assumeSampleRateCreate_samplerate|]. done.
Qed.

Lemma assumeSampleRate_explicit_rate_witness :
  exists d,
    assumeSampleRateCreate saturate (rampNode 1 44100 7000) None (Some 48000)
    = AssumeSampleRateFilter
        (setSampleRate (nodeInfo (rampNode 1 44100 7000)) (saturate 48000)) d
    /\ assumeSampleRateGetframe 2 arInitial d = Some (Requested [2])
    /\ assumeSampleRateGetframe 2 arAllFramesReady d
       = Some (Returned (nodeFrame (rampNode 1 44100 7000) 2)).
Proof.
  apply (assumeSampleRate_explicit_rate saturate (rampNode 1 44100 7000) 48000 2).
  vm_compute. discriminate.
Defined.

(** ** Construction errors *)

(** The constructor fails exactly when both [src] and [samplerate] are
    given, or neither, or the sample rate that results is below 1: the rate
    of the input clip when [src] is given, the converted [samplerate]
    otherwise. *)
Theorem assumeSampleRateCreate_fails_iff (int64ToIntS : Z -> Z) (clip : VSNodeRef)
    (src : option VSNodeRef) (samplerate : option Z) :
  (exists msg, assumeSampleRateCreate int64ToIntS clip src samplerate
               = AssumeSampleRateError msg)
  <-> (is_Some src /\ is_Some samplerate)
      \/ (src = None /\ samplerate = None)
      \/ (is_Some src /\ sampleRate (nodeInfo clip) < 1)
      \/ (src = None /\ exists v, samplerate = Some v /\ int64ToIntS v < 1).
Proof.
  unfold assumeSampleRateCreate.
  destruct src as [s|], samplerate as [v|]; simpl.
  - split; [intros _; left; split; by eexists|intros _; by eexists].
  - destruct (Z.ltb_spec (sampleRate (nodeInfo clip)) 1).
    + split; [intros _|intros _; by eexists]. right; right; left. split; [by eexists|done].
    + split; [by intros [? ?]|].
      intros [[_ []]|[[? _]|[[_ ?]|[? _]]]]; try done; lia.
  - destruct (Z.ltb_spec (int64ToIntS v) 1).
    + split; [intros _|intros _; by eexists]. do 3 right. split; [done|]. by exists v.
    + split; [by intros [? ?]|].
      intros [[[] _]|[[_ ?]|[[[] _]|[_ (v' & Hv & ?)]]]]; try done. simplify_eq. lia.
  - split; [intros _; right; by left|intros _; by eexists].
Qed.

(** * BlankAudio *)

Section BlankFrame.

Variables (fill : Z) (d : BlankAudioData).

Let fmt := format (ba_ai d).

Hypothesis Hchannels : 0 <= numChannels fmt.
Hypothesis Hbps : 0 < bytesPerSample fmt.
Hypothesis Hspf : 0 <= samplesPerFrame fmt <= INT_MAX.

(** A request that finds no stored frame allocates a frame of zeros. *)
Lemma blankAudioGetframe_alloc n allocated :
  ba_f d = None -> blankInRange d n ->
  exists f,
    blankFrame d n f
    /\ blankAudioGetframe fill n arInitial d allocated
       = Some (Some {| handle_id := allocated; handle_frame := f |},
               (if ba_keep d
                then setBlankFrame d (Some {| handle_id := allocated; handle_frame := f |})
                else d),
               S allocated).
Proof.
  intros Hf Hn. unfold blankInRange in Hn. unfold blankFrame, blankAudioGetframe.
  rewrite Hf. fold fmt in Hn |- *.
  set (remaining := numSamples (ba_ai d) - n * samplesPerFrame fmt) in *.
  assert (Hsamples : std_min_int (samplesPerFrame fmt) remaining
                     = Z.min (samplesPerFrame fmt) remaining).
  { apply std_min_int_spec; unfold in_int, INT_MIN, INT_MAX in *; lia. }
  rewrite Hsamples. set (samples := Z.min (samplesPerFrame fmt) remaining).
  destruct (for_loop_inv
              (fun k f => frame_shape fmt f /\ frameLength f = samples
                          /\ forall ch i, 0 <= ch < k -> 0 <= i < samples ->
                                frame_raw f ch i = Some 0)
              0 (numChannels fmt)
              (fun channel frame =>
                 w ← getReadPtr frame channel;
                 w0 ← memset0 (bytesPerSample fmt) w 0 (samples * bytesPerSample fmt);
                 Some (setChannel frame channel w0))
              (newAudioFrame fill fmt (sampleRate (ba_ai d)) samples))
    as (f & -> & Hshape & Hlen & Hall).
  - done.
  - split; [apply newAudioFrame_shape|]. split; [done|]. intros; lia.
  - intros k f0 Hk (Hshape & Hlen & Hall).
    destruct (getReadPtr_shape_Some fmt f0 k) as (w & Hw & Hwlen); [done|lia|lia|].
    rewrite Hw. simpl.
    destruct (memset0_bytes (bytesPerSample fmt) w 0 (samples * bytesPerSample fmt)
                0 samples) as (w0 & -> & Hw0len & Hw0);
      try (subst samples; lia).
    simpl. eexists. split; [done|].
    split; [apply setChannel_shape; [done|lia]|]. split; [done|].
    intros ch i Hch' Hi. destruct (decide (ch = k)) as [->|Hne].
    + rewrite frame_raw_setChannel_eq by (destruct Hshape; lia). rewrite Hw0.
      destruct (Z.leb_spec 0 i); [|lia]. by destruct (Z.ltb_spec i (0 + samples)); [|lia].
    + rewrite frame_raw_setChannel_ne by lia. apply Hall; lia.
  - simpl. exists f. split.
    + split; [done|]. intros ch i Hch' Hi. rewrite frame_sample_raw by done.
      apply Hall; lia.
    + by destruct (ba_keep d).
Qed.

End BlankFrame.

(** With [keep] set, a request that finds a stored frame hands out a
    reference to it, allocates nothing and leaves the node as it is. *)
Lemma blankAudioGetframe_stored fill n d h allocated :
  ba_f d = Some h -> ba_keep d = true ->
  blankAudioGetframe fill n arInitial d allocated = Some (Some h, d, allocated).
Proof. intros Hf Hk. unfold blankAudioGetframe. rewrite Hf. simpl. by rewrite Hk, Hf. Qed.

Lemma blankAudioRequests_stored fill ns : forall d h allocated,
  ba_f d = Some h -> ba_keep d = true ->
  blankAudioRequests fill ns d allocated
  = Some (replicate (length ns) (Some h), d, allocated).
Proof.
  induction ns as [|n ns IH]; intros d h allocated Hf Hk;
    cbn [blankAudioRequests length replicate]; [done|].
  rewrite (blankAudioGetframe_stored _ _ _ h) by done. cbn [mbind option_bind].
  by rewrite (IH _ h) by done.
Qed.

(** BlankAudio with [keep]: the first request stores the frame it allocates;
    every later request, for whatever frame number, hands out a reference to
    that same frame, and the stored frame is never replaced. *)
Lemma blankAudio_keep_memoizes fill d n0 ns allocated :
  ba_f d = None -> ba_keep d = true ->
  0 <= numChannels (format (ba_ai d)) ->
  0 < bytesPerSample (format (ba_ai d)) ->
  0 <= samplesPerFrame (format (ba_ai d)) <= INT_MAX ->
  blankInRange d n0 ->
  exists f,
    let h := {| handle_id := allocated; handle_frame := f |} in
    blankFrame d n0 f
    /\ blankAudioRequests fill (n0 :: ns) d allocated
       = Some (replicate (S (length ns)) (Some h), setBlankFrame d (Some h), S allocated).
Proof.
  intros Hf Hk Hch Hbps Hspf Hn0.
  destruct (blankAudioGetframe_alloc fill d Hch Hbps Hspf n0 allocated Hf Hn0)
    as (f & Hblank & Hget).
  exists f. split; [done|]. cbn [blankAudioRequests]. rewrite Hget, Hk.
  cbn [mbind option_bind].
  by rewrite (blankAudioRequests_stored _ _ _ {| handle_id := allocated; handle_frame := f |}).
Qed.

(** BlankAudio without [keep]: every request allocates a frame of its own (the
    identities are consecutive allocation numbers), all zeros and of the
    length of the frame asked for; the node stays as it is. *)
Lemma blankAudio_nokeep_allocates fill d ns : forall allocated,
  ba_f d = None -> ba_keep d = false ->
  0 <= numChannels (format (ba_ai d)) ->
  0 < bytesPerSample (format (ba_ai d)) ->
  0 <= samplesPerFrame (format (ba_ai d)) <= INT_MAX ->
  Forall (blankInRange d) ns ->
  exists rs,
    blankAudioRequests fill ns d allocated = Some (rs, d, (allocated + length ns)%nat)
    /\ length rs = length ns
    /\ forall (k : nat) n, ns !! k = Some n ->
         exists f, rs !! k = Some (Some {| handle_id := (allocated + k)%nat;
                                           handle_frame := f |})
                   /\ blankFrame d n f.
Proof.
  induction ns as [|n ns IH]; intros allocated Hf Hk Hch Hbps Hspf Hns;
    cbn [blankAudioRequests].
  - exists []. rewrite Nat.add_0_r. by repeat split.
  - apply Forall_cons in Hns as [Hn Hns].
    destruct (blankAudioGetframe_alloc fill d Hch Hbps Hspf n allocated Hf Hn)
      as (f & Hblank & Hget).
    rewrite Hget, Hk. cbn [mbind option_bind].
    destruct (IH (S allocated) Hf Hk Hch Hbps Hspf Hns) as (rs & -> & Hlen & Hrs).
    simpl. eexists. split; [do 3 f_equal; lia|]. split; [simpl; lia|].
    intros [|k] n' Hn'; simpl in Hn'.
    + simplify_eq. exists f. simpl. rewrite Nat.add_0_r. by split.
    + destruct (Hrs k n' Hn') as (f' & Hf' & Hblank'). exists f'. simpl.
      split; [|done]. rewrite Hf'. do 3 f_equal. lia.
Qed.

(** ** With and without [keep] *)

(** With [keep], the first request (for a frame whose remaining sample count
    fits an [int]) allocates a frame of zeros and stores it; every later
    request, for whatever frame numbers [ns], hands out a reference to that
    same frame, nothing more is allocated and the stored frame stays. *)
Theorem blankAudio_keep_returns_stored_frame (fill : Z) (d : BlankAudioData) (n0 : Z)
    (ns : list Z) (allocated : nat) :
  ba_f d = None -> ba_keep d = true ->
  0 <= numChannels (format (ba_ai d)) ->
  0 < bytesPerSample (format (ba_ai d)) ->
  0 <= samplesPerFrame (format (ba_ai d)) <= INT_MAX ->
  blankInRange d n0 ->
  exists f,
    let h := {| handle_id := allocated; handle_frame := f |} in
    blankFrame d n0 f
    /\ blankAudioRequests fill (n0 :: ns) d allocated
       = Some (replicate (S (length ns)) (Some h), setBlankFrame d (Some h), S allocated).
Proof. intros. by apply blankAudio_keep_memoizes. Qed.

Lemma blankAudio_keep_returns_stored_frame_witness :
  exists f,
    let h := {| handle_id := 0%nat; handle_frame := f |} in
    blankFrame (blankShort true) 0 f
    /\ blankAudioRequests 0 [0; 2; 1; 2] (blankShort true) 0
       = Some (replicate 4 (Some h), setBlankFrame (blankShort true) (Some h), 1%nat).
Proof.
  apply (blankAudio_keep_returns_stored_frame 0 (blankShort true) 0 [2; 1; 2] 0%nat).
  - reflexivity.
  - reflexivity.
  - simpl. lia.
  - simpl. lia.
  - simpl. unfold INT_MAX. lia.
  - unfold blankInRange. simpl. unfold INT_MAX. lia.
Defined.

(** Without [keep], every request (for frames whose remaining sample count
    fits an [int]) allocates a frame of its own, all zeros and
    [min samplesPerFrame (numSamples - n * samplesPerFrame)] samples long, and
    leaves the node as it is. *)
Theorem blankAudio_nokeep_fresh_zero_frames (fill : Z) (d : BlankAudioData) (ns : list Z)
    (allocated : nat) :
  ba_f d = None -> ba_keep d = false ->
  0 <= numChannels (format (ba_ai d)) ->
  0 < bytesPerSample (format (ba_ai d)) ->
  0 <= samplesPerFrame (format (ba_ai d)) <= INT_MAX ->
  Forall (blankInRange d) ns ->
  exists rs,
    blankAudioRequests fill ns d allocated = Some (rs, d, (allocated + length ns)%nat)
    /\ length rs = length ns
    /\ forall (k : nat) n, ns !! k = Some n ->
         exists f, rs !! k = Some (Some {| handle_id := (allocated + k)%nat;
                                           handle_frame := f |})
                   /\ blankFrame d n f.
Proof. intros. by apply blankAudio_nokeep_allocates. Qed.

Lemma blankAudio_nokeep_fresh_zero_frames_witness :
  exists rs,
    blankAudioRequests 0 [0; 2; 2] (blankShort false) 0
      = Some (rs, blankShort false, (0 + length [0; 2; 2])%nat)
    /\ length rs = length [0; 2; 2]
    /\ forall (k : nat) n, [0; 2; 2] !! k = Some n ->
         exists f, rs !! k = Some (Some {| handle_id := (0 + k)%nat; handle_frame := f |})
                   /\ blankFrame (blankShort false) n f.
Proof.
  apply (blankAudio_nokeep_fresh_zero_frames 0 (blankShort false) [0; 2; 2] 0%nat).
  - reflexivity.
  - reflexivity.
  - simpl. lia.
  - simpl. lia.
  - simpl. unfold INT_MAX. lia.
  - repeat constructor; unfold blankInRange; simpl; unfold INT_MAX; lia.
Defined.

(** ** Construction *)

(** BlankAudio reads its arguments with defaults: 44100 Hz, one hour of
    samples at the sample rate, the stereo layout, integer samples, 16 bits,
    [keep] off.  It fails exactly when the sample rate or the length is not
    positive or the core has no format for the sample type, the bit depth
    and the layout; otherwise the node has that format, rate and length,
    holds no frame yet, and runs unordered exactly when [keep] is on. *)
Theorem blankAudioCreate_cases (int64ToIntS : Z -> Z)
    (queryAudioFormat : VSSampleType -> Z -> Z -> option VSAudioFormat)
    (vsacFrontLeft vsacFrontRight : Z)
    (channels bits isfloat samplerate length keep : option Z) :
  let rate := argOr int64ToIntS samplerate 44100 in
  let len := argOr (fun v => v) length (rate * 60 * 60) in
  let layout :=
    argOr (fun v => v) channels
      (Z.lor (Z.shiftl 1 vsacFrontLeft) (Z.shiftl 1 vsacFrontRight)) in
  let st := if argOr (fun v => v) isfloat 0 =? 0 then stInteger else stFloat in
  let wantKeep := negb (argOr (fun v => v) keep 0 =? 0) in
  match blankAudioCreate int64ToIntS queryAudioFormat vsacFrontLeft vsacFrontRight
          channels bits isfloat samplerate length keep with
  | BlankError _ =>
      rate <= 0 \/ len <= 0
      \/ queryAudioFormat st (argOr int64ToIntS bits 16) layout = None
  | BlankFilter mode d =>
      0 < rate /\ 0 < len
      /\ queryAudioFormat st (argOr int64ToIntS bits 16) layout = Some (format (ba_ai d))
      /\ sampleRate (ba_ai d) = rate /\ numSamples (ba_ai d) = len
      /\ ba_f d = None /\ ba_keep d = wantKeep
      /\ mode = (if wantKeep then fmUnordered else fmParallel)
  end.
Proof.
  unfold blankAudioCreate, argOr.
  destruct channels, bits, isfloat as [fl|], samplerate, length, keep as [kp|]; simpl;
    repeat match goal with
    | |- context [Z.leb ?a ?b] => destruct (Z.leb_spec a b); simpl
    end; try lia; auto;
    try destruct (fl =? 0); simpl;
    match goal with
    | |- context [queryAudioFormat ?a ?b ?c] => destruct (queryAudioFormat a b c) eqn:Hq
    end; simpl; auto; repeat split; auto; lia.
Qed.

(** ** A long clip *)

(** C6, at BlankAudio with [length = 2^32 + 10] and [keep] unset: frame 0
    comes out 10 samples long, where
    [min samplesPerFrame (numSamples - 0 * samplesPerFrame)] is 3000. *)
Theorem blankAudio_long_clip_short_frame :
  blankAudioCreate saturate queryAudioFormat16 0 1 None None None None
    (Some 4294967306) None = BlankFilter fmParallel blankLong
  /\ ba_keep blankLong = false
  /\ (r ← blankAudioGetframe 0 0 arInitial blankLong 0;
      h ← fst (fst r);
      Some (frameLength (handle_frame h))) = Some 10
  /\ Z.min (samplesPerFrame (format (ba_ai blankLong)))
       (numSamples (ba_ai blankLong) - 0 * samplesPerFrame (format (ba_ai blankLong)))
     = 3000.
Proof. split; [reflexivity|]. vm_compute. repeat split. Qed.

(** * TestAudio *)

Lemma buf_set_loop (g : Z -> Z) samples : forall (w : list Z),
  0 <= samples <= Z.of_nat (length w) ->
  exists w',
    for_loop 0 samples (fun i w => buf_set w i (g i)) w = Some w'
    /\ length w' = length w
    /\ forall i, 0 <= i < samples -> buf_get w' i = Some (g i).
Proof.
  intros w Hs.
  destruct (for_loop_inv
              (fun k w' => length w' = length w
                           /\ forall i, 0 <= i < k -> buf_get w' i = Some (g i))
              0 samples (fun i w => buf_set w i (g i)) w) as (w' & Hw' & Hlen & Hall).
  - lia.
  - split; [done|]. intros; lia.
  - intros k w0 Hk [Hlen Hall]. unfold buf_set.
    destruct (Z.leb_spec 0 k); [|lia].
    destruct (Z.ltb_spec k (Z.of_nat (length w0))); [|lia]. simpl.
    eexists. split; [done|]. split; [by rewrite length_insert|].
    intros i Hi. rewrite buf_get_lookup by lia.
    destruct (decide (i = k)) as [->|Hne].
    + by rewrite list_lookup_insert_eq by lia.
    + rewrite list_lookup_insert_ne by lia.
      rewrite <- buf_get_lookup by lia. apply Hall. lia.
  - by exists w'.
Qed.

(** One frame of TestAudio, for a frame whose remaining sample count fits an
    [int]. *)
Lemma testAudioGetframe_frame fill n d :
  let fmt := format (ta_ai d) in
  let remaining := numSamples (ta_ai d) - n * samplesPerFrame fmt in
  0 <= numChannels fmt ->
  0 <= samplesPerFrame fmt <= INT_MAX ->
  0 <= remaining <= INT_MAX ->
  exists f,
    testAudioGetframe fill n arInitial d = Some (Returned f)
    /\ frameLength f = Z.min (samplesPerFrame fmt) remaining
    /\ forall ch i,
         0 <= ch < numChannels fmt -> 0 <= i < frameLength f ->
         frame_sample f ch i
         = Some (to_uint16 (Z.rem (n * samplesPerFrame fmt + i) 65535)).
Proof.
  intros fmt remaining Hch Hspf Hrem. unfold testAudioGetframe. fold fmt. fold remaining.
  assert (Hsamples : std_min_int (samplesPerFrame fmt) remaining
                     = Z.min (samplesPerFrame fmt) remaining).
  { apply std_min_int_spec; unfold in_int, INT_MIN, INT_MAX in *; lia. }
  rewrite Hsamples. set (samples := Z.min (samplesPerFrame fmt) remaining).
  set (g := fun i => to_uint16 (Z.rem (n * samplesPerFrame fmt + i) 65535)).
  set (frame0 := newAudioFrame fill fmt (sampleRate (ta_ai d)) samples).
  destruct (for_loop_inv
              (fun k f => frame_shape fmt f /\ frameLength f = samples
                          /\ forall ch i, 0 <= ch < k -> 0 <= i < samples ->
                                frame_raw f ch i = Some (g i))
              0 (numChannels fmt)
              (fun channel frame =>
                 w ← getReadPtr frame channel;
                 w' ← for_loop 0 samples
                        (fun i w =>
                           buf_set w i
                             (to_uint16 (Z.rem (n * samplesPerFrame fmt + i) 65535))) w;
                 Some (setChannel frame channel w')) frame0)
    as (f & -> & Hshape & Hlen & Hall).
  - done.
  - split; [apply newAudioFrame_shape|]. split; [done|]. intros; lia.
  - intros k f0 Hk (Hshape & Hlen & Hall).
    destruct (getReadPtr_shape_Some fmt f0 k) as (w & Hw & Hwlen); [done|lia|lia|].
    rewrite Hw. simpl.
    change (for_loop 0 samples _ w)
      with (for_loop 0 samples (fun i w => buf_set w i (g i)) w).
    destruct (buf_set_loop g samples w) as (w' & -> & Hlen' & Hw'); [subst samples; lia|].
    simpl. eexists. split; [done|].
    split; [apply setChannel_shape; [done|lia]|]. split; [done|].
    intros ch i Hch' Hi. destruct (decide (ch = k)) as [->|Hne].
    + rewrite frame_raw_setChannel_eq by (destruct Hshape; lia). by apply Hw'.
    + rewrite frame_raw_setChannel_ne by lia. apply Hall; lia.
  - simpl. exists f. split; [done|]. split; [done|].
    intros ch i Hch' Hi. rewrite frame_sample_raw by done. apply Hall; lia.
Qed.

(** C1, at sample 65535 of the default TestAudio stream (frame 21, index
    2535): both channels hold 0 there, where [i mod 65536] is 65535.  The
    generator stores [(startSample + i) % 0xFFFF], and 0xFFFF is 65535. *)
Theorem testAudio_sample_65535 :
  stream_sample 3000 (fun n => testAudioGetframe 0 n arInitial testAudioHour) 0 65535
    = Some 0
  /\ stream_sample 3000 (fun n => testAudioGetframe 0 n arInitial testAudioHour) 1 65535
     = Some 0
  /\ 65535 mod 65536 = 65535.
Proof.
  destruct (testAudioGetframe_frame 0 21 testAudioHour) as (f & Hf & Hlen & Hall);
    [simpl; lia|simpl; unfold INT_MAX; lia|simpl; unfold INT_MAX; lia|].
  unfold stream_sample.
  change (65535 / 3000) with 21. change (65535 mod 3000) with 2535.
  rewrite Hf. simpl in Hlen. simpl returned. cbn [mbind option_bind].
  split; [|split; [|done]].
  - rewrite (Hall 0 2535) by (simpl; lia). done.
  - rewrite (Hall 1 2535) by (simpl; lia). done.
Qed.

(** ** The test pattern *)

(** In a frame whose remaining sample count fits an [int], the sample at
    absolute index [n * samplesPerFrame + i] is that index modulo 65535, on
    every channel. *)
Theorem testAudio_samples_mod_65535 (fill n : Z) (d : TestAudioData) (ch i : Z) :
  let fmt := format (ta_ai d) in
  let remaining := numSamples (ta_ai d) - n * samplesPerFrame fmt in
  0 <= n ->
  0 <= samplesPerFrame fmt <= INT_MAX ->
  0 <= remaining <= INT_MAX ->
  0 <= ch < numChannels fmt ->
  0 <= i < Z.min (samplesPerFrame fmt) remaining ->
  (f ← returned (testAudioGetframe fill n arInitial d); frame_sample f ch i)
  = Some ((n * samplesPerFrame fmt + i) mod 65535).
Proof.
  intros fmt remaining Hn Hspf Hrem Hch Hi.
  destruct (testAudioGetframe_frame fill n d) as (f & -> & Hlen & Hall);
    fold fmt; fold remaining; try lia.
  simpl. fold fmt remaining in Hlen, Hall. rewrite Hall by lia.
  f_equal. rewrite Z.rem_mod_nonneg by nia.
  unfold to_uint16. apply Z.mod_small.
  pose proof (Z.mod_pos_bound (n * samplesPerFrame fmt + i) 65535). lia.
Qed.

Lemma testAudio_samples_mod_65535_witness :
  (f ← returned (testAudioGetframe 0 22 arInitial testAudioHour); frame_sample f 1 7)
  = Some ((22 * 3000 + 7) mod 65535).
Proof.
  apply (testAudio_samples_mod_65535 0 22 testAudioHour 1 7);
    simpl; unfold INT_MAX; lia.
Defined.

(** ** Construction *)

(** TestAudio reads its arguments with the defaults of BlankAudio.  A bit
    depth other than 16 is refused before anything else is looked at; for 16
    bits the constructor fails exactly when the sample rate or the length is
    not positive or the core has no 16-bit format for the sample type and
    the layout, and otherwise the node has that format, rate and length. *)
Theorem testAudioCreate_cases (int64ToIntS : Z -> Z)
    (queryAudioFormat : VSSampleType -> Z -> Z -> option VSAudioFormat)
    (vsacFrontLeft vsacFrontRight : Z)
    (channels bits isfloat samplerate length : option Z) :
  let rate := argOr int64ToIntS samplerate 44100 in
  let len := argOr (fun v => v) length (rate * 60 * 60) in
  let layout :=
    argOr (fun v => v) channels
      (Z.lor (Z.shiftl 1 vsacFrontLeft) (Z.shiftl 1 vsacFrontRight)) in
  let st := if argOr (fun v => v) isfloat 0 =? 0 then stInteger else stFloat in
  match testAudioCreate int64ToIntS queryAudioFormat vsacFrontLeft vsacFrontRight
          channels bits isfloat samplerate length with
  | TestError msg =>
      (argOr int64ToIntS bits 16 <> 16 /\ msg = "TestAudio: bits must be 16!")
      \/ (argOr int64ToIntS bits 16 = 16
          /\ (rate <= 0 \/ len <= 0 \/ queryAudioFormat st 16 layout = None))
  | TestFilter d =>
      argOr int64ToIntS bits 16 = 16 /\ 0 < rate /\ 0 < len
      /\ queryAudioFormat st 16 layout = Some (format (ta_ai d))
      /\ sampleRate (ta_ai d) = rate /\ numSamples (ta_ai d) = len
  end.
Proof.
  unfold testAudioCreate, argOr.
  destruct channels, bits as [b|], isfloat as [fl|], samplerate, length; simpl;
    try (destruct (Z.eqb_spec (int64ToIntS b) 16) as [Hb|Hb]; simpl; [rewrite ?Hb|by left]);
    repeat match goal with
    | |- context [Z.leb ?a ?b] => destruct (Z.leb_spec a b); simpl
    end; try (right; split; [done|lia]);
    try destruct (fl =? 0); simpl;
    match goal with
    | |- context [queryAudioFormat ?a ?b ?c] => destruct (queryAudioFormat a b c) eqn:Hq
    end; simpl; auto; repeat split; auto; lia.
Qed.
